(** * datadreamer: the generate_dataset_from_scratch pipeline

    A shallow embedding of
    [datadreamer/pipelines/generate_dataset_from_scratch.py]:
    the argument checks, the two annotation writers and [main], with the
    pretrained-model wrappers taken as an interface ([External]) and the
    file system, CUDA availability and matplotlib as an explicit world.

    Conventions of the model:
    - paths are POSIX paths ([posixpath.join], [posixpath.basename]);
    - a call into a wrapper is a total function of the class instantiated,
      the constructor's keyword arguments and the method's arguments; a
      generator is the finite list of the batches it yields;
    - writing a file always succeeds and is recorded as an event of the
      run; [os.makedirs] succeeds or raises OSError as the world decides;
    - [Image.open] returns the image last saved at the path;
    - an element of a numpy array is kept as the binary64 number it
      equals, together with the dtype of its array; arithmetic on elements
      is that of the dtype;
    - exceptions are values: a computation returns [Ok] or [Raise]. *)

From Stdlib Require Import List String Ascii ZArith Bool Arith Lia Floats.
From Stdlib Require Import DecimalString DecimalNat Sorted.
Import ListNotations.

Set Warnings "-register-all,-inexact-float".

Local Open Scope string_scope.
Local Open Scope list_scope.

(** [length] and [concat] are those of lists throughout; those of strings
    are written [String.length] and [String.concat]. *)
Local Abbreviation length := List.length.
Local Abbreviation concat := List.concat.

(** ** Python values and built-ins used by the pipeline *)

Module Py.

(** The values a list-valued command-line argument can hold: argparse
    produces [str] for [--class_names] and [int] for
    [--num_objects_range]; [isinstance] tells them apart. *)
Inductive pyval : Type :=
| PStr (s : string)
| PInt (z : Z).

Definition isinstance_str (v : pyval) : bool :=
  match v with PStr _ => true | PInt _ => false end.

Definition isinstance_int (v : pyval) : bool :=
  match v with PInt _ => true | PStr _ => false end.

(** [==] on values: a [str] never equals an [int]. *)
Definition pyval_eqb (a b : pyval) : bool :=
  match a, b with
  | PStr s, PStr t => String.eqb s t
  | PInt x, PInt y => Z.eqb x y
  | _, _ => false
  end.

Inductive exn : Type :=
| ValueError (msg : string)
| OSError (path : string)
| KeyError (key : string)
| IndexError
| TypeError
| FileNotFoundError (path : string).

Inductive result (A : Type) : Type :=
| Ok (a : A)
| Raise (e : exn).
Arguments Ok {A} a.
Arguments Raise {A} e.

(** [str(n)] for a non-negative integer, as used by the f-strings. *)
Definition str_of_nat (n : nat) : string :=
  NilEmpty.string_of_uint (Nat.to_uint n).

(** [repr(v)]. For a [str]: the text between single quotes, or between
    double quotes when it holds a single quote and no double quote; the
    quote in use and the backslash are escaped, tab, newline and carriage
    return are written [\t], [\n], [\r], and the other control characters
    [\xhh]. A string is its UTF-8 bytes here; bytes above 127 are kept,
    which is what [repr] does for printable characters. For an [int]: its
    decimal digits. *)
Fixpoint str_contains (c : ascii) (s : string) : bool :=
  match s with
  | EmptyString => false
  | String c' r => Ascii.eqb c' c || str_contains c r
  end.

Definition hex_digit (n : nat) : ascii :=
  nth n (list_ascii_of_string "0123456789abcdef") "0"%char.

Definition repr_char (quote c : ascii) : string :=
  let n := nat_of_ascii c in
  if Ascii.eqb c quote || Ascii.eqb c "092" then String "092" (String c "")
  else if Ascii.eqb c "009" then String "092" "t"
  else if Ascii.eqb c "010" then String "092" "n"
  else if Ascii.eqb c "013" then String "092" "r"
  else if (n <? 32)%nat || (n =? 127)%nat
       then String "092"
              (String "x" (String (hex_digit (n / 16))
                             (String (hex_digit (n mod 16)) "")))
       else String c "".

Fixpoint repr_chars (quote : ascii) (s : string) : string :=
  match s with
  | EmptyString => ""
  | String c r => repr_char quote c ++ repr_chars quote r
  end.

Definition repr_str (s : string) : string :=
  let quote : ascii :=
    if str_contains "'" s && negb (str_contains "034" s)
    then "034"%char else "'"%char in
  String quote (repr_chars quote s ++ String quote "").

Definition repr (v : pyval) : string :=
  match v with
  | PStr s => repr_str s
  | PInt z => NilZero.string_of_int (Z.to_int z)
  end.

(** The element types of the numpy arrays an annotator returns, and
    [a - b] on two elements of such an array: numpy subtracts in the
    array's dtype. An element is kept as the binary64 number it equals;
    [float32] subtraction rounds the exact difference to 24 bits of
    precision within the [float32] exponent range. *)
Inductive dtype : Type := Float32 | Float64.

Definition np_sub (d : dtype) (a b : float) : float :=
  match d with
  | Float64 => (a - b)%float
  | Float32 => SF2Prim (SFsub 24 128 (Prim2SF a) (Prim2SF b))
  end.

(** [posixpath.join(a, b)]. *)
Definition starts_with_sep (s : string) : bool :=
  match s with
  | String c _ => Ascii.eqb c "/"
  | EmptyString => false
  end.

Fixpoint ends_with_sep (s : string) : bool :=
  match s with
  | EmptyString => false
  | String c EmptyString => Ascii.eqb c "/"
  | String _ r => ends_with_sep r
  end.

Definition is_empty (s : string) : bool :=
  match s with EmptyString => true | _ => false end.

Definition path_join (a b : string) : string :=
  if starts_with_sep b then b
  else if is_empty a || ends_with_sep a then a ++ b
  else a ++ "/" ++ b.

(** [posixpath.basename(p)]: what follows the last ['/']. *)
Fixpoint contains_sep (s : string) : bool :=
  match s with
  | EmptyString => false
  | String c r => Ascii.eqb c "/" || contains_sep r
  end.

Fixpoint basename (p : string) : string :=
  match p with
  | EmptyString => EmptyString
  | String c r => if contains_sep p then basename r else p
  end.

(** [l.index(x)]: position of the first element equal to [x];
    [None] stands for the ValueError of a missing element, whose message
    is [repr(x)] followed by [is not in list]. *)
Fixpoint list_index (x : pyval) (l : list pyval) : option nat :=
  match l with
  | [] => None
  | y :: r =>
      if pyval_eqb y x then Some 0
      else option_map S (list_index x r)
  end.

(** [l[i]] with Python's negative indices; [None] is IndexError. *)
Definition getitem {A : Type} (l : list A) (i : Z) : option A :=
  let n := Z.of_nat (length l) in
  if (0 <=? i)%Z then nth_error l (Z.to_nat i)
  else if (- n <=? i)%Z then nth_error l (Z.to_nat (n + i))
  else None.

(** [l[i:j]] for [0 <= i <= j]. *)
Definition slice {A : Type} (l : list A) (i j : nat) : list A :=
  firstn (j - i) (skipn i l).

(** [range(start, stop, step)] for a positive [step]; CPython computes
    the length as [(stop - start + step - 1) // step]. A zero [step]
    (a ValueError in Python) gives the empty list here; the pipeline only
    reaches it after [check_args] has ruled that out. *)
Definition range_len (start stop step : nat) : nat :=
  if (step =? 0)%nat then 0 else (stop - start + step - 1) / step.

Definition range (start stop step : nat) : list nat :=
  map (fun k => start + k * step) (seq 0 (range_len start stop step)).

(** [enumerate(l)]. *)
Definition enumerate {A : Type} (l : list A) : list (nat * A) :=
  combine (seq 0 (length l)) l.

(** [zip] of two and of three lists stops at the shortest. *)
Definition zip {A B : Type} (a : list A) (b : list B) : list (A * B) :=
  combine a b.

Definition zip3 {A B C : Type} (a : list A) (b : list B) (c : list C)
  : list (A * B * C) :=
  combine (combine a b) c.

(** [np.unique] on a list of integers: the sorted distinct elements. *)
Fixpoint insert_unique (x : Z) (l : list Z) : list Z :=
  match l with
  | [] => [x]
  | y :: r =>
      if (x <? y)%Z then x :: y :: r
      else if (x =? y)%Z then y :: r
      else y :: insert_unique x r
  end.

Definition np_unique (l : list Z) : list Z :=
  fold_right insert_unique [] l.

(** A [dict] with string keys, in insertion order: assigning to a key
    that is present replaces its value in place, otherwise the pair is
    appended. [json.dump] writes the pairs in this order. *)
Fixpoint dict_set {V : Type} (k : string) (v : V) (d : list (string * V))
  : list (string * V) :=
  match d with
  | [] => [(k, v)]
  | (k', v') :: r =>
      if String.eqb k' k then (k, v) :: r
      else (k', v') :: dict_set k v r
  end.

Fixpoint dict_get {V : Type} (k : string) (d : list (string * V))
  : option V :=
  match d with
  | [] => None
  | (k', v') :: r => if String.eqb k' k then Some v' else dict_get k r
  end.

(** [not l]: the empty list is falsy. *)
Definition is_nil {A : Type} (l : list A) : bool :=
  match l with [] => true | _ => false end.

Definition dict_keys {V : Type} (d : list (string * V)) : list string :=
  map fst d.

End Py.
Import Py.

(** ** The batching of image paths (main, "Split image_paths into batches") *)

Definition image_batches {A : Type} (image_paths : list A)
  (batch_size_annotation : nat) : list (list A) :=
  map (fun i => slice image_paths i (i + batch_size_annotation))
      (range 0 (length image_paths) batch_size_annotation).

(** ** Data: JSON documents, images, figures, arguments *)

Inductive json : Type :=
| JNull
| JBool (b : bool)
| JInt (z : Z)
| JFloat (f : float)
| JStr (s : string)
| JList (l : list json)
| JObj (o : list (string * json)).

Definition json_of_pyval (v : pyval) : json :=
  match v with
  | PStr s => JStr s
  | PInt z => JInt z
  end.

(** Pixel data of a generated image, opaque to the pipeline. *)
Inductive image : Type := Pixels (id : nat).

(** A row [x1, y1, x2, y2] of the annotator's box array, with the dtype
    of the array. *)
Record box : Type := mkBox {
  box_dtype : dtype;
  x1 : float;
  y1 : float;
  x2 : float;
  y2 : float
}.

(** [patches.Rectangle((x, y), width, height, linewidth=..., edgecolor=...,
    facecolor=...)]. *)
Record rectangle : Type := mkRectangle {
  rect_x : float;
  rect_y : float;
  rect_width : float;
  rect_height : float;
  rect_linewidth : Z;
  rect_edgecolor : string;
  rect_facecolor : string
}.

(** [plt.text(x, y, f"{label_text} {score:.2f}", ...)], kept as the pair of
    the class name and the score rather than the formatted string. *)
Record text_label : Type := mkText {
  text_x : float;
  text_y : float;
  text_class : pyval;
  text_score : float
}.

(** The current matplotlib figure. *)
Record figure : Type := mkFigure {
  fig_image : image;
  fig_patches : list rectangle;
  fig_texts : list text_label;
  fig_title : option string
}.

(** The classes the pipeline can instantiate. *)
Inductive wrapper : Type :=
| SimplePromptGenerator
| LMPromptGenerator
| TinyLlamaLMPromptGenerator
| LMSynonymGenerator
| WordNetSynonymGenerator
| StableDiffusionImageGenerator
| StableDiffusionTurboImageGenerator
| StableDiffusionLightningImageGenerator
| OWLv2Annotator.

Definition prompt_generators : list (string * wrapper) :=
  [ ("simple", SimplePromptGenerator);
    ("lm", LMPromptGenerator);
    ("tiny", TinyLlamaLMPromptGenerator) ].

Definition synonym_generators : list (string * wrapper) :=
  [ ("llm", LMSynonymGenerator);
    ("wordnet", WordNetSynonymGenerator) ].

Definition image_generators : list (string * wrapper) :=
  [ ("sdxl", StableDiffusionImageGenerator);
    ("sdxl-turbo", StableDiffusionTurboImageGenerator);
    ("sdxl-lightning", StableDiffusionLightningImageGenerator) ].

Definition annotators : list (string * wrapper) :=
  [ ("owlv2", OWLv2Annotator) ].

(** The namespace returned by [parse_args]. *)
Record Args : Type := mkArgs {
  save_dir : string;
  task : string;
  class_names : list pyval;
  prompts_number : Z;
  num_objects_range : list pyval;
  prompt_generator : string;
  image_generator : string;
  image_annotator : string;
  synonym_generator : string;
  conf_threshold : float;
  use_tta : bool;
  use_image_tester : bool;
  image_tester_patience : Z;
  lm_quantization : string;
  batch_size_prompt : Z;
  batch_size_annotation : Z;
  batch_size_image : Z;
  device : string;
  seed : Z
}.

(** [vars(args)] as a JSON object, in the order the arguments are declared. *)
Definition json_of_args (args : Args) : json :=
  JObj
    [ ("save_dir", JStr (save_dir args));
      ("task", JStr (task args));
      ("class_names", JList (map json_of_pyval (class_names args)));
      ("prompts_number", JInt (prompts_number args));
      ("num_objects_range", JList (map json_of_pyval (num_objects_range args)));
      ("prompt_generator", JStr (prompt_generator args));
      ("image_generator", JStr (image_generator args));
      ("image_annotator", JStr (image_annotator args));
      ("synonym_generator", JStr (synonym_generator args));
      ("conf_threshold", JFloat (conf_threshold args));
      ("use_tta", JBool (use_tta args));
      ("use_image_tester", JBool (use_image_tester args));
      ("image_tester_patience", JInt (image_tester_patience args));
      ("lm_quantization", JStr (lm_quantization args));
      ("batch_size_prompt", JInt (batch_size_prompt args));
      ("batch_size_annotation", JInt (batch_size_annotation args));
      ("batch_size_image", JInt (batch_size_image args));
      ("device", JStr (device args));
      ("seed", JInt (seed args)) ].

Definition prompt : Type := (list pyval * string)%type.
Definition synonyms : Type := list (string * list string).

(** ** The world: file system, CUDA, and what the run has done so far *)

Inductive event : Type :=
| EvMakedirs (path : string)
| EvWriteJson (path : string) (content : json)
| EvInstantiate (cls : wrapper)
| EvSavePrompts (path : string) (prompts : list prompt)
| EvSaveSynonyms (path : string) (synonym_dict : synonyms)
| EvRelease (cls : wrapper)
| EvImageSave (path : string) (img : image)
| EvSavefig (path : string) (fig : figure).

Record World : Type := mkWorld {
  cuda_is_available : bool;          (* torch.cuda.is_available() *)
  initially_exists : string -> bool; (* paths present before the run *)
  makedirs_ok : string -> bool;      (* whether os.makedirs succeeds *)
  made : list string;                (* directories created by the run *)
  trace : list event                 (* effects of the run, oldest first *)
}.

Definition add_events (evs : list event) (w : World) : World :=
  mkWorld (cuda_is_available w) (initially_exists w) (makedirs_ok w)
          (made w) (trace w ++ evs).

Definition add_dir (p : string) (w : World) : World :=
  mkWorld (cuda_is_available w) (initially_exists w) (makedirs_ok w)
          (p :: made w) (trace w ++ [EvMakedirs p]).

(** A state-and-exception monad over the world. *)
Definition M (A : Type) : Type := World -> result (A * World).

Definition ret {A : Type} (a : A) : M A := fun w => Ok (a, w).

Definition bind {A B : Type} (m : M A) (k : A -> M B) : M B :=
  fun w =>
    match m w with
    | Ok (a, w') => k a w'
    | Raise e => Raise e
    end.

Definition raise {A : Type} (e : exn) : M A := fun _ => Raise e.

Declare Scope py_scope.
Delimit Scope py_scope with py.
Notation "x <- m ;; k" := (bind m (fun x => k))
  (at level 61, m at next level, right associativity) : py_scope.
Notation "' pat <- m ;; k" := (bind m (fun x => match x with pat => k end))
  (at level 61, pat pattern, m at next level, right associativity) : py_scope.
Notation "m ;;; k" := (bind m (fun _ => k))
  (at level 61, right associativity) : py_scope.
Local Open Scope py_scope.

Definition when (b : bool) (m : M unit) : M unit :=
  if b then m else ret tt.

Definition lift_option {A : Type} (o : option A) (e : exn) : M A :=
  match o with
  | Some a => ret a
  | None => raise e
  end.

Definition lift_result {A : Type} (r : result A) : M A :=
  match r with
  | Ok a => ret a
  | Raise e => raise e
  end.

(** [try: m  except OSError as e: handler] *)
Definition try_except_OSError {A : Type} (m : M A) (handler : string -> M A)
  : M A :=
  fun w =>
    match m w with
    | Raise (OSError p) => handler p w
    | r => r
    end.

Fixpoint foldM {A B : Type} (f : B -> A -> M B) (l : list A) (b : B) : M B :=
  match l with
  | [] => ret b
  | x :: r => b' <- f b x ;; foldM f r b'
  end.

Fixpoint mapM {A B : Type} (f : A -> M B) (l : list A) : M (list B) :=
  match l with
  | [] => ret []
  | x :: r => y <- f x ;; ys <- mapM f r ;; ret (y :: ys)
  end.

Definition emit (e : event) : M unit := fun w => Ok (tt, add_events [e] w).

(** [os.path.exists(p)] *)
Definition dir_exists (w : World) (p : string) : bool :=
  initially_exists w p || existsb (String.eqb p) (made w).

Definition path_exists (p : string) : M bool :=
  fun w => Ok (dir_exists w p, w).

Definition makedirs (p : string) : M unit :=
  fun w => if makedirs_ok w p then Ok (tt, add_dir p w) else Raise (OSError p).

Definition torch_cuda_is_available : M bool :=
  fun w => Ok (cuda_is_available w, w).

(** [d[k]] on one of the class tables. *)
Definition lookup (d : list (string * wrapper)) (k : string) : M wrapper :=
  lift_option (dict_get k d) (KeyError k).

(** [l[i]] *)
Definition index {A : Type} (l : list A) (i : Z) : M A :=
  lift_option (getitem l i) IndexError.

(** [a > b] on values: integers by value, strings lexicographically, and a
    TypeError across the two. *)
Definition py_gt (a b : pyval) : result bool :=
  match a, b with
  | PInt x, PInt y => Ok (x >? y)%Z
  | PStr s, PStr t => Ok (String.ltb t s)
  | _, _ => Raise TypeError
  end.

(** ** check_args *)

Definition conf_in_range (c : float) : bool :=
  ((0 <=? c) && (c <=? 1))%float.

Definition check_args (args : Args) : M unit :=
  (* Check save_dir *)
  ex <- path_exists (save_dir args) ;;
  when (negb ex)
    (try_except_OSError (makedirs (save_dir args))
       (fun _ => raise (ValueError ("Cannot create directory " ++ save_dir args)))) ;;;
  (* Check class_names *)
  when (is_nil (class_names args)
        || existsb (fun name => negb (isinstance_str name)) (class_names args))
    (raise (ValueError "--class_names must be a non-empty list of strings")) ;;;
  (* Check prompts_number *)
  when (prompts_number args <=? 0)%Z
    (raise (ValueError "--prompts_number must be a positive integer")) ;;;
  (* Check num_objects_range *)
  bad_range <-
    (if negb (length (num_objects_range args) =? 2)%nat then ret true
     else if negb (forallb isinstance_int (num_objects_range args)) then ret true
     else lo <- index (num_objects_range args) 0 ;;
          hi <- index (num_objects_range args) 1 ;;
          lift_result (py_gt lo hi)) ;;
  when bad_range
    (raise (ValueError "--num_objects_range must be two integers where the first is less than or equal to the second")) ;;;
  (* Check num_objects_range[1] *)
  hi <- index (num_objects_range args) 1 ;;
  too_many <- lift_result
                (py_gt hi (PInt (Z.of_nat (length (class_names args))))) ;;
  when too_many
    (raise (ValueError "--num_objects_range[1] must be less than or equal to the number of class names")) ;;;
  (* Check conf_threshold *)
  when (negb (conf_in_range (conf_threshold args)))
    (raise (ValueError "--conf_threshold must be between 0 and 1")) ;;;
  (* Check image_tester_patience *)
  when (image_tester_patience args <? 0)%Z
    (raise (ValueError "--image_tester_patience must be a non-negative integer")) ;;;
  (* Check device availability (for 'cuda') *)
  when (String.eqb (device args) "cuda")
    (cuda <- torch_cuda_is_available ;;
     when (negb cuda)
       (raise (ValueError "CUDA is not available. Please use --device cpu"))) ;;;
  (* Check for LM quantization availability *)
  cuda <- torch_cuda_is_available ;;
  when (negb (String.eqb (lm_quantization args) "none")
        && (String.eqb (device args) "cpu"
            || negb cuda
            || negb (String.eqb (prompt_generator args) "lm")))
    (raise (ValueError "LM Quantization is only available for CUDA devices and Mistral LM")) ;;;
  (* Check batch_size_prompt *)
  when (batch_size_prompt args <? 1)%Z
    (raise (ValueError "--batch_size_prompt must be a positive integer")) ;;;
  (* Check batch_size_annotation *)
  when (batch_size_annotation args <? 1)%Z
    (raise (ValueError "--batch_size_annotation must be a positive integer")) ;;;
  (* Check batch_size_image *)
  when (batch_size_image args <? 1)%Z
    (raise (ValueError "--batch_size_image must be a positive integer")) ;;;
  (* Check seed *)
  when (seed args <? 0)%Z
    (raise (ValueError "--seed must be a non-negative integer")).

(** ** The pretrained-model wrappers

    The wrapper classes live outside this file; the pipeline only calls
    them. Each function takes the class that was instantiated and the
    keyword arguments given to its constructor, then the arguments of the
    method. A generator is taken as the list of the batches it yields. *)
Record External : Type := mkExternal {
  (* cls(class_names, prompts_number, num_objects_range, seed, device,
         quantization, batch_size).generate_prompts() *)
  generate_prompts :
    wrapper -> list pyval -> Z -> list pyval -> Z -> string -> string -> Z ->
    list prompt;
  (* cls(device).generate_synonyms_for_list(class_names) *)
  generate_synonyms_for_list : wrapper -> string -> list pyval -> synonyms;
  (* cls(seed, use_clip_image_tester, image_tester_patience, batch_size,
         device).generate_images(prompts, prompt_objects) *)
  generate_images :
    wrapper -> Z -> bool -> Z -> Z -> string ->
    list string -> list (list pyval) -> list (list image);
  (* cls(device).annotate_batch(images, class_names, conf_threshold,
                                use_tta, synonym_dict) *)
  annotate_batch :
    wrapper -> string -> list image -> list pyval -> float -> bool ->
    option synonyms ->
    list (list box) * list (list float) * list (list Z)
}.

(** ** Writing the annotations *)

(** [ndarray.tolist()] for a box array and for a label array. *)
Definition json_of_box (b : box) : json :=
  JList [JFloat (x1 b); JFloat (y1 b); JFloat (x2 b); JFloat (y2 b)].

Definition boxes_tolist (bboxes : list box) : json :=
  JList (map json_of_box bboxes).

Definition labels_tolist (labels : list Z) : json :=
  JList (map JInt labels).

Definition det_entry (bboxes : list box) (labels : list Z) : json :=
  JObj [("boxes", boxes_tolist bboxes); ("labels", labels_tolist labels)].

Definition clf_entry (labels : list Z) : json :=
  JObj [("labels", labels_tolist labels)].

(** The dictionary [annotations] built by [save_det_annotations_to_json]. *)
Definition det_annotations (image_paths : list string)
  (boxes_list : list (list box)) (labels_list : list (list Z))
  (class_names : list pyval) : list (string * json) :=
  let annotations :=
    fold_left
      (fun annotations '(image_path, bboxes, labels) =>
         let image_name := basename image_path in
         dict_set image_name (det_entry bboxes labels) annotations)
      (zip3 image_paths boxes_list labels_list) [] in
  dict_set "class_names" (JList (map json_of_pyval class_names)) annotations.

Definition save_det_annotations_to_json (image_paths : list string)
  (boxes_list : list (list box)) (labels_list : list (list Z))
  (class_names : list pyval) (save_dir file_name : string) : M unit :=
  emit (EvWriteJson (path_join save_dir file_name)
          (JObj (det_annotations image_paths boxes_list labels_list class_names))).

(** The dictionary [annotations] built by [save_clf_annotations_to_json]. *)
Definition clf_annotations (image_paths : list string)
  (labels_list : list (list Z)) (class_names : list pyval)
  : list (string * json) :=
  let annotations :=
    fold_left
      (fun annotations '(image_path, labels) =>
         let image_name := basename image_path in
         dict_set image_name (clf_entry labels) annotations)
      (zip image_paths labels_list) [] in
  dict_set "class_names" (JList (map json_of_pyval class_names)) annotations.

Definition save_clf_annotations_to_json (image_paths : list string)
  (labels_list : list (list Z)) (class_names : list pyval)
  (save_dir file_name : string) : M unit :=
  emit (EvWriteJson (path_join save_dir file_name)
          (JObj (clf_annotations image_paths labels_list class_names))).

(** The dictionary obtained by assigning the given pairs in order, and
    the pairs each writer assigns before the class names. *)
Definition dict_of_pairs {V : Type} (kvs : list (string * V))
  : list (string * V) :=
  fold_left (fun d kv => dict_set (fst kv) (snd kv) d) kvs [].

Definition det_entries (image_paths : list string)
  (boxes_list : list (list box)) (labels_list : list (list Z))
  : list (string * json) :=
  map (fun e => (basename (fst (fst e)), det_entry (snd (fst e)) (snd e)))
      (zip3 image_paths boxes_list labels_list).

Definition clf_entries (image_paths : list string)
  (labels_list : list (list Z)) : list (string * json) :=
  map (fun e => (basename (fst e), clf_entry (snd e)))
      (zip image_paths labels_list).

(** ** main *)

(** The image generation loop: every image of every yielded batch is saved
    under the next free number. *)
Definition image_file_name (n : nat) : string :=
  "image_" ++ str_of_nat n ++ ".jpg".

Definition save_generated_image (save_dir : string)
  (st : list string * nat) (generated_image : image) : M (list string * nat) :=
  let '(image_paths, num_generated_images) := st in
  let image_path := path_join save_dir (image_file_name num_generated_images) in
  emit (EvImageSave image_path generated_image) ;;;
  ret (image_paths ++ [image_path], num_generated_images + 1).

Definition save_generated_images (save_dir : string)
  (batches : list (list image)) : M (list string * nat) :=
  foldM (fun st generated_images_batch =>
           foldM (save_generated_image save_dir) generated_images_batch st)
        batches ([], 0).

(** What the loop is expected to produce: the path of the [n]-th image
    and the save events of a list of images numbered from [start]. *)
Definition image_path_of (save_dir : string) (n : nat) : string :=
  path_join save_dir (image_file_name n).

Definition image_save_events (save_dir : string) (start : nat)
  (imgs : list image) : list event :=
  map (fun ni => EvImageSave (image_path_of save_dir (fst ni)) (snd ni))
      (combine (seq start (length imgs)) imgs).

(** [Image.open(path)]: the file at [path] holds what was last written
    there; it opens when that was an image. *)
Definition written_path (e : event) : option string :=
  match e with
  | EvWriteJson p _ | EvSavePrompts p _ | EvSaveSynonyms p _
  | EvImageSave p _ | EvSavefig p _ => Some p
  | EvMakedirs _ | EvInstantiate _ | EvRelease _ => None
  end.

Fixpoint last_image (p : string) (tr : list event) (found : option image)
  : option image :=
  match tr with
  | [] => found
  | e :: r =>
      match written_path e with
      | Some q =>
          if String.eqb q p
          then last_image p r
                 (match e with EvImageSave _ img => Some img | _ => None end)
          else last_image p r found
      | None => last_image p r found
      end
  end.

Definition image_open (p : string) : M image :=
  fun w =>
    match last_image p (trace w) None with
    | Some img => Ok (img, w)
    | None => Raise (FileNotFoundError p)
    end.

(** Classification: the labels of an image are the indices of its prompt's
    objects among the class names. *)
Definition object_label (class_names : list pyval)
  (labels : list Z) (obj : pyval) : M (list Z) :=
  i <- lift_option (list_index obj class_names)
         (ValueError (repr obj ++ " is not in list")) ;;
  ret (labels ++ [Z.of_nat i]).

Definition classification_labels (class_names : list pyval)
  (prompt_objects : list (list pyval)) : M (list (list Z)) :=
  foldM (fun labels_list prompt_objs =>
           labels <- foldM (object_label class_names) prompt_objs [] ;;
           ret (labels_list ++ [np_unique labels]))
        prompt_objects [].

(** Detection: the figure of one image. *)
Definition new_rectangle (b : box) : rectangle :=
  mkRectangle (x1 b) (y1 b)
    (np_sub (box_dtype b) (x2 b) (x1 b))
    (np_sub (box_dtype b) (y2 b) (y1 b)) 2 "r" "none".

Definition bbox_file_name (k : nat) : string :=
  "bbox_" ++ str_of_nat k ++ ".jpg".

Definition draw_detection (class_names : list pyval)
  (generated_prompts : list prompt) (k : nat)
  (st : list Z * figure) (d : box * float * Z) : M (list Z * figure) :=
  let '(labels, fig) := st in
  let '(b, score, label) := d in
  let labels := labels ++ [label] in
  let patches := fig_patches fig ++ [new_rectangle b] in
  label_text <- index class_names label ;;
  let texts := fig_texts fig ++ [mkText (x1 b) (y1 b) label_text score] in
  (* Add prompt text as title *)
  p <- index generated_prompts (Z.of_nat k) ;;
  ret (labels, mkFigure (fig_image fig) patches texts (Some (snd p))).

Definition annotate_image (class_names : list pyval)
  (generated_prompts : list prompt) (bbox_dir : string)
  (batch_size_annotation i : nat)
  (boxes_batch : list (list box)) (scores_batch : list (list float))
  (local_labels_batch : list (list Z))
  (labels_list : list (list Z)) (ji : nat * image) : M (list (list Z)) :=
  let '(j, image) := ji in
  let k := i * batch_size_annotation + j in
  (* Save bbox visualizations *)
  bj <- index boxes_batch (Z.of_nat j) ;;
  sj <- index scores_batch (Z.of_nat j) ;;
  lj <- index local_labels_batch (Z.of_nat j) ;;
  r <- foldM (draw_detection class_names generated_prompts k)
         (zip3 bj sj lj) ([], mkFigure image [] [] None) ;;
  emit (EvSavefig (path_join bbox_dir (bbox_file_name k)) (snd r)) ;;;
  ret (labels_list ++ [fst r]).

Definition det_state : Type :=
  (list (list box) * list (list float) * list (list Z))%type.

Definition annotate_image_batch (ext : External) (args : Args)
  (annotator_class : wrapper) (generated_prompts : list prompt)
  (synonym_dict : option synonyms) (bbox_dir : string)
  (st : det_state) (ib : nat * list string) : M det_state :=
  let '(boxes_list, scores_list, labels_list) := st in
  let '(i, image_batch) := ib in
  images <- mapM image_open image_batch ;;
  let out := annotate_batch ext annotator_class (device args) images
               (class_names args) (conf_threshold args) (use_tta args)
               synonym_dict in
  let boxes_batch := fst (fst out) in
  let scores_batch := snd (fst out) in
  let local_labels_batch := snd out in
  let boxes_list := boxes_list ++ boxes_batch in
  let scores_list := scores_list ++ scores_batch in
  labels_list <-
    foldM (annotate_image (class_names args) generated_prompts bbox_dir
             (Z.to_nat (batch_size_annotation args)) i
             boxes_batch scores_batch local_labels_batch)
          (enumerate images) labels_list ;;
  ret (boxes_list, scores_list, labels_list).

(** The local variables of [main] when it returns. Python's [main] returns
    None; the model hands back its locals so that statements can name
    them. *)
Record Locals : Type := mkLocals {
  generated_prompts : list prompt;
  synonym_dict : option synonyms;
  image_paths : list string;
  num_generated_images : nat;
  boxes_list : list (list box);
  scores_list : list (list float);
  labels_list : list (list Z)
}.

(** The two arms of [if args.task == "classification"] at the end of
    [main]. *)
Definition classification_branch (class_names : list pyval)
  (prompt_objects : list (list pyval)) (image_paths : list string)
  (save_dir : string) : M (list (list Z)) :=
  (* Classification annotation *)
  labels_list <- classification_labels class_names prompt_objects ;;
  save_clf_annotations_to_json image_paths labels_list class_names
    save_dir "annotations.json" ;;;
  ret labels_list.

Definition detection_branch (ext : External) (args : Args)
  (generated_prompts : list prompt) (synonym_dict : option synonyms)
  (image_paths : list string) (save_dir bbox_dir : string) : M det_state :=
  (* Annotation *)
  annotator_class <- lookup annotators (image_annotator args) ;;
  emit (EvInstantiate annotator_class) ;;;
  (* Split image_paths into batches *)
  let image_batches :=
    image_batches image_paths (Z.to_nat (batch_size_annotation args)) in
  st <-
    foldM (annotate_image_batch ext args annotator_class generated_prompts
             synonym_dict bbox_dir)
          (enumerate image_batches) ([], [], []) ;;
  let boxes_list := fst (fst st) in
  let labels_list := snd st in
  (* Save annotations as JSON files *)
  save_det_annotations_to_json image_paths boxes_list labels_list
    (class_names args) save_dir "annotations.json" ;;;
  ret st.

Definition main (ext : External) (args : Args) : M Locals :=
  check_args args ;;;
  let save_dir := save_dir args in
  (* Directories for saving images and bboxes *)
  let bbox_dir := path_join save_dir "bboxes_visualization" in
  e1 <- path_exists save_dir ;;
  when (negb e1) (makedirs save_dir) ;;;
  e2 <- path_exists bbox_dir ;;
  when (negb e2) (makedirs bbox_dir) ;;;
  (* Save arguments *)
  emit (EvWriteJson (path_join save_dir "generation_args.json")
          (json_of_args args)) ;;;
  (* Prompt generation *)
  prompt_generator_class <- lookup prompt_generators (prompt_generator args) ;;
  emit (EvInstantiate prompt_generator_class) ;;;
  let generated_prompts :=
    generate_prompts ext prompt_generator_class (class_names args)
      (prompts_number args) (num_objects_range args) (seed args)
      (device args) (lm_quantization args) (batch_size_prompt args) in
  emit (EvSavePrompts (path_join save_dir "prompts.json") generated_prompts) ;;;
  emit (EvRelease prompt_generator_class) ;;;
  (* Synonym generation *)
  synonym_dict <-
    (if negb (String.eqb (synonym_generator args) "none") then
       synonym_generator_class <-
         lookup synonym_generators (synonym_generator args) ;;
       emit (EvInstantiate synonym_generator_class) ;;;
       let synonym_dict :=
         generate_synonyms_for_list ext synonym_generator_class
           (device args) (class_names args) in
       emit (EvRelease synonym_generator_class) ;;;
       emit (EvSaveSynonyms (path_join save_dir "synonyms.json")
               synonym_dict) ;;;
       ret (Some synonym_dict)
     else ret None) ;;
  (* Image generation *)
  image_generator_class <- lookup image_generators (image_generator args) ;;
  emit (EvInstantiate image_generator_class) ;;;
  let prompts := map snd generated_prompts in
  let prompt_objects := map fst generated_prompts in
  saved <-
    save_generated_images save_dir
      (generate_images ext image_generator_class (seed args)
         (use_image_tester args) (image_tester_patience args)
         (batch_size_image args) (device args) prompts prompt_objects) ;;
  let image_paths := fst saved in
  let num_generated_images := snd saved in
  emit (EvRelease image_generator_class) ;;;
  if String.eqb (task args) "classification" then
    labels_list <-
      classification_branch (class_names args) prompt_objects image_paths
        save_dir ;;
    ret (mkLocals generated_prompts synonym_dict image_paths
           num_generated_images [] [] labels_list)
  else
    st <-
      detection_branch ext args generated_prompts synonym_dict image_paths
        save_dir bbox_dir ;;
    ret (mkLocals generated_prompts synonym_dict image_paths
           num_generated_images (fst (fst st)) (snd (fst st)) (snd st)).

(** ** Vocabulary of the statements *)

(** "The index of the first occurrence of [obj] in [class_names]", and the
    label of an object that is known to occur. *)
Definition first_occurrence (obj : pyval) (class_names : list pyval)
  (k : nat) : Prop :=
  nth_error class_names k = Some obj
  /\ forall j, j < k -> nth_error class_names j <> Some obj.

Definition label_of (class_names : list pyval) (obj : pyval) : Z :=
  match list_index obj class_names with
  | Some k => Z.of_nat k
  | None => 0
  end.

(** What the detection loop is expected to do with one image: the
    detections it draws are those that [zip] pairs up, and the figure it
    saves shows the image with one rectangle for each of them. *)
Definition boxes_drawn (bj : list box) (sj : list float) (lj : list Z)
  : list box :=
  map (fun d => fst (fst d)) (zip3 bj sj lj).

Definition labels_drawn (bj : list box) (sj : list float) (lj : list Z)
  : list Z :=
  map snd (zip3 bj sj lj).

Definition image_annotated (boxes_batch : list (list box))
  (scores_batch : list (list float)) (local_labels_batch : list (list Z))
  (ji : nat * image) (r : list Z * figure) : Prop :=
  exists bj sj lj,
    nth_error boxes_batch (fst ji) = Some bj
    /\ nth_error scores_batch (fst ji) = Some sj
    /\ nth_error local_labels_batch (fst ji) = Some lj
    /\ fst r = labels_drawn bj sj lj
    /\ fig_image (snd r) = snd ji
    /\ fig_patches (snd r) = map new_rectangle (boxes_drawn bj sj lj)
    /\ length (fig_texts (snd r)) = length (boxes_drawn bj sj lj).

Definition savefig_event (bbox_dir : string) (batch_size_annotation i : nat)
  (jr : (nat * image) * (list Z * figure)) : event :=
  EvSavefig
    (path_join bbox_dir
       (bbox_file_name (i * batch_size_annotation + fst (fst jr))))
    (snd (snd jr)).

(** What the detection loop is expected to do with one batch: it opens as
    many images as the batch has paths, and annotates each of them from
    what [annotate_batch] returns for these images. *)
Definition batch_output (ext : External) (args : Args) (cls : wrapper)
  (syn : option synonyms) (images : list image)
  : list (list box) * list (list float) * list (list Z) :=
  annotate_batch ext cls (device args) images (class_names args)
    (conf_threshold args) (use_tta args) syn.

Definition batch_annotated (ext : External) (args : Args) (cls : wrapper)
  (syn : option synonyms) (ib : nat * list string)
  (br : list image * list (list Z * figure)) : Prop :=
  length (fst br) = length (snd ib)
  /\ Forall2
       (image_annotated
          (fst (fst (batch_output ext args cls syn (fst br))))
          (snd (fst (batch_output ext args cls syn (fst br))))
          (snd (batch_output ext args cls syn (fst br))))
       (enumerate (fst br)) (snd br).

Definition batch_events (bbox_dir : string) (batch_size_annotation : nat)
  (ibr : (nat * list string) * (list image * list (list Z * figure)))
  : list event :=
  map (savefig_event bbox_dir batch_size_annotation (fst (fst ibr)))
      (combine (enumerate (fst (snd ibr))) (snd (snd ibr))).

(** The shape of the effects of a run of [main] that returns: directories
    made, then the arguments, the prompt stage, the synonym stage, the image
    stage, and what the taken branch does. *)
Definition is_makedirs (e : event) : Prop :=
  match e with EvMakedirs _ => True | _ => False end.

Definition prompts_of (ext : External) (args : Args) (pg : wrapper)
  : list prompt :=
  generate_prompts ext pg (class_names args) (prompts_number args)
    (num_objects_range args) (seed args) (device args)
    (lm_quantization args) (batch_size_prompt args).

Definition images_of (ext : External) (args : Args) (pg ig : wrapper)
  : list image :=
  concat
    (generate_images ext ig (seed args) (use_image_tester args)
       (image_tester_patience args) (batch_size_image args) (device args)
       (map snd (prompts_of ext args pg)) (map fst (prompts_of ext args pg))).

Definition run_events (ext : External) (args : Args) (pg ig : wrapper)
  (dir_evs syn_evs branch_evs : list event) : list event :=
  dir_evs
  ++ [ EvWriteJson (path_join (save_dir args) "generation_args.json")
         (json_of_args args);
       EvInstantiate pg;
       EvSavePrompts (path_join (save_dir args) "prompts.json")
         (prompts_of ext args pg);
       EvRelease pg ]
  ++ syn_evs
  ++ [EvInstantiate ig]
  ++ image_save_events (save_dir args) 0 (images_of ext args pg ig)
  ++ [EvRelease ig]
  ++ branch_evs.

(** The contract of the annotator that the plotting code relies on: for a
    batch of [n] images it returns [n] box arrays, each with as many scores
    and labels as boxes. *)
Definition wf_annotator (ext : External) : Prop :=
  forall cls dev images names conf tta syn,
    length (fst (fst (annotate_batch ext cls dev images names conf tta syn)))
    = length images
    /\ Forall2 (fun (b : list box) (sc : list float) => length b = length sc)
         (fst (fst (annotate_batch ext cls dev images names conf tta syn)))
         (snd (fst (annotate_batch ext cls dev images names conf tta syn)))
    /\ Forall2 (fun (b : list box) (l : list Z) => length b = length l)
         (fst (fst (annotate_batch ext cls dev images names conf tta syn)))
         (snd (annotate_batch ext cls dev images names conf tta syn)).

Definition bbox_path_of (bbox_dir : string) (k : nat) : string :=
  path_join bbox_dir (bbox_file_name k).

(** The global indices [i * batch_size + j] met by the two nested loops,
    and the figures they produce, in order. *)
Definition batch_indices (batch_size_annotation : nat)
  (ibs : list (nat * list string)) : list nat :=
  concat (map (fun ib => map (fun j => fst ib * batch_size_annotation + j)
                             (seq 0 (length (snd ib)))) ibs).

Definition run_figures (brs : list (list image * list (list Z * figure)))
  : list figure :=
  concat (map (fun br => map snd (snd br)) brs).

(** The figures saved by a list of events, in order. *)
Definition savefigs (evs : list event) : list (string * figure) :=
  flat_map (fun e => match e with
                     | EvSavefig p fig => [(p, fig)]
                     | _ => []
                     end) evs.

(** The argument constraints, as the specification lists them. A
    threshold is outside [[0, 1]] when it is not both at least 0 and at
    most 1, which includes NaN. *)
Definition in_unit_interval (c : float) : Prop :=
  (0 <=? c)%float = true /\ (c <=? 1)%float = true.

Definition constraint_violated (args : Args) (cuda : bool) : Prop :=
  class_names args = []
  \/ (exists v, In v (class_names args) /\ isinstance_str v = false)
  \/ (prompts_number args <= 0)%Z
  \/ ~ (exists a b, num_objects_range args = [PInt a; PInt b] /\ (a <= b)%Z)
  \/ (exists b, nth_error (num_objects_range args) 1 = Some (PInt b)
                /\ (b > Z.of_nat (length (class_names args)))%Z)
  \/ ~ in_unit_interval (conf_threshold args)
  \/ (image_tester_patience args < 0)%Z
  \/ (device args = "cuda" /\ cuda = false)
  \/ (lm_quantization args <> "none"
      /\ (device args = "cpu" \/ cuda = false \/ prompt_generator args <> "lm"))
  \/ (batch_size_prompt args < 1)%Z
  \/ (batch_size_annotation args < 1)%Z
  \/ (batch_size_image args < 1)%Z
  \/ (seed args < 0)%Z.

(** The world once [check_args] has made sure the save directory exists. *)
Definition world_after_check (args : Args) (w : World) : World :=
  if dir_exists w (save_dir args) then w else add_dir (save_dir args) w.

(** The defaults declared in [parse_args]. *)
Definition default_args : Args :=
  {| save_dir := "generated_dataset";
     task := "detection";
     class_names := [PStr "bear"; PStr "bicycle"; PStr "bird"; PStr "person"];
     prompts_number := 10;
     num_objects_range := [PInt 1; PInt 3];
     prompt_generator := "simple";
     image_generator := "sdxl-turbo";
     image_annotator := "owlv2";
     synonym_generator := "none";
     conf_threshold := 0.15%float;
     use_tta := false;
     use_image_tester := false;
     image_tester_patience := 1;
     lm_quantization := "none";
     batch_size_prompt := 64;
     batch_size_annotation := 1;
     batch_size_image := 1;
     device := "cuda";
     seed := 42 |}.

(** A machine with CUDA, an empty working directory, and a file system
    that lets every directory be created. *)
Definition fresh_world : World :=
  mkWorld true (fun _ => false) (fun _ => true) [] [].

(** ** A small concrete instance, for running the model

    Stand-ins for the wrappers: two fixed prompts, one image per prompt in
    batches of one, and a detector that reports one box of class 0 per
    image. *)
Definition toy_ext : External :=
  {| generate_prompts := fun _ _ _ _ _ _ _ _ =>
       [ ([PStr "bird"; PStr "bear"], "a bird next to a bear");
         ([PStr "bear"; PStr "bear"], "two bears") ];
     generate_synonyms_for_list := fun _ _ names =>
       map (fun v => match v with
                     | PStr s => (s, [s])
                     | PInt _ => ("", [])
                     end) names;
     generate_images := fun _ _ _ _ _ _ prompts _ =>
       map (fun i => [Pixels i]) (seq 0 (length prompts));
     annotate_batch := fun _ _ images _ _ _ _ =>
       (map (fun _ => [mkBox Float32 1 2 4 6]) images,
        map (fun _ => [0.5%float]) images,
        map (fun _ => [0%Z]) images) |}.

Definition toy_args (task synonym_generator : string) : Args :=
  {| save_dir := "out";
     task := task;
     class_names := [PStr "bear"; PStr "bird"];
     prompts_number := 2;
     num_objects_range := [PInt 1; PInt 2];
     prompt_generator := "simple";
     image_generator := "sdxl-turbo";
     image_annotator := "owlv2";
     synonym_generator := synonym_generator;
     conf_threshold := 0.15%float;
     use_tta := false;
     use_image_tester := false;
     image_tester_patience := 1;
     lm_quantization := "none";
     batch_size_prompt := 64;
     batch_size_annotation := 2;
     batch_size_image := 1;
     device := "cuda";
     seed := 42 |}.

(** The results of three runs of the model on the small instance. *)
Definition no_run : Locals * World :=
  (mkLocals [] None [] 0 [] [] [], fresh_world).

Definition toy_detection_run : Locals * World :=
  Eval vm_compute in
    match main toy_ext (toy_args "detection" "none") fresh_world with
    | Ok r => r
    | Raise _ => no_run
    end.

Definition toy_classification_run : Locals * World :=
  Eval vm_compute in
    match main toy_ext (toy_args "classification" "none") fresh_world with
    | Ok r => r
    | Raise _ => no_run
    end.

Definition toy_wordnet_run : Locals * World :=
  Eval vm_compute in
    match main toy_ext (toy_args "classification" "wordnet") fresh_world with
    | Ok r => r
    | Raise _ => no_run
    end.

Definition default_run : Locals * World :=
  Eval vm_compute in
    match main toy_ext default_args fresh_world with
    | Ok r => r
    | Raise _ => no_run
    end.

(** ** Vocabulary of the further properties *)

(** The text drawn for a detection: at the box's corner, with the class
    name found at [label] (counted from the end when negative) and the
    score. *)
Definition text_of_detection (class_names : list pyval)
  (d : box * float * Z) (t : text_label) : Prop :=
  text_x t = x1 (fst (fst d))
  /\ text_y t = y1 (fst (fst d))
  /\ text_score t = snd (fst d)
  /\ getitem class_names (snd d) = Some (text_class t).

(** The detections of an image can all be drawn: each label indexes a class
    name and, if there is any detection, prompt [k] exists. *)
Definition drawable (class_names : list pyval)
  (generated_prompts : list prompt) (k : nat)
  (dets : list (box * float * Z)) : Prop :=
  dets = []
  \/ (nth_error generated_prompts k <> None
      /\ Forall (fun d => getitem class_names (snd d) <> None) dets).

(** Which wrapper is loaded after a sequence of events, starting with
    [cur] loaded: instantiating needs nothing loaded, releasing needs the
    released wrapper to be the loaded one; [None] when the sequence breaks
    this discipline. *)
Definition wrapper_tag (c : wrapper) : nat :=
  match c with
  | SimplePromptGenerator => 0
  | LMPromptGenerator => 1
  | TinyLlamaLMPromptGenerator => 2
  | LMSynonymGenerator => 3
  | WordNetSynonymGenerator => 4
  | StableDiffusionImageGenerator => 5
  | StableDiffusionTurboImageGenerator => 6
  | StableDiffusionLightningImageGenerator => 7
  | OWLv2Annotator => 8
  end.

Definition wrapper_eqb (a b : wrapper) : bool :=
  Nat.eqb (wrapper_tag a) (wrapper_tag b).

Fixpoint loaded_after (cur : option wrapper) (evs : list event)
  : option (option wrapper) :=
  match evs with
  | [] => Some cur
  | EvInstantiate c :: r =>
      match cur with
      | None => loaded_after (Some c) r
      | Some _ => None
      end
  | EvRelease c :: r =>
      match cur with
      | Some c' => if wrapper_eqb c' c then loaded_after None r else None
      | None => None
      end
  | _ :: r => loaded_after cur r
  end.

Definition loads_nothing (e : event) : Prop :=
  match e with
  | EvInstantiate _ | EvRelease _ => False
  | _ => True
  end.

(** The world once [main] has made sure of its two directories. *)
Definition world_after_dirs (args : Args) (w : World) : World :=
  if dir_exists (world_after_check args w)
       (path_join (save_dir args) "bboxes_visualization")
  then world_after_check args w
  else add_dir (path_join (save_dir args) "bboxes_visualization")
         (world_after_check args w).

(** A figure saved in [bbox_dir] under one of the names [bbox_k.jpg]. *)
Definition is_bbox_savefig (bbox_dir : string) (e : event) : Prop :=
  exists k fig, e = EvSavefig (path_join bbox_dir (bbox_file_name k)) fig.

(** The [choices=] lists of [parse_args]: what argparse lets through for the
    arguments that have one. *)
Definition choices_respected (args : Args) : Prop :=
  In (task args) ["detection"; "classification"]
  /\ In (prompt_generator args) ["simple"; "lm"; "tiny"]
  /\ In (image_generator args) ["sdxl"; "sdxl-turbo"; "sdxl-lightning"]
  /\ In (image_annotator args) ["owlv2"]
  /\ In (synonym_generator args) ["none"; "llm"; "wordnet"]
  /\ In (lm_quantization args) ["none"; "4bit"]
  /\ In (device args) ["cuda"; "cpu"].

(** The directories [main] needs are there or can be made. *)
Definition directories_available (args : Args) (w : World) : Prop :=
  (dir_exists w (save_dir args) = true
   \/ makedirs_ok w (save_dir args) = true)
  /\ (dir_exists (world_after_check args w)
        (path_join (save_dir args) "bboxes_visualization") = true
      \/ makedirs_ok (world_after_check args w)
           (path_join (save_dir args) "bboxes_visualization") = true).

(** The [j]-th image of batch [i] can be plotted from the annotator's
    output for the batch: it has a row of boxes, of scores and of labels, and
    the detections these pair up can be drawn. *)
Definition image_drawable (class_names : list pyval)
  (generated_prompts : list prompt) (batch_size_annotation i : nat)
  (out : list (list box) * list (list float) * list (list Z)) (j : nat)
  : Prop :=
  exists bj sj lj,
    nth_error (fst (fst out)) j = Some bj
    /\ nth_error (snd (fst out)) j = Some sj
    /\ nth_error (snd out) j = Some lj
    /\ drawable class_names generated_prompts (i * batch_size_annotation + j)
         (zip3 bj sj lj).

Definition batch_drawable (ext : External) (args : Args)
  (syn : option synonyms) (generated_prompts : list prompt) (i : nat)
  (images : list image) : Prop :=
  forall j, j < length images ->
    image_drawable (class_names args) generated_prompts
      (Z.to_nat (batch_size_annotation args)) i
      (batch_output ext args OWLv2Annotator syn images) j.

Definition run_drawable (ext : External) (args : Args)
  (syn : option synonyms) (generated_prompts : list prompt)
  (imgs : list image) : Prop :=
  forall i images,
    nth_error (image_batches imgs (Z.to_nat (batch_size_annotation args))) i
    = Some images ->
    batch_drawable ext args syn generated_prompts i images.

(** The synonyms a run computes, from the arguments alone. *)
Definition synonyms_of (ext : External) (args : Args) : option synonyms :=
  if String.eqb (synonym_generator args) "none" then None
  else match dict_get (synonym_generator args) synonym_generators with
       | Some cls =>
           Some (generate_synonyms_for_list ext cls (device args)
                   (class_names args))
       | None => None
       end.

(** The defaults with [--device cpu --lm_quantization 4bit
    --prompt_generator lm]. *)
Definition quantized_cpu_args : Args :=
  {| save_dir := "generated_dataset";
     task := "detection";
     class_names := [PStr "bear"; PStr "bicycle"; PStr "bird"; PStr "person"];
     prompts_number := 10;
     num_objects_range := [PInt 1; PInt 3];
     prompt_generator := "lm";
     image_generator := "sdxl-turbo";
     image_annotator := "owlv2";
     synonym_generator := "none";
     conf_threshold := 0.15%float;
     use_tta := false;
     use_image_tester := false;
     image_tester_patience := 1;
     lm_quantization := "4bit";
     batch_size_prompt := 64;
     batch_size_annotation := 1;
     batch_size_image := 1;
     device := "cpu";
     seed := 42 |}.

(* ================================================================== *)
(** * Properties *)

(** ** Batching *)

Section Batching.
Context {A : Type}.
Implicit Types (l : list A) (bs : nat).

Lemma firstn_plus l (n m : nat) :
  firstn n l ++ firstn m (skipn n l) = firstn (n + m) l.
Proof.
  revert l; induction n as [|n IH]; intros [|x l]; simpl; auto.
  - now rewrite firstn_nil.
  - now rewrite IH.
Qed.

Lemma range_len_pos (n bs : nat) :
  1 <= bs -> range_len 0 n bs = (n + bs - 1) / bs.
Proof.
  intros H. unfold range_len.
  destruct (Nat.eqb_spec bs 0); [lia|]. now rewrite Nat.sub_0_r.
Qed.

Lemma range_len_covers (n bs : nat) :
  1 <= bs -> n <= range_len 0 n bs * bs.
Proof.
  intros H. rewrite range_len_pos by assumption.
  pose proof (Nat.div_mod_eq (n + bs - 1) bs) as E.
  pose proof (Nat.mod_upper_bound (n + bs - 1) bs ltac:(lia)) as B.
  nia.
Qed.

Lemma range_len_tight (n bs k : nat) :
  1 <= bs -> k < range_len 0 n bs -> k * bs < n.
Proof.
  intros H. rewrite range_len_pos by assumption. intros K.
  pose proof (Nat.div_mod_eq (n + bs - 1) bs) as E.
  pose proof (Nat.mod_upper_bound (n + bs - 1) bs ltac:(lia)) as B.
  nia.
Qed.

Lemma image_batches_unfold l bs :
  image_batches l bs =
  map (fun k => firstn bs (skipn (k * bs) l))
      (seq 0 (range_len 0 (length l) bs)).
Proof.
  unfold image_batches, range, slice. rewrite map_map.
  apply map_ext. intros k. simpl.
  now replace (k * bs + bs - k * bs) with bs by lia.
Qed.

Lemma concat_chunks l bs (m : nat) :
  concat (map (fun k => firstn bs (skipn (k * bs) l)) (seq 0 m)) =
  firstn (m * bs) l.
Proof.
  induction m as [|m IH].
  - reflexivity.
  - rewrite seq_S, map_app, concat_app, IH. simpl.
    rewrite app_nil_r, firstn_plus. f_equal. lia.
Qed.

Lemma image_batches_length l bs :
  length (image_batches l bs) = range_len 0 (length l) bs.
Proof.
  rewrite image_batches_unfold. now rewrite length_map, length_seq.
Qed.

Lemma image_batches_nth l bs (k : nat) :
  k < range_len 0 (length l) bs ->
  nth_error (image_batches l bs) k = Some (firstn bs (skipn (k * bs) l)).
Proof.
  intros K. rewrite image_batches_unfold.
  rewrite nth_error_map, nth_error_seq.
  destruct (Nat.ltb_spec k (range_len 0 (length l) bs)); [|lia].
  reflexivity.
Qed.

(** C6. For [batch_size_annotation >= 1] the batches computed in the
    detection branch partition the list of image paths in order: their
    concatenation is the list, every batch is non-empty and no longer
    than the batch size, and every batch but the last has exactly the
    batch size. *)
Theorem image_batches_partition l bs :
  1 <= bs ->
  concat (image_batches l bs) = l /\
  (forall b, In b (image_batches l bs) -> 1 <= length b <= bs) /\
  (forall k b, nth_error (image_batches l bs) k = Some b ->
               S k < length (image_batches l bs) -> length b = bs).
Proof.
  intros H. split; [|split].
  - rewrite image_batches_unfold, concat_chunks.
    apply firstn_all2. now apply range_len_covers.
  - intros b Hb. apply In_nth_error in Hb. destruct Hb as [k Hk].
    assert (K : k < range_len 0 (length l) bs).
    { rewrite <- image_batches_length. apply nth_error_Some. congruence. }
    rewrite image_batches_nth in Hk by assumption.
    injection Hk as <-. rewrite length_firstn, length_skipn.
    pose proof (range_len_tight _ _ _ H K). lia.
  - intros k b Hk Hlast. rewrite image_batches_length in Hlast.
    rewrite image_batches_nth in Hk by lia.
    injection Hk as <-. rewrite length_firstn, length_skipn.
    pose proof (range_len_tight _ _ _ H Hlast). lia.
Qed.

End Batching.

Lemma image_batches_partition_witness :
  concat (image_batches [1; 2; 3; 4; 5] 2) = [1; 2; 3; 4; 5] /\
  (forall b, In b (image_batches [1; 2; 3; 4; 5] 2) -> 1 <= length b <= 2) /\
  (forall k b, nth_error (image_batches [1; 2; 3; 4; 5] 2) k = Some b ->
               S k < length (image_batches [1; 2; 3; 4; 5] 2) ->
               length b = 2).
Proof.
  apply (image_batches_partition [1; 2; 3; 4; 5] 2). lia.
Defined.

(** ** Argument validation *)

Lemma when_raise_bind {A : Type} (b : bool) (e : exn) (k : M A) (w : World) :
  (when b (raise e) ;;; k) w = if b then Raise e else k w.
Proof. now destruct b. Qed.

Lemma when_raise_last (b : bool) (e : exn) (w : World) :
  when b (raise e) w = if b then Raise e else Ok (tt, w).
Proof. now destruct b. Qed.

Lemma bind_ret {A B : Type} (a : A) (k : A -> M B) (w : World) :
  bind (ret a) k w = k a w.
Proof. reflexivity. Qed.

Lemma bind_path_exists {A : Type} (p : string) (k : bool -> M A) (w : World) :
  bind (path_exists p) k w = k (dir_exists w p) w.
Proof. reflexivity. Qed.

Lemma bind_cuda {A : Type} (k : bool -> M A) (w : World) :
  bind torch_cuda_is_available k w = k (cuda_is_available w) w.
Proof. reflexivity. Qed.

Lemma cuda_world_after_check (args : Args) (w : World) :
  cuda_is_available (world_after_check args w) = cuda_is_available w.
Proof. unfold world_after_check. now destruct (dir_exists w (save_dir args)). Qed.

Lemma existsb_not_str (l : list pyval) :
  existsb (fun name => negb (isinstance_str name)) l = true <->
  exists v, In v l /\ isinstance_str v = false.
Proof.
  rewrite existsb_exists. split; intros [v [Hin Hv]]; exists v; split; auto.
  - now apply negb_true_iff.
  - now apply negb_true_iff.
Qed.

Lemma range_check_two (lo hi : Z) :
  (if negb (length [PInt lo; PInt hi] =? 2)%nat then ret true
   else if negb (forallb isinstance_int [PInt lo; PInt hi]) then ret true
   else a <- index [PInt lo; PInt hi] 0 ;;
        b <- index [PInt lo; PInt hi] 1 ;;
        lift_result (py_gt a b))
  = ret (lo >? hi)%Z.
Proof. reflexivity. Qed.

Lemma index_one (lo hi : pyval) : index [lo; hi] 1 = ret hi.
Proof. reflexivity. Qed.

Lemma gt_int_int (x y : Z) : lift_result (py_gt (PInt x) (PInt y)) = ret (x >? y)%Z.
Proof. reflexivity. Qed.

Lemma when_cuda_bind {A : Type} (b : bool) (e : exn) (k : M A) (w : World) :
  (when b (c <- torch_cuda_is_available ;; when (negb c) (raise e)) ;;; k) w
  = if b && negb (cuda_is_available w) then Raise e else k w.
Proof.
  destruct b; [|reflexivity].
  unfold bind, when, torch_cuda_is_available.
  now destruct (cuda_is_available w).
Qed.

Lemma check_args_decide (args : Args) (w : World) :
  dir_exists w (save_dir args) = true \/ makedirs_ok w (save_dir args) = true ->
  (check_args args w = Ok (tt, world_after_check args w)
   /\ ~ constraint_violated args (cuda_is_available w))
  \/ ((exists msg, check_args args w = Raise (ValueError msg))
      /\ constraint_violated args (cuda_is_available w)).
Proof.
  intros Hdir. unfold check_args. rewrite bind_path_exists.
  rewrite <- (cuda_world_after_check args w).
  unfold world_after_check.
  assert (Hfirst : forall k : M unit,
    (when (negb (dir_exists w (save_dir args)))
       (try_except_OSError (makedirs (save_dir args))
          (fun _ => raise (ValueError ("Cannot create directory " ++ save_dir args)))) ;;; k) w
    = k (if dir_exists w (save_dir args) then w else add_dir (save_dir args) w)).
  { intros k. destruct (dir_exists w (save_dir args)) eqn:E; [reflexivity|].
    destruct Hdir as [Hd|Hd]; [discriminate|].
    unfold bind, when, try_except_OSError, makedirs; simpl. now rewrite Hd. }
  rewrite Hfirst. clear Hfirst.
  generalize (if dir_exists w (save_dir args) then w else add_dir (save_dir args) w).
  clear w Hdir. intros w.
  (* class_names *)
  rewrite when_raise_bind.
  destruct (is_nil (class_names args) || _) eqn:E1.
  { right; split; [eexists; reflexivity|].
    apply orb_true_iff in E1. destruct E1 as [E1|E1].
    - left. now destruct (class_names args).
    - right; left. now apply existsb_not_str. }
  apply orb_false_iff in E1. destruct E1 as [E1a E1b].
  (* prompts_number *)
  rewrite when_raise_bind.
  destruct (prompts_number args <=? 0)%Z eqn:E2.
  { right; split; [eexists; reflexivity|].
    right; right; left. now apply Z.leb_le. }
  apply Z.leb_gt in E2.
  (* num_objects_range *)
  destruct (num_objects_range args) as [|lo [|hi [|extra r]]] eqn:R;
    try (right; split; [eexists; reflexivity|];
         right; right; right; left; intros (a & b & Hab & _);
         rewrite R in Hab; discriminate).
  destruct lo as [s|lo];
    [right; split; [eexists; reflexivity|];
     right; right; right; left; intros (a & b & Hab & _);
     rewrite R in Hab; discriminate|].
  destruct hi as [s|hi];
    [right; split; [eexists; reflexivity|];
     right; right; right; left; intros (a & b & Hab & _);
     rewrite R in Hab; discriminate|].
  rewrite range_check_two, bind_ret, when_raise_bind.
  destruct (lo >? hi)%Z eqn:E3.
  { right; split; [eexists; reflexivity|].
    right; right; right; left; intros (a & b & Hab & Hle).
    rewrite R in Hab. injection Hab as -> ->. apply Z.gtb_lt in E3. lia. }
  rewrite index_one, bind_ret, gt_int_int, bind_ret, when_raise_bind.
  destruct (hi >? _)%Z eqn:E4.
  { right; split; [eexists; reflexivity|].
    do 4 right; left. exists hi. rewrite R. split; [reflexivity|].
    apply Z.gtb_lt in E4. lia. }
  (* conf_threshold *)
  rewrite when_raise_bind.
  destruct (conf_in_range (conf_threshold args)) eqn:E5; simpl negb; cbv iota.
  2:{ right; split; [eexists; reflexivity|].
      do 5 right; left. intros [H0 H1]. unfold conf_in_range in E5.
      now rewrite H0, H1 in E5. }
  (* image_tester_patience *)
  rewrite when_raise_bind.
  destruct (image_tester_patience args <? 0)%Z eqn:E6.
  { right; split; [eexists; reflexivity|].
    do 6 right; left. now apply Z.ltb_lt. }
  (* device *)
  rewrite when_cuda_bind.
  destruct (String.eqb_spec (device args) "cuda") as [E7|E7];
    destruct (cuda_is_available w) eqn:Ecuda; simpl andb; cbv iota;
    try (right; split; [eexists; reflexivity|]; do 7 right; left; now split).
  all: rewrite bind_cuda, Ecuda, when_raise_bind.
  all: destruct (String.eqb_spec (lm_quantization args) "none") as [E8|E8];
    destruct (String.eqb_spec (device args) "cpu") as [E8a|E8a];
    destruct (String.eqb_spec (prompt_generator args) "lm") as [E8b|E8b];
    simpl negb; simpl andb; simpl orb; cbv iota;
    try (right; split; [eexists; reflexivity|]; do 8 right; left; now auto).
  all: rewrite when_raise_bind;
    (destruct (batch_size_prompt args <? 1)%Z eqn:E9;
     [right; split; [eexists; reflexivity|]; do 9 right; left; now apply Z.ltb_lt|]).
  all: rewrite when_raise_bind;
    (destruct (batch_size_annotation args <? 1)%Z eqn:E10;
     [right; split; [eexists; reflexivity|]; do 10 right; left; now apply Z.ltb_lt|]).
  all: rewrite when_raise_bind;
    (destruct (batch_size_image args <? 1)%Z eqn:E11;
     [right; split; [eexists; reflexivity|]; do 11 right; left; now apply Z.ltb_lt|]).
  all: rewrite when_raise_last;
    (destruct (seed args <? 0)%Z eqn:E12;
     [right; split; [eexists; reflexivity|]; do 12 right; now apply Z.ltb_lt|]).
  all: left; split; [reflexivity|].
  all: apply Z.ltb_ge in E6, E9, E10, E11, E12.
  all: assert (E3' : (lo <= hi)%Z)
    by (destruct (Z.gtb_spec lo hi); [discriminate|assumption]).
  all: assert (E4' : (hi <= Z.of_nat (length (class_names args)))%Z)
    by (destruct (Z.gtb_spec hi (Z.of_nat (length (class_names args))));
        [discriminate|assumption]).
  all: intros [V|[V|[V|[V|[V|[V|[V|[V|[V|[V|[V|[V|V]]]]]]]]]]]].
  all: try lia.
  all: try (rewrite V in E1a; discriminate).
  all: try (apply existsb_not_str in V; congruence).
  all: try (apply V; exists lo, hi; now split).
  all: try (destruct V as (b & Hb & Hgt); rewrite R in Hb;
            injection Hb as <-; lia).
  all: try (apply V; unfold conf_in_range in E5;
            apply andb_true_iff in E5; exact E5).
  all: try (destruct V as [V1 V2]; congruence).
  all: try (destruct V as [V1 [V2|[V2|V2]]]; congruence).
Qed.


(** On binary64, "not in [[0, 1]]" is: below 0, above 1, or NaN. *)
Lemma one_SF : Prim2SF 1 = S754_finite false 4503599627370496 (-52).
Proof. reflexivity. Qed.

Lemma zero_SF : Prim2SF 0 = S754_zero false.
Proof. reflexivity. Qed.

Lemma conf_in_range_false (c : float) :
  conf_in_range c = false <->
  (c <? 0)%float = true \/ (1 <? c)%float = true \/ PrimFloat.is_nan c = true.
Proof.
  unfold conf_in_range, PrimFloat.is_nan.
  rewrite !FloatAxioms.leb_spec, !FloatAxioms.ltb_spec, FloatAxioms.eqb_spec,
    one_SF, zero_SF.
  destruct (Prim2SF c) as [s|s| |s m e]; unfold SFleb, SFltb, SFeqb.
  - simpl. split; [discriminate|intros [H|[H|H]]; discriminate].
  - destruct s; simpl; intuition (try discriminate).
  - simpl. intuition.
  - destruct s; cbn [SFcompare]; [simpl; intuition|].
    rewrite Z.compare_refl, Pos.compare_cont_refl. cbn [andb negb].
    rewrite (Z.compare_antisym e (-52)).
    assert (Hm : Pos.compare_cont Eq 4503599627370496 m
                 = CompOpp (Pos.compare_cont Eq m 4503599627370496))
      by (symmetry; apply (Pos.compare_cont_antisym m 4503599627370496 Eq)).
    rewrite Hm.
    destruct (e ?= -52)%Z; cbn [CompOpp];
      try destruct (Pos.compare_cont Eq m 4503599627370496);
      cbn [CompOpp]; intuition (try discriminate).
Qed.

Lemma in_unit_interval_iff (c : float) :
  in_unit_interval c <-> conf_in_range c = true.
Proof. unfold in_unit_interval, conf_in_range. now rewrite andb_true_iff. Qed.

(** C1. Whenever the save directory exists or can be created, [check_args]
    raises ValueError exactly when one of the listed argument constraints
    is violated; otherwise it returns normally, having at most created the
    save directory. The arguments are a value that [check_args] only
    reads. *)
Theorem check_args_spec (args : Args) (w : World) :
  dir_exists w (save_dir args) = true \/ makedirs_ok w (save_dir args) = true ->
  ((exists msg, check_args args w = Raise (ValueError msg)) <->
   constraint_violated args (cuda_is_available w)) /\
  (~ constraint_violated args (cuda_is_available w) ->
   check_args args w = Ok (tt, world_after_check args w)).
Proof.
  intros Hdir.
  destruct (check_args_decide args w Hdir) as [[Hok Hn]|[Hraise Hv]].
  - split; [|intros _; exact Hok].
    split; [|intros V; contradiction].
    intros [msg Hmsg]. rewrite Hok in Hmsg. discriminate.
  - split; [|intros Hn; contradiction].
    split; auto.
Qed.

Lemma check_args_spec_witness :
  (dir_exists fresh_world (save_dir default_args) = true
   \/ makedirs_ok fresh_world (save_dir default_args) = true) /\
  (((exists msg, check_args default_args fresh_world = Raise (ValueError msg)) <->
    constraint_violated default_args (cuda_is_available fresh_world)) /\
   (~ constraint_violated default_args (cuda_is_available fresh_world) ->
    check_args default_args fresh_world
    = Ok (tt, world_after_check default_args fresh_world))).
Proof.
  split.
  - right. reflexivity.
  - apply (check_args_spec default_args fresh_world). right. reflexivity.
Defined.

(** ** Strings and paths *)

Lemma string_length_append (s t : string) :
  String.length (s ++ t) = String.length s + String.length t.
Proof. induction s as [|c s IH]; simpl; [reflexivity|now rewrite IH]. Qed.

Lemma append_inj_l (d a b : string) : (d ++ a = d ++ b -> a = b)%string.
Proof.
  induction d as [|c d IH]; simpl; intros H; [assumption|].
  injection H as H. now apply IH.
Qed.

Lemma append_inj_r (t a b : string) : (a ++ t = b ++ t -> a = b)%string.
Proof.
  revert b. induction a as [|c a IH]; intros [|c' b] H; simpl in H.
  - reflexivity.
  - apply (f_equal String.length) in H. simpl in H.
    rewrite string_length_append in H. lia.
  - apply (f_equal String.length) in H. simpl in H.
    rewrite string_length_append in H. lia.
  - injection H as -> H. f_equal. now apply IH.
Qed.

Lemma str_of_nat_inj (n m : nat) : str_of_nat n = str_of_nat m -> n = m.
Proof.
  unfold str_of_nat. intros H.
  apply DecimalNat.Unsigned.to_uint_inj.
  apply (f_equal NilEmpty.uint_of_string) in H.
  rewrite !NilEmpty.usu in H. congruence.
Qed.

Lemma contains_sep_append (s t : string) :
  contains_sep (s ++ t) = contains_sep s || contains_sep t.
Proof.
  induction s as [|c s IH]; simpl; [reflexivity|].
  now rewrite IH, orb_assoc.
Qed.

Lemma contains_sep_uint (u : Decimal.uint) :
  contains_sep (NilEmpty.string_of_uint u) = false.
Proof. induction u; simpl; auto. Qed.

Lemma starts_with_sep_contains (s : string) :
  contains_sep s = false -> starts_with_sep s = false.
Proof.
  destruct s as [|c s]; simpl; [reflexivity|].
  intros H. now apply orb_false_iff in H.
Qed.

Lemma image_file_name_no_sep (n : nat) : contains_sep (image_file_name n) = false.
Proof.
  unfold image_file_name, str_of_nat.
  rewrite !contains_sep_append, contains_sep_uint. reflexivity.
Qed.

Lemma image_file_name_inj (n m : nat) :
  image_file_name n = image_file_name m -> n = m.
Proof.
  unfold image_file_name. intros H.
  apply append_inj_l in H. apply append_inj_r in H.
  now apply str_of_nat_inj.
Qed.

Lemma path_join_inj (d a b : string) :
  starts_with_sep a = false -> starts_with_sep b = false ->
  path_join d a = path_join d b -> a = b.
Proof.
  unfold path_join. intros -> ->.
  destruct (is_empty d || ends_with_sep d); intros H.
  - now apply append_inj_l in H.
  - apply append_inj_l in H. now apply (append_inj_l "/") in H.
Qed.

Lemma basename_no_sep (f : string) : contains_sep f = false -> basename f = f.
Proof. destruct f as [|c f]; simpl; [reflexivity|]. now intros ->. Qed.

Lemma basename_append_sep (d f : string) :
  contains_sep f = false -> basename (d ++ "/" ++ f) = f.
Proof.
  intros Hf. induction d as [|c d IH].
  - simpl. now apply basename_no_sep.
  - change (String c d ++ "/" ++ f)%string with (String c (d ++ "/" ++ f)).
    cbn [basename contains_sep].
    rewrite contains_sep_append. simpl. rewrite !orb_true_r. exact IH.
Qed.

Lemma ends_with_sep_contains (d : string) :
  ends_with_sep d = true -> contains_sep d = true.
Proof.
  induction d as [|c d IH]; [discriminate|].
  destruct d as [|c' d]; cbn [ends_with_sep contains_sep].
  - intros ->. reflexivity.
  - intros H. cbn [contains_sep] in IH. rewrite (IH H). apply orb_true_r.
Qed.

Lemma basename_append_ends (d f : string) :
  contains_sep f = false -> ends_with_sep d = true -> basename (d ++ f) = f.
Proof.
  intros Hf. induction d as [|c d IH]; [discriminate|].
  intros He. destruct d as [|c' d].
  - simpl in He. simpl. rewrite He. simpl. now apply basename_no_sep.
  - change (String c (String c' d) ++ f)%string
      with (String c (String c' d ++ f)).
    cbn [basename].
    assert (Hc : contains_sep (String c (String c' d ++ f)) = true).
    { cbn [contains_sep]. rewrite contains_sep_append.
      rewrite (ends_with_sep_contains (String c' d) He).
      now rewrite orb_true_r. }
    rewrite Hc. now apply IH.
Qed.

Lemma basename_path_join (d f : string) :
  contains_sep f = false -> basename (path_join d f) = f.
Proof.
  intros Hf. unfold path_join.
  rewrite (starts_with_sep_contains f Hf).
  destruct d as [|c d]; simpl is_empty.
  - simpl. now apply basename_no_sep.
  - rewrite orb_false_l. destruct (ends_with_sep (String c d)) eqn:E.
    + now apply basename_append_ends.
    + now apply basename_append_sep.
Qed.

(** ** The monad *)

Lemma add_events_nil (w : World) : add_events [] w = w.
Proof. destruct w. unfold add_events. simpl. now rewrite app_nil_r. Qed.

Lemma add_events_app (a b : list event) (w : World) :
  add_events b (add_events a w) = add_events (a ++ b) w.
Proof. unfold add_events. simpl. now rewrite app_assoc. Qed.

Lemma emit_bind {A : Type} (e : event) (k : M A) (w : World) :
  (emit e ;;; k) w = k (add_events [e] w).
Proof. reflexivity. Qed.

Lemma combine_seq_app {A : Type} (l1 l2 : list A) (n : nat) :
  combine (seq n (length (l1 ++ l2))) (l1 ++ l2) =
  combine (seq n (length l1)) l1 ++ combine (seq (n + length l1) (length l2)) l2.
Proof.
  revert n. induction l1 as [|x l1 IH]; intros n; simpl.
  - now rewrite Nat.add_0_r.
  - rewrite IH. now replace (n + S (length l1)) with (S n + length l1) by lia.
Qed.

Lemma nth_error_combine_seq {A : Type} (l : list A) (s n : nat) (x : A) :
  nth_error l n = Some x ->
  nth_error (combine (seq s (length l)) l) n = Some (s + n, x).
Proof.
  revert s n. induction l as [|y l IH]; intros s [|n] Hn;
    try discriminate; simpl in *.
  - injection Hn as ->. now rewrite Nat.add_0_r.
  - rewrite (IH (S s) n Hn). do 2 f_equal. lia.
Qed.

(** ** Image generation loop *)

Lemma save_batch_spec (save_dir : string) (batch : list image)
  (paths : list string) (n : nat) (w : World) :
  foldM (save_generated_image save_dir) batch (paths, n) w =
  Ok ((paths ++ map (image_path_of save_dir) (seq n (length batch)),
       n + length batch),
      add_events (image_save_events save_dir n batch) w).
Proof.
  revert paths n w. induction batch as [|img batch IH]; intros paths n w.
  - simpl. unfold ret, image_save_events. simpl.
    now rewrite app_nil_r, Nat.add_0_r, add_events_nil.
  - cbn [foldM]. unfold bind at 1. unfold save_generated_image at 1.
    rewrite emit_bind. unfold ret at 1. rewrite IH.
    unfold image_save_events. cbn [length seq combine map fst snd].
    rewrite add_events_app, <- app_assoc. simpl app.
    unfold image_path_of at 1 3.
    replace (n + 1) with (S n) by lia.
    now replace (S n + length batch) with (n + S (length batch)) by lia.
Qed.

Lemma save_batches_spec (save_dir : string) (batches : list (list image))
  (paths : list string) (n : nat) (w : World) :
  foldM (fun st batch => foldM (save_generated_image save_dir) batch st)
        batches (paths, n) w =
  Ok ((paths ++ map (image_path_of save_dir) (seq n (length (concat batches))),
       n + length (concat batches)),
      add_events (image_save_events save_dir n (concat batches)) w).
Proof.
  revert paths n w. induction batches as [|batch batches IH]; intros paths n w.
  - simpl. unfold ret, image_save_events. simpl.
    now rewrite app_nil_r, Nat.add_0_r, add_events_nil.
  - cbn [foldM concat]. unfold bind at 1. rewrite save_batch_spec, IH.
    unfold image_save_events.
    rewrite add_events_app, <- map_app, <- combine_seq_app.
    rewrite <- app_assoc, <- map_app, <- seq_app, <- length_app.
    now rewrite length_app, Nat.add_assoc.
Qed.

Lemma image_path_of_inj (save_dir : string) (n m : nat) :
  image_path_of save_dir n = image_path_of save_dir m -> n = m.
Proof.
  unfold image_path_of. intros H.
  apply path_join_inj in H;
    try (apply starts_with_sep_contains, image_file_name_no_sep).
  now apply image_file_name_inj.
Qed.

Lemma image_paths_NoDup (save_dir : string) (n len : nat) :
  NoDup (map (image_path_of save_dir) (seq n len)).
Proof.
  revert n. induction len as [|len IH]; intros n; simpl; constructor.
  - rewrite in_map_iff. intros (m & Hm & Hin).
    apply image_path_of_inj in Hm. apply in_seq in Hin. lia.
  - apply IH.
Qed.

(** C9. The image generation loop always returns; the [n]-th image it is
    given, counting across the batches in the order they are yielded, is
    saved to [save_dir/image_n.jpg], and that path is [image_paths[n]];
    [num_generated_images] ends equal to [len(image_paths)], and the paths
    are pairwise distinct. *)
Theorem save_generated_images_numbering (save_dir : string)
  (batches : list (list image)) (w : World) :
  exists image_paths num_generated_images evs,
    save_generated_images save_dir batches w =
      Ok ((image_paths, num_generated_images), add_events evs w)
    /\ num_generated_images = length image_paths
    /\ length image_paths = length (concat batches)
    /\ length evs = length (concat batches)
    /\ (forall n img,
          nth_error (concat batches) n = Some img ->
          nth_error image_paths n
            = Some (path_join save_dir ("image_" ++ str_of_nat n ++ ".jpg"))
          /\ nth_error evs n
             = Some (EvImageSave
                       (path_join save_dir ("image_" ++ str_of_nat n ++ ".jpg"))
                       img))
    /\ NoDup image_paths.
Proof.
  exists (map (image_path_of save_dir) (seq 0 (length (concat batches)))),
         (length (concat batches)),
         (image_save_events save_dir 0 (concat batches)).
  split; [|split; [|split; [|split; [|split]]]].
  - unfold save_generated_images. now rewrite save_batches_spec.
  - now rewrite length_map, length_seq.
  - now rewrite length_map, length_seq.
  - unfold image_save_events.
    now rewrite length_map, length_combine, length_seq, Nat.min_id.
  - intros n img Hn.
    assert (Hlt : n < length (concat batches))
      by (apply nth_error_Some; congruence).
    split.
    + rewrite nth_error_map, nth_error_seq.
      destruct (Nat.ltb_spec n (length (concat batches))); [|lia].
      reflexivity.
    + unfold image_save_events. rewrite nth_error_map.
      rewrite (nth_error_combine_seq _ 0 _ _ Hn). reflexivity.
  - apply image_paths_NoDup.
Qed.

(** ** Dictionaries and the annotation writers *)

Section Dict.
Context {V : Type}.
Implicit Types (d : list (string * V)) (k : string) (v : V).

Lemma dict_get_set_same k v d : dict_get k (dict_set k v d) = Some v.
Proof.
  induction d as [|[k' v'] d IH]; simpl.
  - now rewrite String.eqb_refl.
  - destruct (String.eqb_spec k' k); simpl.
    + now rewrite String.eqb_refl.
    + destruct (String.eqb_spec k' k); [contradiction|exact IH].
Qed.

Lemma dict_get_set_other k k' v d :
  k <> k' -> dict_get k' (dict_set k v d) = dict_get k' d.
Proof.
  intros Hne. induction d as [|[k0 v0] d IH]; simpl.
  - destruct (String.eqb_spec k k'); [contradiction|reflexivity].
  - destruct (String.eqb_spec k0 k) as [->|Hk]; simpl.
    + destruct (String.eqb_spec k k'); [contradiction|reflexivity].
    + destruct (String.eqb_spec k0 k'); [reflexivity|exact IH].
Qed.

Lemma dict_keys_set k v d :
  dict_keys (dict_set k v d) =
  if existsb (String.eqb k) (dict_keys d) then dict_keys d
  else dict_keys d ++ [k].
Proof.
  induction d as [|[k0 v0] d IH]; simpl; [reflexivity|].
  rewrite (String.eqb_sym k k0).
  destruct (String.eqb_spec k0 k) as [->|Hk]; simpl; [reflexivity|].
  unfold dict_keys in *. rewrite IH.
  now destruct (existsb (String.eqb k) (map fst d)).
Qed.

Lemma dict_keys_set_In k k' v d :
  In k' (dict_keys (dict_set k v d)) <-> k' = k \/ In k' (dict_keys d).
Proof.
  rewrite dict_keys_set.
  destruct (existsb (String.eqb k) (dict_keys d)) eqn:E.
  - apply existsb_exists in E. destruct E as (x & Hx & Hk).
    apply String.eqb_eq in Hk. subst x. split; [auto|].
    intros [->|H]; assumption.
  - rewrite in_app_iff. simpl. split.
    + intros [H|[H|[]]]; auto.
    + intros [H|H]; auto.
Qed.

Lemma dict_keys_set_NoDup k v d :
  NoDup (dict_keys d) -> NoDup (dict_keys (dict_set k v d)).
Proof.
  intros Hnd. rewrite dict_keys_set.
  destruct (existsb (String.eqb k) (dict_keys d)) eqn:E; [assumption|].
  apply NoDup_app; [assumption|repeat constructor; auto|].
  intros x Hx [Hk|[]]. subst x.
  assert (existsb (String.eqb k) (dict_keys d) = true); [|congruence].
  apply existsb_exists. exists k. split; [assumption|apply String.eqb_refl].
Qed.

Lemma dict_of_pairs_snoc (kvs : list (string * V)) (kv : string * V) :
  dict_of_pairs (kvs ++ [kv]) = dict_set (fst kv) (snd kv) (dict_of_pairs kvs).
Proof. unfold dict_of_pairs. now rewrite fold_left_app. Qed.

Lemma dict_of_pairs_NoDup (kvs : list (string * V)) :
  NoDup (dict_keys (dict_of_pairs kvs)).
Proof.
  induction kvs as [|kv kvs IH] using rev_ind.
  - constructor.
  - rewrite dict_of_pairs_snoc. now apply dict_keys_set_NoDup.
Qed.

Lemma dict_of_pairs_keys (kvs : list (string * V)) k :
  In k (dict_keys (dict_of_pairs kvs)) <->
  exists i v, nth_error kvs i = Some (k, v).
Proof.
  induction kvs as [|kv kvs IH] using rev_ind.
  - simpl. split; [intros []|intros (i & v & H)]. now destruct i.
  - rewrite dict_of_pairs_snoc, dict_keys_set_In, IH. split.
    + intros [->|(i & v & H)].
      * exists (length kvs), (snd kv).
        rewrite nth_error_app2, Nat.sub_diag by lia. now destruct kv.
      * exists i, v. rewrite nth_error_app1; [assumption|].
        apply nth_error_Some. congruence.
    + intros (i & v & H).
      destruct (Nat.lt_ge_cases i (length kvs)) as [Hi|Hi].
      * right. exists i, v. now rewrite nth_error_app1 in H.
      * left. rewrite nth_error_app2 in H by assumption.
        destruct (i - length kvs) as [|[|m]]; simpl in H; try discriminate.
        now injection H as ->.
Qed.

(** The value under a key is the one assigned last. *)
Lemma dict_of_pairs_get (kvs : list (string * V)) (i : nat) k v :
  nth_error kvs i = Some (k, v) ->
  (forall j v', i < j -> nth_error kvs j <> Some (k, v')) ->
  dict_get k (dict_of_pairs kvs) = Some v.
Proof.
  revert i. induction kvs as [|kv kvs IH] using rev_ind; intros i Hi Hlast.
  - now destruct i.
  - rewrite dict_of_pairs_snoc.
    destruct (Nat.lt_ge_cases i (length kvs)) as [Hlt|Hge].
    + rewrite nth_error_app1 in Hi by assumption.
      assert (Hne : fst kv <> k).
      { intros <-. apply (Hlast (length kvs) (snd kv) Hlt).
        rewrite nth_error_app2, Nat.sub_diag by lia. now destruct kv. }
      rewrite dict_get_set_other by assumption.
      apply (IH i Hi). intros j v' Hj Hn.
      apply (Hlast j v' Hj). rewrite nth_error_app1; [assumption|].
      apply nth_error_Some. congruence.
    + rewrite nth_error_app2 in Hi by assumption.
      destruct (i - length kvs) as [|[|m]]; simpl in Hi; try discriminate.
      injection Hi as ->. simpl. apply dict_get_set_same.
Qed.

End Dict.

Lemma nth_error_combine {A B : Type} (a : list A) (b : list B) (i : nat)
  (x : A) (y : B) :
  nth_error (combine a b) i = Some (x, y) <->
  nth_error a i = Some x /\ nth_error b i = Some y.
Proof.
  revert b i. induction a as [|x0 a IH]; intros [|y0 b] [|i]; simpl;
    try (split; [discriminate|intros [? ?]; discriminate]).
  - split; [intros H; injection H as -> ->; auto|].
    intros [H1 H2]. congruence.
  - apply IH.
Qed.

Lemma det_annotations_pairs (image_paths : list string)
  (boxes_list : list (list box)) (labels_list : list (list Z))
  (names : list pyval) :
  det_annotations image_paths boxes_list labels_list names =
  dict_set "class_names" (JList (map json_of_pyval names))
    (dict_of_pairs (det_entries image_paths boxes_list labels_list)).
Proof.
  unfold det_annotations, dict_of_pairs, det_entries. f_equal.
  generalize (@nil (string * json)).
  induction (zip3 image_paths boxes_list labels_list) as [|[[p b] l] z IH];
    intros d; simpl; [reflexivity|apply IH].
Qed.

Lemma clf_annotations_pairs (image_paths : list string)
  (labels_list : list (list Z)) (names : list pyval) :
  clf_annotations image_paths labels_list names =
  dict_set "class_names" (JList (map json_of_pyval names))
    (dict_of_pairs (clf_entries image_paths labels_list)).
Proof.
  unfold clf_annotations, dict_of_pairs, clf_entries. f_equal.
  generalize (@nil (string * json)).
  induction (zip image_paths labels_list) as [|[p l] z IH];
    intros d; simpl; [reflexivity|apply IH].
Qed.

Lemma det_entries_nth (image_paths : list string)
  (boxes_list : list (list box)) (labels_list : list (list Z))
  (i : nat) (k : string) (v : json) :
  nth_error (det_entries image_paths boxes_list labels_list) i = Some (k, v) <->
  exists p b l,
    nth_error image_paths i = Some p /\ nth_error boxes_list i = Some b
    /\ nth_error labels_list i = Some l
    /\ k = basename p /\ v = det_entry b l.
Proof.
  unfold det_entries, zip3. rewrite nth_error_map. split.
  - destruct (nth_error _ i) as [[[p b] l]|] eqn:E; [|discriminate].
    simpl. intros H. injection H as <- <-.
    apply nth_error_combine in E. destruct E as [E El].
    apply nth_error_combine in E. destruct E as [Ep Eb].
    exists p, b, l. auto.
  - intros (p & b & l & Hp & Hb & Hl & -> & ->).
    assert (E : nth_error (combine (combine image_paths boxes_list) labels_list) i
                = Some (p, b, l)).
    { apply nth_error_combine. split; [|assumption].
      apply nth_error_combine. auto. }
    now rewrite E.
Qed.

Lemma clf_entries_nth (image_paths : list string)
  (labels_list : list (list Z)) (i : nat) (k : string) (v : json) :
  nth_error (clf_entries image_paths labels_list) i = Some (k, v) <->
  exists p l,
    nth_error image_paths i = Some p /\ nth_error labels_list i = Some l
    /\ k = basename p /\ v = clf_entry l.
Proof.
  unfold clf_entries, zip. rewrite nth_error_map. split.
  - destruct (nth_error _ i) as [[p l]|] eqn:E; [|discriminate].
    simpl. intros H. injection H as <- <-.
    apply nth_error_combine in E. destruct E as [Ep El].
    exists p, l. auto.
  - intros (p & l & Hp & Hl & -> & ->).
    assert (E : nth_error (combine image_paths labels_list) i = Some (p, l)).
    { apply nth_error_combine. auto. }
    now rewrite E.
Qed.

Lemma annotations_generic (entries : list (string * json)) (cn : json) :
  let ann := dict_set "class_names" cn (dict_of_pairs entries) in
  dict_get "class_names" ann = Some cn
  /\ NoDup (dict_keys ann)
  /\ (forall key, In key (dict_keys ann) <->
                  key = "class_names"
                  \/ exists i v, nth_error entries i = Some (key, v))
  /\ (forall i key v,
        key <> "class_names" ->
        nth_error entries i = Some (key, v) ->
        (forall j v', i < j -> nth_error entries j <> Some (key, v')) ->
        dict_get key ann = Some v).
Proof.
  cbv zeta. split; [|split; [|split]].
  - apply dict_get_set_same.
  - apply dict_keys_set_NoDup, dict_of_pairs_NoDup.
  - intros key. now rewrite dict_keys_set_In, dict_of_pairs_keys.
  - intros i key v Hne Hi Hlast.
    rewrite dict_get_set_other by congruence.
    now apply (dict_of_pairs_get entries i).
Qed.

(** C10, as the code has it. Both writers emit one JSON object. It always
    maps ['class_names'] to the full class-name list and its keys are
    distinct. Its other keys are the basenames of the image paths that
    [zip] pairs with an annotation, that is, of the paths at positions
    below the length of the shortest argument list; under such a basename
    other than ['class_names'] it holds, as plain lists, the annotation of
    the last of these paths that has this basename. *)
Theorem annotation_writers_contents
  (image_paths : list string) (boxes_list : list (list box))
  (labels_list : list (list Z)) (class_names : list pyval)
  (save_dir file_name : string) (w : World) :
  (let ann := det_annotations image_paths boxes_list labels_list class_names in
   save_det_annotations_to_json image_paths boxes_list labels_list class_names
     save_dir file_name w
   = Ok (tt, add_events [EvWriteJson (path_join save_dir file_name) (JObj ann)] w)
   /\ dict_get "class_names" ann = Some (JList (map json_of_pyval class_names))
   /\ NoDup (dict_keys ann)
   /\ (forall key,
         In key (dict_keys ann) <->
         key = "class_names"
         \/ exists i p b l,
              nth_error image_paths i = Some p
              /\ nth_error boxes_list i = Some b
              /\ nth_error labels_list i = Some l
              /\ basename p = key)
   /\ (forall i p b l,
         nth_error image_paths i = Some p ->
         nth_error boxes_list i = Some b ->
         nth_error labels_list i = Some l ->
         basename p <> "class_names" ->
         (forall j p', i < j -> j < length boxes_list -> j < length labels_list ->
                       nth_error image_paths j = Some p' ->
                       basename p' <> basename p) ->
         dict_get (basename p) ann
         = Some (JObj [("boxes", JList (map json_of_box b));
                       ("labels", JList (map JInt l))])))
  /\
  (let ann := clf_annotations image_paths labels_list class_names in
   save_clf_annotations_to_json image_paths labels_list class_names
     save_dir file_name w
   = Ok (tt, add_events [EvWriteJson (path_join save_dir file_name) (JObj ann)] w)
   /\ dict_get "class_names" ann = Some (JList (map json_of_pyval class_names))
   /\ NoDup (dict_keys ann)
   /\ (forall key,
         In key (dict_keys ann) <->
         key = "class_names"
         \/ exists i p l,
              nth_error image_paths i = Some p
              /\ nth_error labels_list i = Some l
              /\ basename p = key)
   /\ (forall i p l,
         nth_error image_paths i = Some p ->
         nth_error labels_list i = Some l ->
         basename p <> "class_names" ->
         (forall j p', i < j -> j < length labels_list ->
                       nth_error image_paths j = Some p' ->
                       basename p' <> basename p) ->
         dict_get (basename p) ann
         = Some (JObj [("labels", JList (map JInt l))]))).
Proof.
  split; cbv zeta.
  - unfold save_det_annotations_to_json, emit. rewrite det_annotations_pairs.
    destruct (annotations_generic
                (det_entries image_paths boxes_list labels_list)
                (JList (map json_of_pyval class_names)))
      as (Hcn & Hnd & Hkeys & Hget).
    split; [reflexivity|]. split; [exact Hcn|]. split; [exact Hnd|]. split.
    + intros key. rewrite Hkeys. split; (intros [H|H]; [now left|right]).
      * destruct H as (i & v & Hi). apply det_entries_nth in Hi.
        destruct Hi as (p & b & l & Hp & Hb & Hl & -> & _).
        exists i, p, b, l. auto.
      * destruct H as (i & p & b & l & Hp & Hb & Hl & <-).
        exists i, (det_entry b l). apply det_entries_nth.
        exists p, b, l. auto.
    + intros i p b l Hp Hb Hl Hne Hlast.
      apply (Hget i); [assumption| |].
      * apply det_entries_nth. exists p, b, l. auto.
      * intros j v' Hj Hn. apply det_entries_nth in Hn.
        destruct Hn as (p' & b' & l' & Hp' & Hb' & Hl' & Hk & _).
        apply (Hlast j p' Hj); auto.
        -- apply nth_error_Some. congruence.
        -- apply nth_error_Some. congruence.
  - unfold save_clf_annotations_to_json, emit. rewrite clf_annotations_pairs.
    destruct (annotations_generic
                (clf_entries image_paths labels_list)
                (JList (map json_of_pyval class_names)))
      as (Hcn & Hnd & Hkeys & Hget).
    split; [reflexivity|]. split; [exact Hcn|]. split; [exact Hnd|]. split.
    + intros key. rewrite Hkeys. split; (intros [H|H]; [now left|right]).
      * destruct H as (i & v & Hi). apply clf_entries_nth in Hi.
        destruct Hi as (p & l & Hp & Hl & -> & _).
        exists i, p, l. auto.
      * destruct H as (i & p & l & Hp & Hl & <-).
        exists i, (clf_entry l). apply clf_entries_nth.
        exists p, l. auto.
    + intros i p l Hp Hl Hne Hlast.
      apply (Hget i); [assumption| |].
      * apply clf_entries_nth. exists p, l. auto.
      * intros j v' Hj Hn. apply clf_entries_nth in Hn.
        destruct Hn as (p' & l' & Hp' & Hl' & Hk & _).
        apply (Hlast j p' Hj); auto.
        apply nth_error_Some. congruence.
Qed.

(** C10 as stated fails: with two image paths and one label array, the
    second path gets no entry. *)
Lemma annotation_writers_drop_unpaired_paths :
  ~ (forall (image_paths : list string) (labels_list : list (list Z))
            (class_names : list pyval) (p : string),
        In p image_paths ->
        In (basename p)
           (dict_keys (clf_annotations image_paths labels_list class_names))).
Proof.
  intros H.
  specialize (H ["a.jpg"; "b.jpg"] [[0%Z]] [PStr "bear"] "b.jpg").
  simpl in H. destruct H as [H|[H|[]]]; auto; discriminate.
Qed.

(** ** Classification labels *)

Lemma pyval_eqb_eq (a b : pyval) : pyval_eqb a b = true <-> a = b.
Proof.
  destruct a as [s|x], b as [t|y]; simpl;
    try (split; [discriminate|intros H; discriminate]).
  - rewrite String.eqb_eq. split; congruence.
  - rewrite Z.eqb_eq. split; congruence.
Qed.

Lemma list_index_first (x : pyval) (l : list pyval) (k : nat) :
  list_index x l = Some k -> first_occurrence x l k.
Proof.
  revert k. induction l as [|y l IH]; intros k; simpl; [discriminate|].
  destruct (pyval_eqb y x) eqn:E.
  - intros H. injection H as <-. apply pyval_eqb_eq in E. subst y.
    split; [reflexivity|]. intros j Hj. lia.
  - destruct (list_index x l) as [k'|]; [|discriminate].
    simpl. intros H. injection H as <-.
    destruct (IH k' eq_refl) as [Hk Hfirst]. split; [exact Hk|].
    intros [|j] Hj; simpl.
    + intros H. injection H as ->.
      assert (pyval_eqb x x = true) by now apply pyval_eqb_eq.
      congruence.
    + apply Hfirst. lia.
Qed.

Lemma list_index_In (x : pyval) (l : list pyval) :
  In x l -> exists k, list_index x l = Some k.
Proof.
  induction l as [|y l IH]; simpl; [intros []|].
  intros H. destruct (pyval_eqb y x) eqn:E; [now exists 0|].
  destruct H as [->|H].
  - assert (pyval_eqb x x = true) by now apply pyval_eqb_eq.
    congruence.
  - destruct (IH H) as [k ->]. now exists (S k).
Qed.

Lemma first_occurrence_unique (x : pyval) (l : list pyval) (k k' : nat) :
  first_occurrence x l k -> first_occurrence x l k' -> k = k'.
Proof.
  intros [Hk Hf] [Hk' Hf'].
  destruct (Nat.lt_trichotomy k k') as [H|[H|H]]; [|assumption|].
  - now destruct (Hf' k H).
  - now destruct (Hf k' H).
Qed.

Lemma insert_unique_In (x z : Z) (l : list Z) :
  In z (insert_unique x l) <-> z = x \/ In z l.
Proof.
  induction l as [|y l IH]; simpl.
  - intuition.
  - destruct (Z.ltb_spec x y); [simpl; intuition|].
    destruct (Z.eqb_spec x y); simpl; [subst; intuition|].
    rewrite IH. intuition.
Qed.

Lemma insert_unique_sorted (x : Z) (l : list Z) :
  StronglySorted Z.lt l -> StronglySorted Z.lt (insert_unique x l).
Proof.
  induction 1 as [|y l Hs IH Hall]; simpl.
  - repeat constructor.
  - destruct (Z.ltb_spec x y).
    + constructor; [now constructor|].
      constructor; [assumption|].
      eapply Forall_impl; [|exact Hall]. intros; lia.
    + destruct (Z.eqb_spec x y); [now constructor|].
      constructor; [exact IH|].
      apply Forall_forall. intros z Hz. apply insert_unique_In in Hz.
      destruct Hz as [->|Hz]; [lia|].
      rewrite Forall_forall in Hall. now apply Hall.
Qed.

Lemma np_unique_In (z : Z) (l : list Z) : In z (np_unique l) <-> In z l.
Proof.
  induction l as [|x l IH]; simpl; [reflexivity|].
  rewrite insert_unique_In, IH. intuition.
Qed.

Lemma np_unique_sorted (l : list Z) : StronglySorted Z.lt (np_unique l).
Proof.
  induction l as [|x l IH]; simpl; [constructor|].
  now apply insert_unique_sorted.
Qed.

Lemma object_labels_spec (class_names objs : list pyval) (acc : list Z)
  (w : World) :
  (forall obj, In obj objs -> In obj class_names) ->
  foldM (object_label class_names) objs acc w =
  Ok (acc ++ map (label_of class_names) objs, w).
Proof.
  revert acc. induction objs as [|obj objs IH]; intros acc Hin; simpl.
  - unfold ret. now rewrite app_nil_r.
  - destruct (list_index_In obj class_names) as [k Hk].
    { apply Hin. now left. }
    assert (Hstep : object_label class_names acc obj w
                    = Ok (acc ++ [label_of class_names obj], w)).
    { unfold object_label, label_of. now rewrite Hk. }
    unfold bind at 1. rewrite Hstep.
    rewrite IH by (intros o Ho; apply Hin; now right).
    now rewrite <- app_assoc.
Qed.

Lemma classification_labels_spec (class_names : list pyval)
  (prompt_objects : list (list pyval)) (acc : list (list Z)) (w : World) :
  (forall objs obj, In objs prompt_objects -> In obj objs -> In obj class_names) ->
  foldM (fun labels_list prompt_objs =>
           labels <- foldM (object_label class_names) prompt_objs [] ;;
           ret (labels_list ++ [np_unique labels]))
        prompt_objects acc w =
  Ok (acc ++ map (fun objs => np_unique (map (label_of class_names) objs))
               prompt_objects, w).
Proof.
  revert acc. induction prompt_objects as [|objs pos IH]; intros acc Hin; simpl.
  - unfold ret. now rewrite app_nil_r.
  - unfold bind at 1. unfold bind at 1.
    rewrite object_labels_spec by (intros o Ho; apply (Hin objs); simpl; auto).
    unfold ret at 1. simpl app.
    rewrite IH by (intros os o Hos Ho; apply (Hin os); simpl; auto).
    now rewrite <- app_assoc.
Qed.

Lemma label_of_spec (class_names objs : list pyval) (z : Z) :
  (forall obj, In obj objs -> In obj class_names) ->
  In z (map (label_of class_names) objs) <->
  exists obj k, In obj objs /\ first_occurrence obj class_names k
                /\ z = Z.of_nat k.
Proof.
  intros Hin. rewrite in_map_iff. split.
  - intros (obj & Hz & Hobj).
    destruct (list_index_In obj class_names (Hin obj Hobj)) as [k Hk].
    exists obj, k. split; [assumption|]. split.
    + now apply list_index_first.
    + unfold label_of in Hz. now rewrite Hk in Hz.
  - intros (obj & k & Hobj & Hfirst & ->).
    exists obj. split; [|assumption].
    destruct (list_index_In obj class_names (Hin obj Hobj)) as [k' Hk'].
    unfold label_of. rewrite Hk'. f_equal.
    apply (first_occurrence_unique obj class_names); [|assumption].
    now apply list_index_first.
Qed.

Lemma clf_annotations_get (image_paths : list string)
  (labels_list : list (list Z)) (names : list pyval)
  (i : nat) (p : string) (l : list Z) :
  nth_error image_paths i = Some p ->
  nth_error labels_list i = Some l ->
  basename p <> "class_names" ->
  (forall j p', i < j -> nth_error image_paths j = Some p' ->
                basename p' <> basename p) ->
  dict_get (basename p) (clf_annotations image_paths labels_list names)
  = Some (clf_entry l).
Proof.
  intros Hp Hl Hne Hlast. rewrite clf_annotations_pairs.
  apply (annotations_generic (clf_entries image_paths labels_list)) with (i := i).
  - assumption.
  - apply clf_entries_nth. exists p, l. auto.
  - intros j v' Hj Hn. apply clf_entries_nth in Hn.
    destruct Hn as (p' & l' & Hp' & _ & Hk & _).
    now apply (Hlast j p' Hj).
Qed.

Lemma det_annotations_get (image_paths : list string)
  (boxes_list : list (list box)) (labels_list : list (list Z))
  (names : list pyval) (i : nat) (p : string) (b : list box) (l : list Z) :
  nth_error image_paths i = Some p ->
  nth_error boxes_list i = Some b ->
  nth_error labels_list i = Some l ->
  basename p <> "class_names" ->
  (forall j p', i < j -> nth_error image_paths j = Some p' ->
                basename p' <> basename p) ->
  dict_get (basename p)
    (det_annotations image_paths boxes_list labels_list names)
  = Some (det_entry b l).
Proof.
  intros Hp Hb Hl Hne Hlast. rewrite det_annotations_pairs.
  apply (annotations_generic (det_entries image_paths boxes_list labels_list))
    with (i := i).
  - assumption.
  - apply det_entries_nth. exists p, b, l. auto.
  - intros j v' Hj Hn. apply det_entries_nth in Hn.
    destruct Hn as (p' & b' & l' & Hp' & _ & _ & Hk & _).
    now apply (Hlast j p' Hj).
Qed.

Lemma image_paths_nth (save_dir : string) (N i : nat) :
  i < N ->
  nth_error (map (image_path_of save_dir) (seq 0 N)) i
  = Some (image_path_of save_dir i).
Proof.
  intros Hi. rewrite nth_error_map, nth_error_seq.
  now destruct (Nat.ltb_spec i N); [|lia].
Qed.

Lemma image_paths_nth_inv (save_dir : string) (N j : nat) (p : string) :
  nth_error (map (image_path_of save_dir) (seq 0 N)) j = Some p ->
  p = image_path_of save_dir j.
Proof.
  rewrite nth_error_map, nth_error_seq.
  destruct (Nat.ltb_spec j N); simpl; [|discriminate]. congruence.
Qed.

Lemma basename_image_path (save_dir : string) (n : nat) :
  basename (image_path_of save_dir n) = image_file_name n.
Proof. apply basename_path_join, image_file_name_no_sep. Qed.

Lemma image_file_name_not_class_names (n : nat) :
  image_file_name n <> "class_names".
Proof. unfold image_file_name. simpl. discriminate. Qed.

Lemma clf_annotations_image (save_dir : string) (N i : nat)
  (labels_list : list (list Z)) (names : list pyval) (l : list Z) :
  i < N ->
  nth_error labels_list i = Some l ->
  dict_get (image_file_name i)
    (clf_annotations (map (image_path_of save_dir) (seq 0 N)) labels_list names)
  = Some (clf_entry l).
Proof.
  intros Hi Hl. rewrite <- (basename_image_path save_dir i).
  apply clf_annotations_get with (i := i).
  - now apply image_paths_nth.
  - assumption.
  - rewrite basename_image_path. apply image_file_name_not_class_names.
  - intros j p' Hj Hp'. apply image_paths_nth_inv in Hp'. subst p'.
    rewrite !basename_image_path. intros E.
    apply image_file_name_inj in E. lia.
Qed.

Lemma det_annotations_image (save_dir : string) (N i : nat)
  (boxes_list : list (list box)) (labels_list : list (list Z))
  (names : list pyval) (b : list box) (l : list Z) :
  i < N ->
  nth_error boxes_list i = Some b ->
  nth_error labels_list i = Some l ->
  dict_get (image_file_name i)
    (det_annotations (map (image_path_of save_dir) (seq 0 N))
       boxes_list labels_list names)
  = Some (det_entry b l).
Proof.
  intros Hi Hb Hl. rewrite <- (basename_image_path save_dir i).
  apply det_annotations_get with (i := i).
  - now apply image_paths_nth.
  - assumption.
  - assumption.
  - rewrite basename_image_path. apply image_file_name_not_class_names.
  - intros j p' Hj Hp'. apply image_paths_nth_inv in Hp'. subst p'.
    rewrite !basename_image_path. intros E.
    apply image_file_name_inj in E. lia.
Qed.

(** C8. In the classification branch, when every object of every prompt
    occurs among the class names, the branch returns and the label array it
    writes for the [i]-th image ([image_i.jpg], the [i]-th path that [main]
    builds) is strictly increasing and holds exactly the first-occurrence
    indices in [class_names] of the [i]-th prompt's objects. *)
Theorem classification_labels_written (class_names : list pyval)
  (prompt_objects : list (list pyval)) (save_dir : string) (N : nat)
  (w : World) :
  (forall objs obj,
     In objs prompt_objects -> In obj objs -> In obj class_names) ->
  exists labels_list ann,
    classification_branch class_names prompt_objects
      (map (fun n => path_join save_dir ("image_" ++ str_of_nat n ++ ".jpg"))
           (seq 0 N))
      save_dir w
    = Ok (labels_list,
          add_events
            [EvWriteJson (path_join save_dir "annotations.json") (JObj ann)] w)
    /\ forall i objs,
         nth_error prompt_objects i = Some objs -> i < N ->
         exists labs,
           nth_error labels_list i = Some labs
           /\ dict_get ("image_" ++ str_of_nat i ++ ".jpg") ann
              = Some (JObj [("labels", JList (map JInt labs))])
           /\ StronglySorted Z.lt labs
           /\ forall z,
                In z labs <->
                exists obj k,
                  In obj objs /\ first_occurrence obj class_names k
                  /\ z = Z.of_nat k.
Proof.
  intros Hin.
  set (labels_list :=
         map (fun objs => np_unique (map (label_of class_names) objs))
             prompt_objects).
  change (fun n => path_join save_dir ("image_" ++ str_of_nat n ++ ".jpg"))
    with (image_path_of save_dir).
  exists labels_list,
         (clf_annotations (map (image_path_of save_dir) (seq 0 N))
            labels_list class_names).
  split.
  - unfold classification_branch, classification_labels.
    unfold bind at 1. now rewrite classification_labels_spec.
  - intros i objs Hobjs Hi.
    exists (np_unique (map (label_of class_names) objs)).
    assert (Hl : nth_error labels_list i
                 = Some (np_unique (map (label_of class_names) objs))).
    { unfold labels_list. now rewrite nth_error_map, Hobjs. }
    split; [exact Hl|]. split; [|split].
    + now apply (clf_annotations_image save_dir N i).
    + apply np_unique_sorted.
    + intros z. rewrite np_unique_In. apply label_of_spec.
      intros obj Hobj. apply (Hin objs); [|assumption].
      now apply nth_error_In with i.
Qed.

Lemma classification_labels_written_witness :
  (forall objs obj,
     In objs [[PStr "bird"; PStr "bear"]; [PStr "bear"; PStr "bear"]] ->
     In obj objs -> In obj [PStr "bear"; PStr "bird"]) /\
  exists labels_list ann,
    classification_branch [PStr "bear"; PStr "bird"]
      [[PStr "bird"; PStr "bear"]; [PStr "bear"; PStr "bear"]]
      (map (fun n => path_join "out" ("image_" ++ str_of_nat n ++ ".jpg"))
           (seq 0 2))
      "out" fresh_world
    = Ok (labels_list,
          add_events
            [EvWriteJson (path_join "out" "annotations.json") (JObj ann)]
            fresh_world)
    /\ forall i objs,
         nth_error [[PStr "bird"; PStr "bear"]; [PStr "bear"; PStr "bear"]] i
         = Some objs -> i < 2 ->
         exists labs,
           nth_error labels_list i = Some labs
           /\ dict_get ("image_" ++ str_of_nat i ++ ".jpg") ann
              = Some (JObj [("labels", JList (map JInt labs))])
           /\ StronglySorted Z.lt labs
           /\ forall z,
                In z labs <->
                exists obj k,
                  In obj objs
                  /\ first_occurrence obj [PStr "bear"; PStr "bird"] k
                  /\ z = Z.of_nat k.
Proof.
  assert (H : forall objs obj,
     In objs [[PStr "bird"; PStr "bear"]; [PStr "bear"; PStr "bear"]] ->
     In obj objs -> In obj [PStr "bear"; PStr "bird"]).
  { simpl. intros objs obj [<-|[<-|[]]] Hobj; simpl in Hobj; intuition. }
  split; [exact H|].
  exact (classification_labels_written [PStr "bear"; PStr "bird"]
           [[PStr "bird"; PStr "bear"]; [PStr "bear"; PStr "bear"]]
           "out" 2 fresh_world H).
Defined.

(** ** Detection loop *)

Lemma index_nat {A : Type} (l : list A) (j : nat) (w : World) :
  index l (Z.of_nat j) w =
  match nth_error l j with
  | Some a => Ok (a, w)
  | None => Raise IndexError
  end.
Proof.
  unfold index, getitem.
  destruct (Z.leb_spec 0 (Z.of_nat j)); [|lia].
  rewrite Nat2Z.id. now destruct (nth_error l j).
Qed.

Lemma bind_inv {A B : Type} (m : M A) (k : A -> M B) (w w' : World) (b : B) :
  bind m k w = Ok (b, w') ->
  exists a w1, m w = Ok (a, w1) /\ k a w1 = Ok (b, w').
Proof.
  unfold bind. destruct (m w) as [[a w1]|e]; [|discriminate].
  intros H. now exists a, w1.
Qed.

Lemma index_inv {A : Type} (l : list A) (j : nat) (w w' : World) (a : A) :
  index l (Z.of_nat j) w = Ok (a, w') -> nth_error l j = Some a /\ w' = w.
Proof.
  rewrite index_nat. destruct (nth_error l j); [|discriminate].
  intros H. injection H as -> ->. auto.
Qed.

Lemma draw_detections_spec (names : list pyval) (gp : list prompt) (k : nat)
  (dets : list (box * float * Z)) (labels : list Z) (fig : figure)
  (w w' : World) (r : list Z * figure) :
  foldM (draw_detection names gp k) dets (labels, fig) w = Ok (r, w') ->
  w' = w
  /\ fst r = labels ++ map snd dets
  /\ fig_image (snd r) = fig_image fig
  /\ fig_patches (snd r)
     = fig_patches fig ++ map (fun d => new_rectangle (fst (fst d))) dets
  /\ length (fig_texts (snd r)) = length (fig_texts fig) + length dets.
Proof.
  revert labels fig w. induction dets as [|[[b score] label] dets IH];
    intros labels fig w H.
  - simpl in H. injection H as <- <-. simpl.
    now rewrite !app_nil_r, Nat.add_0_r.
  - cbn [foldM] in H. apply bind_inv in H.
    destruct H as ([labels1 fig1] & w1 & Hstep & Hrest).
    unfold draw_detection in Hstep.
    apply bind_inv in Hstep. destruct Hstep as (label_text & w2 & Hidx & Hstep).
    assert (w2 = w).
    { unfold index, lift_option in Hidx.
      destruct (getitem names label); [|discriminate].
      now injection Hidx as _ <-. }
    subst w2.
    apply bind_inv in Hstep. destruct Hstep as (pr & w3 & Hgp & Hstep).
    apply index_inv in Hgp. destruct Hgp as [_ ->].
    injection Hstep as <- <- <-.
    apply IH in Hrest. destruct Hrest as (-> & Hl & Hi & Hp & Ht).
    split; [reflexivity|]. simpl in *.
    rewrite Hl, Hi, Hp, Ht, <- !app_assoc, length_app. simpl.
    repeat split; lia.
Qed.

Lemma annotate_image_spec (names : list pyval) (gp : list prompt)
  (bbox_dir : string) (bs i : nat)
  (bb : list (list box)) (sb : list (list float)) (lb : list (list Z))
  (ll ll' : list (list Z)) (ji : nat * image) (w w' : World) :
  annotate_image names gp bbox_dir bs i bb sb lb ll ji w = Ok (ll', w') ->
  exists r,
    image_annotated bb sb lb ji r
    /\ ll' = ll ++ [fst r]
    /\ w' = add_events [savefig_event bbox_dir bs i (ji, r)] w.
Proof.
  destruct ji as [j image]. unfold annotate_image. intros H.
  apply bind_inv in H. destruct H as (bj & w1 & Hb & H).
  apply index_inv in Hb. destruct Hb as [Hb ->].
  apply bind_inv in H. destruct H as (sj & w1 & Hs & H).
  apply index_inv in Hs. destruct Hs as [Hs ->].
  apply bind_inv in H. destruct H as (lj & w1 & Hl & H).
  apply index_inv in Hl. destruct Hl as [Hl ->].
  apply bind_inv in H. destruct H as (r & w1 & Hdraw & H).
  apply draw_detections_spec in Hdraw.
  destruct Hdraw as (-> & Hlab & Himg & Hpatch & Htext).
  rewrite emit_bind in H. injection H as <- <-.
  exists r. split; [|split; reflexivity].
  exists bj, sj, lj. simpl in *.
  unfold labels_drawn, boxes_drawn.
  rewrite map_map, length_map. auto 10.
Qed.

Lemma annotate_images_spec (names : list pyval) (gp : list prompt)
  (bbox_dir : string) (bs i : nat)
  (bb : list (list box)) (sb : list (list float)) (lb : list (list Z))
  (jis : list (nat * image)) (ll ll' : list (list Z)) (w w' : World) :
  foldM (annotate_image names gp bbox_dir bs i bb sb lb) jis ll w
  = Ok (ll', w') ->
  exists rs,
    Forall2 (image_annotated bb sb lb) jis rs
    /\ ll' = ll ++ map fst rs
    /\ w' = add_events (map (savefig_event bbox_dir bs i) (combine jis rs)) w.
Proof.
  revert ll w. induction jis as [|ji jis IH]; intros ll w H.
  - simpl in H. injection H as <- <-. exists [].
    split; [constructor|]. simpl. now rewrite app_nil_r, add_events_nil.
  - cbn [foldM] in H. apply bind_inv in H.
    destruct H as (ll1 & w1 & Hstep & Hrest).
    apply annotate_image_spec in Hstep.
    destruct Hstep as (r & Hr & -> & ->).
    apply IH in Hrest. destruct Hrest as (rs & Hrs & -> & ->).
    exists (r :: rs). split; [now constructor|].
    simpl. now rewrite add_events_app, <- app_assoc.
Qed.

Lemma mapM_image_open_inv (batch : list string) (images : list image)
  (w w' : World) :
  mapM image_open batch w = Ok (images, w') ->
  w' = w /\ length images = length batch.
Proof.
  revert images w'. induction batch as [|p batch IH]; intros images w' H.
  - simpl in H. injection H as <- <-. auto.
  - cbn [mapM] in H. apply bind_inv in H.
    destruct H as (img & w1 & Hopen & H).
    assert (w1 = w).
    { unfold image_open in Hopen.
      destruct (last_image p (trace w) None); [|discriminate].
      now injection Hopen as _ <-. }
    subst w1.
    apply bind_inv in H. destruct H as (imgs & w1 & Hrest & H).
    apply IH in Hrest. destruct Hrest as [-> Hlen].
    injection H as <- <-. simpl. auto.
Qed.

Lemma annotate_image_batch_spec (ext : External) (args : Args)
  (cls : wrapper) (gp : list prompt) (syn : option synonyms)
  (bbox_dir : string) (st st' : det_state) (ib : nat * list string)
  (w w' : World) :
  annotate_image_batch ext args cls gp syn bbox_dir st ib w = Ok (st', w') ->
  exists br,
    batch_annotated ext args cls syn ib br
    /\ st' = (fst (fst st) ++ fst (fst (batch_output ext args cls syn (fst br))),
              snd (fst st) ++ snd (fst (batch_output ext args cls syn (fst br))),
              snd st ++ map fst (snd br))
    /\ w' = add_events
              (batch_events bbox_dir (Z.to_nat (batch_size_annotation args))
                 (ib, br)) w.
Proof.
  destruct st as [[bl sl] ll], ib as [i batch].
  unfold annotate_image_batch. intros H.
  apply bind_inv in H. destruct H as (images & w1 & Hopen & H).
  apply mapM_image_open_inv in Hopen. destruct Hopen as [-> Hlen].
  apply bind_inv in H. destruct H as (ll1 & w1 & Hloop & H).
  apply annotate_images_spec in Hloop.
  destruct Hloop as (rs & Hrs & -> & ->).
  injection H as <- <-.
  exists (images, rs). split; [|split; reflexivity].
  split; [exact Hlen|exact Hrs].
Qed.

Lemma annotate_batches_spec (ext : External) (args : Args)
  (cls : wrapper) (gp : list prompt) (syn : option synonyms)
  (bbox_dir : string) (ibs : list (nat * list string))
  (st st' : det_state) (w w' : World) :
  foldM (annotate_image_batch ext args cls gp syn bbox_dir) ibs st w
  = Ok (st', w') ->
  exists brs,
    Forall2 (batch_annotated ext args cls syn) ibs brs
    /\ st' = (fst (fst st)
              ++ concat (map (fun br => fst (fst (batch_output ext args cls syn
                                                    (fst br)))) brs),
              snd (fst st)
              ++ concat (map (fun br => snd (fst (batch_output ext args cls syn
                                                    (fst br)))) brs),
              snd st ++ concat (map (fun br => map fst (snd br)) brs))
    /\ w' = add_events
              (concat (map (batch_events bbox_dir
                              (Z.to_nat (batch_size_annotation args)))
                           (combine ibs brs))) w.
Proof.
  revert st w. induction ibs as [|ib ibs IH]; intros st w H.
  - cbn [foldM] in H. unfold ret in H. injection H as <- <-. exists [].
    split; [constructor|]. simpl. rewrite !app_nil_r, add_events_nil.
    now destruct st as [[? ?] ?].
  - cbn [foldM] in H. apply bind_inv in H.
    destruct H as (st1 & w1 & Hstep & Hrest).
    apply annotate_image_batch_spec in Hstep.
    destruct Hstep as (br & Hbr & -> & ->).
    apply IH in Hrest. destruct Hrest as (brs & Hbrs & -> & ->).
    exists (br :: brs). split; [now constructor|].
    simpl. now rewrite add_events_app, <- !app_assoc.
Qed.

Lemma lookup_annotators_inv (k : string) (cls : wrapper) (w w' : World) :
  lookup annotators k w = Ok (cls, w') ->
  k = "owlv2" /\ cls = OWLv2Annotator /\ w' = w.
Proof.
  unfold lookup, annotators, lift_option. cbn [dict_get].
  destruct (String.eqb_spec "owlv2" k) as [E|E];
    unfold ret, raise; [|discriminate].
  intros H. injection H as <- <-. auto.
Qed.

Lemma detection_branch_spec (ext : External) (args : Args)
  (gp : list prompt) (syn : option synonyms) (paths : list string)
  (save_dir bbox_dir : string) (st : det_state) (w w' : World) :
  detection_branch ext args gp syn paths save_dir bbox_dir w = Ok (st, w') ->
  exists brs,
    image_annotator args = "owlv2"
    /\ Forall2 (batch_annotated ext args OWLv2Annotator syn)
         (enumerate (image_batches paths
                       (Z.to_nat (batch_size_annotation args)))) brs
    /\ st = (concat (map (fun br => fst (fst (batch_output ext args
                                                OWLv2Annotator syn (fst br))))
                         brs),
             concat (map (fun br => snd (fst (batch_output ext args
                                                OWLv2Annotator syn (fst br))))
                         brs),
             concat (map (fun br => map fst (snd br)) brs))
    /\ w' = add_events
              ([EvInstantiate OWLv2Annotator]
               ++ concat (map (batch_events bbox_dir
                                 (Z.to_nat (batch_size_annotation args)))
                            (combine
                               (enumerate
                                  (image_batches paths
                                     (Z.to_nat (batch_size_annotation args))))
                               brs))
               ++ [EvWriteJson (path_join save_dir "annotations.json")
                     (JObj (det_annotations paths (fst (fst st)) (snd st)
                              (class_names args)))]) w.
Proof.
  unfold detection_branch. intros H.
  apply bind_inv in H. destruct H as (cls & w1 & Hcls & H).
  apply lookup_annotators_inv in Hcls. destruct Hcls as (Hk & -> & ->).
  rewrite emit_bind in H.
  apply bind_inv in H. destruct H as (st1 & w1 & Hloop & H).
  apply annotate_batches_spec in Hloop.
  destruct Hloop as (brs & Hbrs & Hst & ->).
  unfold save_det_annotations_to_json in H. rewrite emit_bind in H.
  injection H as <- <-.
  exists brs. simpl in Hst. repeat split; try assumption.
  now rewrite !add_events_app.
Qed.

(** ** Stepping through main *)

Lemma lookup_inv (d : list (string * wrapper)) (k : string) (cls : wrapper)
  (w w' : World) :
  lookup d k w = Ok (cls, w') -> dict_get k d = Some cls /\ w' = w.
Proof.
  unfold lookup, lift_option. destruct (dict_get k d); [|discriminate].
  intros H. injection H as <- <-. auto.
Qed.

Lemma when_makedirs_inv (b : bool) (p : string) (w w' : World) (u : unit) :
  when b (makedirs p) w = Ok (u, w') ->
  exists evs, Forall is_makedirs evs /\ trace w' = trace w ++ evs.
Proof.
  destruct b; simpl.
  - unfold makedirs. destruct (makedirs_ok w p); [|discriminate].
    intros H. injection H as _ <-. exists [EvMakedirs p].
    split; [repeat constructor|reflexivity].
  - intros H. injection H as _ <-. exists [].
    split; [constructor|now rewrite app_nil_r].
Qed.

Lemma check_args_ok_dir (args : Args) (w : World) (r : unit * World) :
  check_args args w = Ok r ->
  dir_exists w (save_dir args) = true \/ makedirs_ok w (save_dir args) = true.
Proof.
  destruct (dir_exists w (save_dir args)) eqn:E1; [now left|].
  destruct (makedirs_ok w (save_dir args)) eqn:E2; [now right|].
  unfold check_args. rewrite bind_path_exists, E1.
  unfold bind at 1. unfold when, negb, try_except_OSError, makedirs.
  rewrite E2. discriminate.
Qed.

Lemma check_args_ok (args : Args) (w w0 : World) (u : unit) :
  check_args args w = Ok (u, w0) ->
  w0 = world_after_check args w
  /\ ~ constraint_violated args (cuda_is_available w).
Proof.
  intros H. pose proof (check_args_ok_dir args w _ H) as Hdir.
  destruct (check_args_decide args w Hdir) as [[Hok Hn]|[[msg Hr] _]].
  - rewrite Hok in H. injection H as _ <-. auto.
  - rewrite Hr in H. discriminate.
Qed.

Lemma world_after_check_trace (args : Args) (w : World) :
  exists evs, Forall is_makedirs evs
              /\ trace (world_after_check args w) = trace w ++ evs.
Proof.
  unfold world_after_check. destruct (dir_exists w (save_dir args)).
  - exists []. split; [constructor|now rewrite app_nil_r].
  - exists [EvMakedirs (save_dir args)]. split; [repeat constructor|reflexivity].
Qed.

Lemma object_labels_world (names objs : list pyval) (acc r : list Z)
  (w w' : World) :
  foldM (object_label names) objs acc w = Ok (r, w') -> w' = w.
Proof.
  revert acc. induction objs as [|obj objs IH]; intros acc H.
  - simpl in H. now injection H as _ <-.
  - cbn [foldM] in H. apply bind_inv in H.
    destruct H as (a & w1 & Hstep & H).
    unfold object_label, lift_option in Hstep.
    destruct (list_index obj names); [|discriminate].
    injection Hstep as _ <-. now apply IH in H.
Qed.

Lemma classification_labels_world (names : list pyval)
  (pos : list (list pyval)) (acc ll : list (list Z)) (w w' : World) :
  foldM (fun labels_list prompt_objs =>
           labels <- foldM (object_label names) prompt_objs [] ;;
           ret (labels_list ++ [np_unique labels]))
        pos acc w = Ok (ll, w') -> w' = w.
Proof.
  revert acc. induction pos as [|objs pos IH]; intros acc H.
  - simpl in H. now injection H as _ <-.
  - cbn [foldM] in H. apply bind_inv in H.
    destruct H as (a & w1 & Hstep & H).
    apply bind_inv in Hstep. destruct Hstep as (labels & w2 & Hl & Hstep).
    apply object_labels_world in Hl. subst w2.
    injection Hstep as _ <-. now apply IH in H.
Qed.

Lemma classification_branch_inv (names : list pyval)
  (pos : list (list pyval)) (paths : list string) (save_dir : string)
  (ll : list (list Z)) (w w' : World) :
  classification_branch names pos paths save_dir w = Ok (ll, w') ->
  classification_labels names pos w = Ok (ll, w)
  /\ w' = add_events
            [EvWriteJson (path_join save_dir "annotations.json")
               (JObj (clf_annotations paths ll names))] w.
Proof.
  unfold classification_branch. intros H.
  apply bind_inv in H. destruct H as (ll1 & w1 & Hl & H).
  pose proof (classification_labels_world _ _ _ _ _ _ Hl). subst w1.
  unfold save_clf_annotations_to_json in H. rewrite emit_bind in H.
  injection H as <- <-. auto.
Qed.

Lemma main_inv (ext : External) (args : Args) (w w' : World) (loc : Locals) :
  main ext args w = Ok (loc, w') ->
  exists pg ig dir_evs syn_evs branch_evs w2,
    ~ constraint_violated args (cuda_is_available w)
    /\ dict_get (prompt_generator args) prompt_generators = Some pg
    /\ dict_get (image_generator args) image_generators = Some ig
    /\ Forall is_makedirs dir_evs
    /\ trace w' = trace w ++ run_events ext args pg ig dir_evs syn_evs branch_evs
    /\ generated_prompts loc = prompts_of ext args pg
    /\ image_paths loc
       = map (image_path_of (save_dir args))
             (seq 0 (length (images_of ext args pg ig)))
    /\ num_generated_images loc = length (images_of ext args pg ig)
    /\ ((synonym_generator args = "none" /\ syn_evs = []
         /\ synonym_dict loc = None)
        \/ (synonym_generator args <> "none"
            /\ exists cls,
                 dict_get (synonym_generator args) synonym_generators = Some cls
                 /\ syn_evs
                    = [ EvInstantiate cls; EvRelease cls;
                        EvSaveSynonyms
                          (path_join (save_dir args) "synonyms.json")
                          (generate_synonyms_for_list ext cls (device args)
                             (class_names args)) ]
                 /\ synonym_dict loc
                    = Some (generate_synonyms_for_list ext cls (device args)
                              (class_names args))))
    /\ ((task args = "classification"
         /\ classification_branch (class_names args)
              (map fst (generated_prompts loc)) (image_paths loc)
              (save_dir args) w2
            = Ok (labels_list loc, add_events branch_evs w2)
         /\ boxes_list loc = [] /\ scores_list loc = [])
        \/ (task args <> "classification"
            /\ detection_branch ext args (generated_prompts loc)
                 (synonym_dict loc) (image_paths loc) (save_dir args)
                 (path_join (save_dir args) "bboxes_visualization") w2
               = Ok ((boxes_list loc, scores_list loc, labels_list loc),
                     add_events branch_evs w2))).
Proof.
  unfold main. intros H.
  (* check_args *)
  apply bind_inv in H. destruct H as (u & w0 & Hcheck & H).
  apply check_args_ok in Hcheck. destruct Hcheck as [-> Hn].
  destruct (world_after_check_trace args w) as (ev0 & Hev0 & Ht0).
  set (w0 := world_after_check args w) in *.
  (* directories *)
  rewrite bind_path_exists in H.
  apply bind_inv in H. destruct H as (u1 & w1 & Hd1 & H).
  apply when_makedirs_inv in Hd1. destruct Hd1 as (ev1 & Hev1 & Ht1).
  rewrite bind_path_exists in H.
  apply bind_inv in H. destruct H as (u2 & wd & Hd2 & H).
  apply when_makedirs_inv in Hd2. destruct Hd2 as (ev2 & Hev2 & Ht2).
  (* arguments and prompts *)
  rewrite emit_bind in H.
  apply bind_inv in H. destruct H as (pg & wx & Hpg & H).
  apply lookup_inv in Hpg. destruct Hpg as [Hpg ->].
  rewrite !emit_bind in H.
  (* synonyms *)
  apply bind_inv in H. destruct H as (syn & ws & Hsyn & H).
  (* images *)
  apply bind_inv in H. destruct H as (ig & wx & Hig & H).
  apply lookup_inv in Hig. destruct Hig as [Hig ->].
  rewrite emit_bind in H.
  apply bind_inv in H. destruct H as (saved & wi & Hsave & H).
  unfold save_generated_images in Hsave. rewrite save_batches_spec in Hsave.
  injection Hsave as <- <-. cbn [fst snd app] in H. rewrite emit_bind in H.
  fold (prompts_of ext args pg) in *. fold (images_of ext args pg ig) in *.
  assert (Hsyn' : exists syn_evs,
    ws = add_events syn_evs
           (add_events
              [EvRelease pg]
              (add_events
                 [EvSavePrompts (path_join (save_dir args) "prompts.json")
                    (prompts_of ext args pg)]
                 (add_events [EvInstantiate pg]
                    (add_events
                       [EvWriteJson
                          (path_join (save_dir args) "generation_args.json")
                          (json_of_args args)] wd))))
    /\ ((synonym_generator args = "none" /\ syn_evs = [] /\ syn = None)
        \/ (synonym_generator args <> "none"
            /\ exists cls,
                 dict_get (synonym_generator args) synonym_generators = Some cls
                 /\ syn_evs
                    = [ EvInstantiate cls; EvRelease cls;
                        EvSaveSynonyms
                          (path_join (save_dir args) "synonyms.json")
                          (generate_synonyms_for_list ext cls (device args)
                             (class_names args)) ]
                 /\ syn
                    = Some (generate_synonyms_for_list ext cls (device args)
                              (class_names args))))).
  { destruct (String.eqb_spec (synonym_generator args) "none") as [E|E];
      cbn [negb] in Hsyn.
    - injection Hsyn as <- <-. exists []. split; [now rewrite add_events_nil|].
      left. auto.
    - apply bind_inv in Hsyn. destruct Hsyn as (cls & wx & Hcls & Hsyn).
      apply lookup_inv in Hcls. destruct Hcls as [Hcls ->].
      rewrite !emit_bind in Hsyn. injection Hsyn as <- <-.
      eexists. split; [now rewrite !add_events_app|].
      right. split; [assumption|]. exists cls. auto. }
  destruct Hsyn' as (syn_evs & -> & Hsynfacts).
  assert (Htrace : forall branch_evs wf,
    wf = add_events branch_evs
           (add_events [EvRelease ig]
              (add_events
                 (image_save_events (save_dir args) 0 (images_of ext args pg ig))
                 (add_events [EvInstantiate ig]
                    (add_events syn_evs
                       (add_events [EvRelease pg]
                          (add_events
                             [EvSavePrompts
                                (path_join (save_dir args) "prompts.json")
                                (prompts_of ext args pg)]
                             (add_events [EvInstantiate pg]
                                (add_events
                                   [EvWriteJson
                                      (path_join (save_dir args)
                                         "generation_args.json")
                                      (json_of_args args)] wd)))))))) ->
    trace wf = trace w ++ run_events ext args pg ig (ev0 ++ ev1 ++ ev2)
                            syn_evs branch_evs).
  { intros branch_evs wf ->. unfold run_events. simpl.
    rewrite Ht2, Ht1, Ht0. rewrite <- !app_assoc. reflexivity. }
  assert (Hdirs : Forall is_makedirs (ev0 ++ ev1 ++ ev2)).
  { apply Forall_app. split; [assumption|]. apply Forall_app. auto. }
  destruct (String.eqb_spec (task args) "classification") as [Et|Et].
  - apply bind_inv in H. destruct H as (ll & wf & Hbr & H).
    injection H as <- <-.
    pose proof (classification_branch_inv _ _ _ _ _ _ _ Hbr) as [_ Hw].
    rewrite Hw in Hbr.
    eexists pg, ig, _, syn_evs, _, _. cbn [generated_prompts synonym_dict
      image_paths num_generated_images boxes_list scores_list labels_list].
    repeat (split; [first [eassumption | reflexivity | idtac]|]).
    + apply Htrace. exact Hw.
    + left. repeat split; try assumption. exact Hbr.
  - apply bind_inv in H. destruct H as (st & wf & Hbr & H).
    injection H as <- <-.
    pose proof (detection_branch_spec _ _ _ _ _ _ _ _ _ _ Hbr)
      as (brs & _ & _ & _ & Hw).
    rewrite Hw in Hbr.
    eexists pg, ig, _, syn_evs, _, _. cbn [generated_prompts synonym_dict
      image_paths num_generated_images boxes_list scores_list labels_list].
    repeat (split; [first [eassumption | reflexivity | idtac]|]).
    + apply Htrace. exact Hw.
    + right. split; [assumption|]. destruct st as [[bl sl] ll]. exact Hbr.
Qed.

(** ** Figures saved by the detection branch *)

Lemma combine_app_eq {A B : Type} (a1 a2 : list A) (b1 b2 : list B) :
  length a1 = length b1 ->
  combine (a1 ++ a2) (b1 ++ b2) = combine a1 b1 ++ combine a2 b2.
Proof.
  revert b1. induction a1 as [|x a1 IH]; intros [|y b1] H;
    try discriminate; simpl; [reflexivity|].
  f_equal. apply IH. now injection H.
Qed.

Lemma combine_map_self {A B : Type} (f : A -> B) (l : list A) :
  combine l (map f l) = map (fun x => (x, f x)) l.
Proof. induction l as [|x l IH]; simpl; [reflexivity|now rewrite IH]. Qed.

Lemma Forall2_nth_error {A B : Type} (P : A -> B -> Prop)
  (l1 : list A) (l2 : list B) :
  Forall2 P l1 l2 <->
  length l1 = length l2
  /\ forall i a b, nth_error l1 i = Some a -> nth_error l2 i = Some b -> P a b.
Proof.
  split.
  - induction 1 as [|a b l1 l2 Hab H IH]; [split; [reflexivity|]|].
    + intros [|i]; discriminate.
    + destruct IH as [Hlen Hnth]. split; [simpl; now rewrite Hlen|].
      intros [|i] a' b' Ha Hb; simpl in *.
      * injection Ha as <-. injection Hb as <-. assumption.
      * now apply (Hnth i).
  - revert l2. induction l1 as [|a l1 IH]; intros [|b l2] [Hlen Hnth];
      try discriminate; constructor.
    + now apply (Hnth 0).
    + apply IH. split; [now injection Hlen|].
      intros i a' b' Ha Hb. now apply (Hnth (S i)).
Qed.

Lemma savefigs_app (a b : list event) :
  savefigs (a ++ b) = savefigs a ++ savefigs b.
Proof. unfold savefigs. apply flat_map_app. Qed.

Lemma savefigs_makedirs (evs : list event) :
  Forall is_makedirs evs -> savefigs evs = [].
Proof.
  induction 1 as [|e evs He _ IH]; [reflexivity|].
  destruct e; try contradiction. exact IH.
Qed.

Lemma savefigs_image_saves (save_dir : string) (n : nat) (imgs : list image) :
  savefigs (image_save_events save_dir n imgs) = [].
Proof.
  unfold image_save_events.
  induction (combine (seq n (length imgs)) imgs) as [|x l IH];
    [reflexivity|exact IH].
Qed.

Lemma savefigs_images (bbox_dir : string) (bs i : nat) (ns : list nat)
  (imgs : list image) (rs : list (list Z * figure)) :
  length ns = length imgs ->
  savefigs (map (savefig_event bbox_dir bs i) (combine (combine ns imgs) rs))
  = combine (map (bbox_path_of bbox_dir) (map (fun j => i * bs + j) ns))
            (map snd rs).
Proof.
  revert imgs rs. induction ns as [|n ns IH]; intros [|img imgs] rs H;
    try discriminate; [reflexivity|].
  destruct rs as [|r rs]; [reflexivity|].
  simpl. unfold bbox_path_of at 1. f_equal. apply IH. now injection H.
Qed.

Lemma batch_savefigs (ext : External) (args : Args) (cls : wrapper)
  (syn : option synonyms) (bbox_dir : string) (bs : nat)
  (ib : nat * list string) (br : list image * list (list Z * figure)) :
  batch_annotated ext args cls syn ib br ->
  savefigs (batch_events bbox_dir bs (ib, br))
  = combine (map (bbox_path_of bbox_dir)
               (map (fun j => fst ib * bs + j) (seq 0 (length (snd ib)))))
            (map snd (snd br))
  /\ length (snd br) = length (snd ib).
Proof.
  intros [Hlen Hall]. apply Forall2_length in Hall.
  unfold enumerate in Hall. rewrite length_combine, length_seq, Nat.min_id in Hall.
  split; [|congruence].
  unfold batch_events, enumerate. cbn [fst snd].
  rewrite savefigs_images by now rewrite length_seq.
  now rewrite Hlen.
Qed.

Lemma batches_savefigs (ext : External) (args : Args) (cls : wrapper)
  (syn : option synonyms) (bbox_dir : string) (bs : nat)
  (ibs : list (nat * list string))
  (brs : list (list image * list (list Z * figure))) :
  Forall2 (batch_annotated ext args cls syn) ibs brs ->
  savefigs (concat (map (batch_events bbox_dir bs) (combine ibs brs)))
  = combine (map (bbox_path_of bbox_dir) (batch_indices bs ibs))
            (run_figures brs)
  /\ length (run_figures brs) = length (batch_indices bs ibs).
Proof.
  unfold batch_indices, run_figures.
  induction 1 as [|ib br ibs brs Hb _ [IH IHlen]]; [split; reflexivity|].
  destruct (batch_savefigs ext args cls syn bbox_dir bs ib br Hb) as [Hs Hl].
  cbn [combine map concat]. split.
  - rewrite savefigs_app, Hs, IH, map_app.
    rewrite combine_app_eq; [reflexivity|].
    now rewrite !length_map, length_seq.
  - rewrite !length_app, IHlen, !length_map, length_seq. congruence.
Qed.

Lemma chunk_indices {A : Type} (l : list A) (bs m : nat) :
  1 <= bs -> m <= range_len 0 (length l) bs ->
  concat (map (fun k => map (fun j => k * bs + j)
                            (seq 0 (length (firstn bs (skipn (k * bs) l)))))
              (seq 0 m))
  = seq 0 (Nat.min (m * bs) (length l)).
Proof.
  intros Hbs. induction m as [|m IH]; intros Hm; [reflexivity|].
  rewrite seq_S, map_app, concat_app, IH by lia. simpl.
  rewrite app_nil_r, length_firstn, length_skipn.
  assert (Hlt : m * bs < length l) by (apply range_len_tight; lia).
  replace (Nat.min (m * bs) (length l)) with (m * bs) by lia.
  replace (map (fun j => m * bs + j) (seq 0 (Nat.min bs (length l - m * bs))))
    with (seq (m * bs) (Nat.min bs (length l - m * bs))).
  - rewrite <- seq_app. f_equal. lia.
  - generalize (Nat.min bs (length l - m * bs)) as c. generalize (m * bs) as a.
    intros a c. rewrite <- (Nat.add_0_r a) at 1.
    generalize 0 as z. induction c as [|c IHc]; intros z; simpl;
      [reflexivity|].
    f_equal. rewrite <- IHc. f_equal. lia.
Qed.

Lemma image_batch_indices (paths : list string) (bs : nat) :
  1 <= bs ->
  batch_indices bs (enumerate (image_batches paths bs))
  = seq 0 (length paths).
Proof.
  intros Hbs. unfold batch_indices, enumerate.
  rewrite image_batches_length, image_batches_unfold, combine_map_self, map_map.
  cbn [fst snd]. rewrite chunk_indices by lia.
  f_equal. pose proof (range_len_covers (length paths) bs Hbs). lia.
Qed.

Lemma zip3_fst {A B C : Type} (a : list A) (b : list B) (c : list C) :
  length a = length b -> length a = length c ->
  map (fun d => fst (fst d)) (zip3 a b c) = a.
Proof.
  unfold zip3. revert b c.
  induction a as [|x a IH]; intros [|y b] [|z c] Hb Hc;
    try discriminate; simpl; [reflexivity|].
  f_equal. apply IH; [now injection Hb|now injection Hc].
Qed.

Lemma zip3_snd {A B C : Type} (a : list A) (b : list B) (c : list C) :
  length a = length b -> length a = length c ->
  map snd (zip3 a b c) = c.
Proof.
  unfold zip3. revert b c.
  induction a as [|x a IH]; intros [|y b] [|z c] Hb Hc;
    try discriminate; simpl; [reflexivity|].
  f_equal. apply IH; [now injection Hb|now injection Hc].
Qed.

(** Under the annotator's contract, the rows drawn for the images of a
    batch are exactly the rows the annotator returned. *)
Lemma batch_rows (ext : External) (args : Args) (cls : wrapper)
  (syn : option synonyms) (ib : nat * list string)
  (br : list image * list (list Z * figure)) :
  wf_annotator ext ->
  batch_annotated ext args cls syn ib br ->
  Forall2 (fun fig boxes => fig_patches fig = map new_rectangle boxes)
    (map snd (snd br)) (fst (fst (batch_output ext args cls syn (fst br))))
  /\ map fst (snd br) = snd (batch_output ext args cls syn (fst br)).
Proof.
  intros Hwf [Hlen Hall]. unfold batch_output in *.
  destruct (Hwf cls (device args) (fst br) (class_names args)
              (conf_threshold args) (use_tta args) syn)
    as (Hn & Hscores & Hlabels).
  set (out := annotate_batch ext cls (device args) (fst br) (class_names args)
                (conf_threshold args) (use_tta args) syn) in *.
  apply Forall2_nth_error in Hall. destruct Hall as [Hlen2 Hall].
  unfold enumerate in Hlen2.
  rewrite length_combine, length_seq, Nat.min_id in Hlen2.
  apply Forall2_nth_error in Hscores. destruct Hscores as [Hls Hscores].
  apply Forall2_nth_error in Hlabels. destruct Hlabels as [Hll Hlabels].
  assert (Hrow : forall i r,
    nth_error (snd br) i = Some r ->
    exists bj lj,
      nth_error (fst (fst out)) i = Some bj /\ nth_error (snd out) i = Some lj
      /\ fig_patches (snd r) = map new_rectangle bj /\ fst r = lj).
  { intros i r Hr.
    assert (Hi : i < length (fst br))
      by (rewrite Hlen2; apply nth_error_Some; congruence).
    destruct (nth_error (fst br) i) as [img|] eqn:Himg;
      [|apply nth_error_None in Himg; lia].
    assert (He : nth_error (enumerate (fst br)) i = Some (i, img)).
    { unfold enumerate. apply nth_error_combine. split; [|assumption].
      rewrite nth_error_seq.
      destruct (Nat.ltb_spec i (length (fst br))); [reflexivity|lia]. }
    destruct (Hall i (i, img) r He Hr)
      as (bj & sj & lj & Hb & Hs & Hl & Hfst & _ & Hp & _).
    cbn [fst] in Hb, Hs, Hl.
    exists bj, lj. split; [assumption|]. split; [assumption|].
    pose proof (Hscores i bj sj Hb Hs) as E1.
    pose proof (Hlabels i bj lj Hb Hl) as E2.
    unfold boxes_drawn in Hp. unfold labels_drawn in Hfst.
    rewrite zip3_fst in Hp by assumption.
    rewrite zip3_snd in Hfst by assumption. auto. }
  split.
  - apply Forall2_nth_error. split; [rewrite length_map; congruence|].
    intros i fig boxes Hfig Hboxes. rewrite nth_error_map in Hfig.
    destruct (nth_error (snd br) i) as [r|] eqn:Hr; [|discriminate].
    injection Hfig as <-.
    destruct (Hrow i r Hr) as (bj & lj & Hb & _ & Hp & _). congruence.
  - apply nth_error_ext. intros i. rewrite nth_error_map.
    destruct (nth_error (snd br) i) as [r|] eqn:Hr; simpl.
    + destruct (Hrow i r Hr) as (bj & lj & _ & Hl & _ & Hf). congruence.
    + symmetry. apply nth_error_None. apply nth_error_None in Hr. lia.
Qed.

Lemma batches_rows (ext : External) (args : Args) (cls : wrapper)
  (syn : option synonyms) (ibs : list (nat * list string))
  (brs : list (list image * list (list Z * figure))) :
  wf_annotator ext ->
  Forall2 (batch_annotated ext args cls syn) ibs brs ->
  Forall2 (fun fig boxes => fig_patches fig = map new_rectangle boxes)
    (run_figures brs)
    (concat (map (fun br => fst (fst (batch_output ext args cls syn (fst br))))
                 brs))
  /\ concat (map (fun br => map fst (snd br)) brs)
     = concat (map (fun br => snd (batch_output ext args cls syn (fst br))) brs).
Proof.
  intros Hwf. unfold run_figures.
  induction 1 as [|ib br ibs brs Hb _ [IH1 IH2]]; [split; [constructor|reflexivity]|].
  destruct (batch_rows ext args cls syn ib br Hwf Hb) as [H1 H2].
  simpl. split; [now apply Forall2_app|]. now rewrite H2, IH2.
Qed.

Lemma add_events_inj (a b : list event) (w : World) :
  add_events a w = add_events b w -> a = b.
Proof.
  intros H. apply (f_equal trace) in H. simpl in H.
  now apply app_inv_head in H.
Qed.

Lemma classification_branch_events (names : list pyval)
  (pos : list (list pyval)) (paths : list string) (save_dir : string)
  (ll : list (list Z)) (evs : list event) (w : World) :
  classification_branch names pos paths save_dir w
  = Ok (ll, add_events evs w) ->
  evs = [EvWriteJson (path_join save_dir "annotations.json")
           (JObj (clf_annotations paths ll names))].
Proof.
  intros H. apply classification_branch_inv in H. destruct H as [_ H].
  now apply add_events_inj in H.
Qed.

Lemma detection_branch_events (ext : External) (args : Args)
  (gp : list prompt) (syn : option synonyms) (paths : list string)
  (save_dir bbox_dir : string) (bl : list (list box))
  (sl : list (list float)) (ll : list (list Z)) (evs : list event)
  (w : World) :
  detection_branch ext args gp syn paths save_dir bbox_dir w
  = Ok ((bl, sl, ll), add_events evs w) ->
  exists brs,
    image_annotator args = "owlv2"
    /\ Forall2 (batch_annotated ext args OWLv2Annotator syn)
         (enumerate (image_batches paths
                       (Z.to_nat (batch_size_annotation args)))) brs
    /\ bl = concat (map (fun br => fst (fst (batch_output ext args
                                               OWLv2Annotator syn (fst br))))
                        brs)
    /\ ll = concat (map (fun br => map fst (snd br)) brs)
    /\ evs = [EvInstantiate OWLv2Annotator]
             ++ concat (map (batch_events bbox_dir
                               (Z.to_nat (batch_size_annotation args)))
                          (combine
                             (enumerate
                                (image_batches paths
                                   (Z.to_nat (batch_size_annotation args))))
                             brs))
             ++ [EvWriteJson (path_join save_dir "annotations.json")
                   (JObj (det_annotations paths bl ll (class_names args)))].
Proof.
  intros H. apply detection_branch_spec in H.
  destruct H as (brs & Hk & Hbrs & Hst & Hw).
  injection Hst as -> _ ->. apply add_events_inj in Hw.
  exists brs. auto.
Qed.

Lemma in_run_events (ext : External) (args : Args) (pg ig : wrapper)
  (dir_evs syn_evs branch_evs : list event) (e : event) :
  In e (run_events ext args pg ig dir_evs syn_evs branch_evs) <->
  In e dir_evs
  \/ e = EvWriteJson (path_join (save_dir args) "generation_args.json")
           (json_of_args args)
  \/ e = EvInstantiate pg
  \/ e = EvSavePrompts (path_join (save_dir args) "prompts.json")
           (prompts_of ext args pg)
  \/ e = EvRelease pg
  \/ In e syn_evs
  \/ e = EvInstantiate ig
  \/ In e (image_save_events (save_dir args) 0 (images_of ext args pg ig))
  \/ e = EvRelease ig
  \/ In e branch_evs.
Proof.
  unfold run_events. rewrite !in_app_iff. simpl.
  intuition (auto; try congruence).
Qed.

Lemma in_makedirs (evs : list event) (e : event) :
  Forall is_makedirs evs -> In e evs -> exists p, e = EvMakedirs p.
Proof.
  intros Hall Hin. rewrite Forall_forall in Hall. specialize (Hall e Hin).
  destruct e; try contradiction. eauto.
Qed.

Lemma in_image_save_events (save_dir : string) (n : nat) (imgs : list image)
  (e : event) :
  In e (image_save_events save_dir n imgs) -> exists p img, e = EvImageSave p img.
Proof.
  unfold image_save_events. rewrite in_map_iff. intros (x & <- & _). eauto.
Qed.

Lemma in_batch_events (bbox_dir : string) (bs : nat)
  (ibrs : list ((nat * list string) * (list image * list (list Z * figure))))
  (e : event) :
  In e (concat (map (batch_events bbox_dir bs) ibrs)) ->
  exists p fig, e = EvSavefig p fig.
Proof.
  rewrite in_concat. intros (l & Hl & He). apply in_map_iff in Hl.
  destruct Hl as (ibr & <- & _). unfold batch_events in He.
  apply in_map_iff in He. destruct He as (jr & <- & _).
  unfold savefig_event. eauto.
Qed.

Lemma toy_ext_wf : wf_annotator toy_ext.
Proof.
  intros cls dev images names conf tta syn. simpl.
  split; [now rewrite length_map|].
  split; induction images; simpl; constructor; auto.
Qed.

Lemma run_events_savefigs (ext : External) (args : Args) (pg ig : wrapper)
  (dir_evs syn_evs branch_evs : list event) :
  Forall is_makedirs dir_evs ->
  (forall e, In e syn_evs -> forall p fig, e <> EvSavefig p fig) ->
  savefigs (run_events ext args pg ig dir_evs syn_evs branch_evs)
  = savefigs branch_evs.
Proof.
  intros Hd Hs. unfold run_events.
  rewrite !savefigs_app, savefigs_makedirs, savefigs_image_saves by assumption.
  assert (Hsyn : savefigs syn_evs = []).
  { induction syn_evs as [|e l IH]; [reflexivity|].
    simpl. rewrite IH by (intros; apply Hs; now right).
    destruct e; try reflexivity.
    exfalso. apply (Hs (EvSavefig path fig)) with path fig; [now left|reflexivity]. }
  rewrite Hsyn. reflexivity.
Qed.

(** C7. In a run that returns with a task other than classification, and
    with an annotator that keeps its contract, the plotting code saves, in
    order, one figure [bbox_k.jpg] in [save_dir/bboxes_visualization] for
    each image path, [k] being [i * batch_size_annotation + j] and running
    over [0 .. len(image_paths) - 1]; the [k]-th figure carries one
    rectangle for each box detected in the [k]-th image. *)
Theorem bbox_visualizations_saved (ext : External) (args : Args)
  (w w' : World) (loc : Locals) :
  main ext args w = Ok (loc, w') ->
  task args <> "classification" ->
  wf_annotator ext ->
  exists evs figs,
    trace w' = trace w ++ evs
    /\ savefigs evs
       = combine
           (map (fun k =>
                   path_join (path_join (save_dir args) "bboxes_visualization")
                     ("bbox_" ++ str_of_nat k ++ ".jpg"))
                (seq 0 (length (image_paths loc))))
           figs
    /\ length figs = length (image_paths loc)
    /\ Forall2 (fun fig boxes => fig_patches fig = map new_rectangle boxes)
         figs (boxes_list loc).
Proof.
  intros Hmain Htask Hwf.
  destruct (main_inv ext args w w' loc Hmain)
    as (pg & ig & dir_evs & syn_evs & branch_evs & w2 & Hn & Hpg & Hig & Hdirs
        & Htrace & Hgp & Hpaths & Hnum & Hsyn & Hbranch).
  destruct Hbranch as [[Ht _]|[_ Hbr]]; [contradiction|].
  apply detection_branch_events in Hbr.
  destruct Hbr as (brs & Hk & Hbrs & Hbl & Hll & Hevs).
  assert (Hbs : 1 <= Z.to_nat (batch_size_annotation args)).
  { assert (~ (batch_size_annotation args < 1)%Z); [|lia].
    intros Hlt. apply Hn. unfold constraint_violated. do 10 right. now left. }
  destruct (batches_savefigs ext args OWLv2Annotator (synonym_dict loc)
              (path_join (save_dir args) "bboxes_visualization")
              (Z.to_nat (batch_size_annotation args)) _ _ Hbrs)
    as [Hsave Hlen].
  rewrite image_batch_indices in Hsave, Hlen by assumption.
  rewrite length_seq in Hlen.
  exists (run_events ext args pg ig dir_evs syn_evs branch_evs),
         (run_figures brs).
  split; [exact Htrace|]. split; [|split; [exact Hlen|]].
  - rewrite run_events_savefigs; [|assumption|].
    + rewrite Hevs, !savefigs_app. simpl. rewrite app_nil_r. exact Hsave.
    + intros e He p fig ->.
      destruct Hsyn as [(_ & -> & _)|(_ & cls & _ & -> & _)];
        simpl in He; intuition discriminate.
  - rewrite Hbl.
    now apply (batches_rows ext args OWLv2Annotator (synonym_dict loc)
                 (enumerate (image_batches (image_paths loc)
                               (Z.to_nat (batch_size_annotation args))))).
Qed.

Lemma bbox_visualizations_saved_witness :
  main toy_ext (toy_args "detection" "none") fresh_world = Ok toy_detection_run
  /\ task (toy_args "detection" "none") <> "classification"
  /\ wf_annotator toy_ext
  /\ exists evs figs,
       trace (snd toy_detection_run) = trace fresh_world ++ evs
       /\ savefigs evs
          = combine
              (map (fun k =>
                      path_join
                        (path_join (save_dir (toy_args "detection" "none"))
                           "bboxes_visualization")
                        ("bbox_" ++ str_of_nat k ++ ".jpg"))
                   (seq 0 (length (image_paths (fst toy_detection_run)))))
              figs
       /\ length figs = length (image_paths (fst toy_detection_run))
       /\ Forall2 (fun fig boxes => fig_patches fig = map new_rectangle boxes)
            figs (boxes_list (fst toy_detection_run)).
Proof.
  assert (Hrun : main toy_ext (toy_args "detection" "none") fresh_world
                 = Ok (fst toy_detection_run, snd toy_detection_run))
    by (vm_compute; reflexivity).
  assert (Htask : task (toy_args "detection" "none") <> "classification")
    by (simpl; discriminate).
  split; [exact Hrun|]. split; [exact Htask|]. split; [exact toy_ext_wf|].
  exact (bbox_visualizations_saved toy_ext (toy_args "detection" "none")
           fresh_world (snd toy_detection_run) (fst toy_detection_run)
           Hrun Htask toy_ext_wf).
Defined.

(** ** What a run writes *)








(** ** Which stages run *)

Lemma prompt_generators_range (k : string) (cls : wrapper) :
  dict_get k prompt_generators = Some cls ->
  cls = SimplePromptGenerator \/ cls = LMPromptGenerator
  \/ cls = TinyLlamaLMPromptGenerator.
Proof.
  unfold prompt_generators. cbn [dict_get].
  repeat match goal with
         | |- context [String.eqb ?a k] => destruct (String.eqb a k)
         end; intros H; try discriminate; injection H as <-; auto.
Qed.

Lemma image_generators_range (k : string) (cls : wrapper) :
  dict_get k image_generators = Some cls ->
  cls = StableDiffusionImageGenerator
  \/ cls = StableDiffusionTurboImageGenerator
  \/ cls = StableDiffusionLightningImageGenerator.
Proof.
  unfold image_generators. cbn [dict_get].
  repeat match goal with
         | |- context [String.eqb ?a k] => destruct (String.eqb a k)
         end; intros H; try discriminate; injection H as <-; auto.
Qed.

Lemma synonym_generators_range (k : string) (cls : wrapper) :
  dict_get k synonym_generators = Some cls ->
  cls = LMSynonymGenerator \/ cls = WordNetSynonymGenerator.
Proof.
  unfold synonym_generators. cbn [dict_get].
  repeat match goal with
         | |- context [String.eqb ?a k] => destruct (String.eqb a k)
         end; intros H; try discriminate; injection H as <-; auto.
Qed.

Lemma instantiate_in_run (ext : External) (args : Args) (pg ig : wrapper)
  (dir_evs syn_evs branch_evs : list event) (cls : wrapper) :
  Forall is_makedirs dir_evs ->
  In (EvInstantiate cls) (run_events ext args pg ig dir_evs syn_evs branch_evs)
  <-> cls = pg \/ In (EvInstantiate cls) syn_evs \/ cls = ig
      \/ In (EvInstantiate cls) branch_evs.
Proof.
  intros Hd. rewrite in_run_events. split.
  - intros [H|[H|[H|[H|[H|[H|[H|[H|[H|H]]]]]]]]]; try discriminate; auto.
    + destruct (in_makedirs _ _ Hd H) as [p Hp]. discriminate.
    + injection H as ->. auto.
    + injection H as ->. auto.
    + destruct (in_image_save_events _ _ _ _ H) as (p & img & Hp). discriminate.
  - intros [->|[H|[->|H]]]; auto 10.
Qed.

(** C3, as the code has it. In a run that returns, the synonym stage runs
    exactly when [--synonym_generator] is not ['none'] (its default): then
    the class the table gives for it is instantiated, runs on
    [args.class_names], and its result is saved to
    [save_dir/synonyms.json] and kept as [synonym_dict]; with ['none'] no
    synonym generator is instantiated, nothing is saved as synonyms, and
    [synonym_dict] stays [None]. *)
Theorem synonym_stage_optional (ext : External) (args : Args)
  (w w' : World) (loc : Locals) :
  main ext args w = Ok (loc, w') ->
  exists evs,
    trace w' = trace w ++ evs
    /\ (synonym_generator args <> "none" ->
        exists cls,
          dict_get (synonym_generator args) synonym_generators = Some cls
          /\ In (EvInstantiate cls) evs
          /\ In (EvSaveSynonyms (path_join (save_dir args) "synonyms.json")
                   (generate_synonyms_for_list ext cls (device args)
                      (class_names args))) evs
          /\ synonym_dict loc
             = Some (generate_synonyms_for_list ext cls (device args)
                       (class_names args)))
    /\ (synonym_generator args = "none" ->
        (forall p d, ~ In (EvSaveSynonyms p d) evs)
        /\ ~ In (EvInstantiate LMSynonymGenerator) evs
        /\ ~ In (EvInstantiate WordNetSynonymGenerator) evs
        /\ synonym_dict loc = None).
Proof.
  intros Hmain.
  destruct (main_inv ext args w w' loc Hmain)
    as (pg & ig & dir_evs & syn_evs & branch_evs & w2 & Hn & Hpg & Hig & Hdirs
        & Htrace & Hgp & Hpaths & Hnum & Hsyn & Hbranch).
  exists (run_events ext args pg ig dir_evs syn_evs branch_evs).
  split; [exact Htrace|]. split.
  - intros Hne.
    destruct Hsyn as [(He & _)|(_ & cls & Hcls & Hevs & Hdict)];
      [contradiction|].
    exists cls. split; [exact Hcls|]. split; [|split; [|exact Hdict]].
    + apply instantiate_in_run; [assumption|]. right; left.
      rewrite Hevs. now left.
    + apply in_run_events. do 5 right. left. rewrite Hevs. simpl. auto.
  - intros He.
    destruct Hsyn as [(_ & Hevs & Hdict)|(Hne & _)]; [|contradiction].
    subst syn_evs.
    assert (Hbr : forall e, In e branch_evs ->
              (exists p j, e = EvWriteJson p j)
              \/ e = EvInstantiate OWLv2Annotator
              \/ exists p fig, e = EvSavefig p fig).
    { intros e Hin.
      destruct Hbranch as [(_ & Hb & _ & _)|[_ Hb]].
      - apply classification_branch_events in Hb. subst branch_evs.
        destruct Hin as [<-|[]]. left. eauto.
      - apply detection_branch_events in Hb.
        destruct Hb as (brs & _ & _ & _ & _ & ->).
        rewrite !in_app_iff in Hin. simpl in Hin.
        destruct Hin as [[<-|[]]|[Hin|[<-|[]]]]; auto.
        + right; right. eapply in_batch_events; eassumption.
        + left. eauto. }
    assert (Hinst : forall cls,
              In (EvInstantiate cls)
                 (run_events ext args pg ig dir_evs [] branch_evs) ->
              cls = pg \/ cls = ig \/ cls = OWLv2Annotator).
    { intros cls H. apply instantiate_in_run in H; [|assumption].
      destruct H as [H|[[]|[H|H]]]; auto.
      destruct (Hbr _ H) as [(p & j & E)|[E|(p & fig & E)]];
        try discriminate. injection E as ->. auto. }
    split; [|split; [|split; [|exact Hdict]]].
    + intros p d H. apply in_run_events in H.
      destruct H as [H|[H|[H|[H|[H|[H|[H|[H|[H|H]]]]]]]]];
        try discriminate; try contradiction.
      * destruct (in_makedirs _ _ Hdirs H) as [q Hq]. discriminate.
      * destruct (in_image_save_events _ _ _ _ H) as (q & img & Hq).
        discriminate.
      * destruct (Hbr _ H) as [(q & j & E)|[E|(q & fig & E)]]; discriminate.
    + intros H. apply Hinst in H.
      apply prompt_generators_range in Hpg.
      apply image_generators_range in Hig.
      destruct H as [H|[H|H]]; subst; intuition discriminate.
    + intros H. apply Hinst in H.
      apply prompt_generators_range in Hpg.
      apply image_generators_range in Hig.
      destruct H as [H|[H|H]]; subst; intuition discriminate.
Qed.

Lemma synonym_stage_optional_witness :
  main toy_ext (toy_args "classification" "wordnet") fresh_world
  = Ok (fst toy_wordnet_run, snd toy_wordnet_run)
  /\ exists evs,
       trace (snd toy_wordnet_run) = trace fresh_world ++ evs
       /\ (synonym_generator (toy_args "classification" "wordnet") <> "none" ->
           exists cls,
             dict_get (synonym_generator (toy_args "classification" "wordnet"))
               synonym_generators = Some cls
             /\ In (EvInstantiate cls) evs
             /\ In (EvSaveSynonyms
                      (path_join
                         (save_dir (toy_args "classification" "wordnet"))
                         "synonyms.json")
                      (generate_synonyms_for_list toy_ext cls
                         (device (toy_args "classification" "wordnet"))
                         (class_names (toy_args "classification" "wordnet"))))
                  evs
             /\ synonym_dict (fst toy_wordnet_run)
                = Some (generate_synonyms_for_list toy_ext cls
                          (device (toy_args "classification" "wordnet"))
                          (class_names (toy_args "classification" "wordnet"))))
       /\ (synonym_generator (toy_args "classification" "wordnet") = "none" ->
           (forall p d, ~ In (EvSaveSynonyms p d) evs)
           /\ ~ In (EvInstantiate LMSynonymGenerator) evs
           /\ ~ In (EvInstantiate WordNetSynonymGenerator) evs
           /\ synonym_dict (fst toy_wordnet_run) = None).
Proof.
  assert (Hrun : main toy_ext (toy_args "classification" "wordnet") fresh_world
                 = Ok (fst toy_wordnet_run, snd toy_wordnet_run))
    by (vm_compute; reflexivity).
  split; [exact Hrun|].
  exact (synonym_stage_optional toy_ext (toy_args "classification" "wordnet")
           fresh_world (snd toy_wordnet_run) (fst toy_wordnet_run) Hrun).
Defined.

(** C3 as stated fails: a run with the default arguments returns without
    having saved any synonyms. *)
Lemma default_run_saves_no_synonyms :
  main toy_ext default_args fresh_world = Ok default_run
  /\ synonym_dict (fst default_run) = None
  /\ forall p d, ~ In (EvSaveSynonyms p d) (trace (snd default_run)).
Proof.
  split; [vm_compute; reflexivity|]. split; [reflexivity|].
  intros p d H. simpl in H.
  repeat (destruct H as [H|H]; [discriminate|]). exact H.
Qed.

Lemma branch_instantiations (ext : External) (args : Args) (loc : Locals)
  (branch_evs : list event) (w2 : World) (cls : wrapper) :
  ((task args = "classification"
    /\ classification_branch (class_names args)
         (map fst (generated_prompts loc)) (image_paths loc)
         (save_dir args) w2
       = Ok (labels_list loc, add_events branch_evs w2)
    /\ boxes_list loc = [] /\ scores_list loc = [])
   \/ (task args <> "classification"
       /\ detection_branch ext args (generated_prompts loc)
            (synonym_dict loc) (image_paths loc) (save_dir args)
            (path_join (save_dir args) "bboxes_visualization") w2
          = Ok ((boxes_list loc, scores_list loc, labels_list loc),
                add_events branch_evs w2))) ->
  In (EvInstantiate cls) branch_evs <->
  task args <> "classification" /\ image_annotator args = "owlv2"
  /\ cls = OWLv2Annotator.
Proof.
  intros [(Ht & Hb & _ & _)|[Ht Hb]].
  - apply classification_branch_events in Hb. subst branch_evs. split.
    + intros [H|[]]. discriminate.
    + intros [Hne _]. contradiction.
  - apply detection_branch_events in Hb.
    destruct Hb as (brs & Hk & _ & _ & _ & ->). split.
    + intros H. rewrite !in_app_iff in H. simpl in H.
      destruct H as [[H|[]]|[H|[H|[]]]]; try discriminate.
      * injection H as <-. auto.
      * destruct (in_batch_events _ _ _ _ H) as (p & fig & E). discriminate.
    + intros (_ & _ & ->). now left.
Qed.

(** C4, as the code has it. The four tables map each command-line choice
    to its wrapper class. In a run that returns, the classes instantiated
    are exactly: the one the table gives for [--prompt_generator]; the one
    it gives for [--image_generator]; the one it gives for
    [--synonym_generator] when that is not ['none']; and [OWLv2Annotator],
    the class for [--image_annotator owlv2], when the task is not
    ['classification']. *)
Theorem wrappers_selected_and_instantiated (ext : External) (args : Args)
  (w w' : World) (loc : Locals) :
  main ext args w = Ok (loc, w') ->
  (dict_get "simple" prompt_generators = Some SimplePromptGenerator
   /\ dict_get "lm" prompt_generators = Some LMPromptGenerator
   /\ dict_get "tiny" prompt_generators = Some TinyLlamaLMPromptGenerator
   /\ dict_get "sdxl" image_generators = Some StableDiffusionImageGenerator
   /\ dict_get "sdxl-turbo" image_generators
      = Some StableDiffusionTurboImageGenerator
   /\ dict_get "sdxl-lightning" image_generators
      = Some StableDiffusionLightningImageGenerator
   /\ dict_get "owlv2" annotators = Some OWLv2Annotator
   /\ dict_get "llm" synonym_generators = Some LMSynonymGenerator
   /\ dict_get "wordnet" synonym_generators = Some WordNetSynonymGenerator)
  /\ exists evs pg ig,
       trace w' = trace w ++ evs
       /\ dict_get (prompt_generator args) prompt_generators = Some pg
       /\ dict_get (image_generator args) image_generators = Some ig
       /\ forall cls,
            In (EvInstantiate cls) evs <->
            cls = pg
            \/ cls = ig
            \/ (synonym_generator args <> "none"
                /\ dict_get (synonym_generator args) synonym_generators
                   = Some cls)
            \/ (task args <> "classification"
                /\ image_annotator args = "owlv2"
                /\ cls = OWLv2Annotator).
Proof.
  intros Hmain. split; [repeat split|].
  destruct (main_inv ext args w w' loc Hmain)
    as (pg & ig & dir_evs & syn_evs & branch_evs & w2 & Hn & Hpg & Hig & Hdirs
        & Htrace & Hgp & Hpaths & Hnum & Hsyn & Hbranch).
  exists (run_events ext args pg ig dir_evs syn_evs branch_evs), pg, ig.
  split; [exact Htrace|]. split; [exact Hpg|]. split; [exact Hig|].
  intros cls. rewrite instantiate_in_run by assumption.
  rewrite (branch_instantiations ext args loc branch_evs w2 cls Hbranch).
  assert (Hs : In (EvInstantiate cls) syn_evs <->
               synonym_generator args <> "none"
               /\ dict_get (synonym_generator args) synonym_generators
                  = Some cls).
  { destruct Hsyn as [(He & -> & _)|(Hne & c & Hc & -> & _)].
    - split; [intros []|intros [Hne _]; contradiction].
    - split.
      + intros [H|[H|[H|[]]]]; try discriminate. injection H as <-. auto.
      + intros [_ H]. left. congruence. }
  rewrite Hs. tauto.
Qed.

Lemma wrappers_selected_and_instantiated_witness :
  main toy_ext (toy_args "detection" "none") fresh_world
  = Ok (fst toy_detection_run, snd toy_detection_run)
  /\ (dict_get "simple" prompt_generators = Some SimplePromptGenerator
      /\ dict_get "lm" prompt_generators = Some LMPromptGenerator
      /\ dict_get "tiny" prompt_generators = Some TinyLlamaLMPromptGenerator
      /\ dict_get "sdxl" image_generators = Some StableDiffusionImageGenerator
      /\ dict_get "sdxl-turbo" image_generators
         = Some StableDiffusionTurboImageGenerator
      /\ dict_get "sdxl-lightning" image_generators
         = Some StableDiffusionLightningImageGenerator
      /\ dict_get "owlv2" annotators = Some OWLv2Annotator
      /\ dict_get "llm" synonym_generators = Some LMSynonymGenerator
      /\ dict_get "wordnet" synonym_generators = Some WordNetSynonymGenerator)
  /\ exists evs pg ig,
       trace (snd toy_detection_run) = trace fresh_world ++ evs
       /\ dict_get (prompt_generator (toy_args "detection" "none"))
            prompt_generators = Some pg
       /\ dict_get (image_generator (toy_args "detection" "none"))
            image_generators = Some ig
       /\ forall cls,
            In (EvInstantiate cls) evs <->
            cls = pg
            \/ cls = ig
            \/ (synonym_generator (toy_args "detection" "none") <> "none"
                /\ dict_get (synonym_generator (toy_args "detection" "none"))
                     synonym_generators = Some cls)
            \/ (task (toy_args "detection" "none") <> "classification"
                /\ image_annotator (toy_args "detection" "none") = "owlv2"
                /\ cls = OWLv2Annotator).
Proof.
  assert (Hrun : main toy_ext (toy_args "detection" "none") fresh_world
                 = Ok (fst toy_detection_run, snd toy_detection_run))
    by (vm_compute; reflexivity).
  split; [exact Hrun|].
  exact (wrappers_selected_and_instantiated toy_ext
           (toy_args "detection" "none") fresh_world
           (snd toy_detection_run) (fst toy_detection_run) Hrun).
Defined.

(** C4 as stated fails: a classification run was given
    [--image_annotator owlv2], for which the table has [OWLv2Annotator],
    and returns without instantiating it. *)
Lemma classification_run_skips_selected_annotator :
  main toy_ext (toy_args "classification" "wordnet") fresh_world
  = Ok toy_wordnet_run
  /\ dict_get (image_annotator (toy_args "classification" "wordnet"))
       annotators = Some OWLv2Annotator
  /\ ~ In (EvInstantiate OWLv2Annotator) (trace (snd toy_wordnet_run)).
Proof.
  split; [vm_compute; reflexivity|]. split; [reflexivity|].
  intros H. simpl in H.
  repeat (destruct H as [H|H]; [discriminate|]). exact H.
Qed.

(** ** Where the annotations come from *)

(** C2, as the code has it. In a run that returns with a task other than
    classification, [OWLv2Annotator] is instantiated and what is written to
    [annotations.json] is built from its [annotate_batch] output: the box
    arrays are those it returned for the opened images of each batch, in
    order, and the labels of an image are those that [zip] pairs with its
    boxes and scores (all of them when the annotator keeps its contract);
    the entry of [image_k.jpg] holds the [k]-th of these arrays.
    With the classification task no annotator is instantiated and the
    labels written are those computed from the prompt objects. *)
Theorem annotations_source (ext : External) (args : Args)
  (w w' : World) (loc : Locals) :
  main ext args w = Ok (loc, w') ->
  exists evs,
    trace w' = trace w ++ evs
    /\ (task args <> "classification" ->
        In (EvInstantiate OWLv2Annotator) evs
        /\ In (EvWriteJson (path_join (save_dir args) "annotations.json")
                 (JObj (det_annotations (image_paths loc) (boxes_list loc)
                          (labels_list loc) (class_names args)))) evs
        /\ (forall k boxes labels,
              k < length (image_paths loc) ->
              nth_error (boxes_list loc) k = Some boxes ->
              nth_error (labels_list loc) k = Some labels ->
              dict_get ("image_" ++ str_of_nat k ++ ".jpg")
                (det_annotations (image_paths loc) (boxes_list loc)
                   (labels_list loc) (class_names args))
              = Some (JObj [("boxes", JList (map json_of_box boxes));
                            ("labels", JList (map JInt labels))]))
        /\ exists brs,
             Forall2
               (batch_annotated ext args OWLv2Annotator (synonym_dict loc))
               (enumerate
                  (image_batches (image_paths loc)
                     (Z.to_nat (batch_size_annotation args)))) brs
             /\ boxes_list loc
                = concat
                    (map (fun br =>
                            fst (fst (annotate_batch ext OWLv2Annotator
                                        (device args) (fst br)
                                        (class_names args)
                                        (conf_threshold args) (use_tta args)
                                        (synonym_dict loc)))) brs)
             /\ labels_list loc = concat (map (fun br => map fst (snd br)) brs)
             /\ (wf_annotator ext ->
                 labels_list loc
                 = concat
                     (map (fun br =>
                             snd (annotate_batch ext OWLv2Annotator
                                    (device args) (fst br) (class_names args)
                                    (conf_threshold args) (use_tta args)
                                    (synonym_dict loc))) brs)))
    /\ (task args = "classification" ->
        ~ In (EvInstantiate OWLv2Annotator) evs
        /\ In (EvWriteJson (path_join (save_dir args) "annotations.json")
                 (JObj (clf_annotations (image_paths loc) (labels_list loc)
                          (class_names args)))) evs
        /\ exists w2,
             classification_labels (class_names args)
               (map fst (generated_prompts loc)) w2
             = Ok (labels_list loc, w2)).
Proof.
  intros Hmain.
  destruct (main_inv ext args w w' loc Hmain)
    as (pg & ig & dir_evs & syn_evs & branch_evs & w2 & Hn & Hpg & Hig & Hdirs
        & Htrace & Hgp & Hpaths & Hnum & Hsyn & Hbranch).
  exists (run_events ext args pg ig dir_evs syn_evs branch_evs).
  split; [exact Htrace|]. split.
  - intros Ht. destruct Hbranch as [(Hc & _)|[_ Hb]]; [contradiction|].
    apply detection_branch_events in Hb.
    destruct Hb as (brs & Hk & Hbrs & Hbl & Hll & Hevs).
    split; [|split; [|split]].
    + apply in_run_events. do 9 right. rewrite Hevs. now left.
    + apply in_run_events. do 9 right. rewrite Hevs.
      apply in_app_iff. right. apply in_app_iff. right. now left.
    + intros k boxes labels Hk' Hb Hl. rewrite Hpaths in Hk' |- *.
      rewrite length_map, length_seq in Hk'.
      now apply (det_annotations_image (save_dir args) _ k).
    + exists brs. split; [exact Hbrs|]. split; [exact Hbl|].
      split; [exact Hll|]. intros Hwf. rewrite Hll.
      now apply (batches_rows ext args OWLv2Annotator (synonym_dict loc)
                   (enumerate (image_batches (image_paths loc)
                                 (Z.to_nat (batch_size_annotation args))))).
  - intros Ht. split; [|split].
    + intros H. apply instantiate_in_run in H; [|assumption].
      apply prompt_generators_range in Hpg.
      apply image_generators_range in Hig.
      destruct H as [H|[H|[H|H]]].
      * subst pg. intuition discriminate.
      * destruct Hsyn as [(_ & -> & _)|(_ & c & Hc & -> & _)];
          [destruct H|].
        apply synonym_generators_range in Hc.
        destruct H as [H|[H|[H|[]]]]; try discriminate.
        injection H as ->. intuition discriminate.
      * subst ig. intuition discriminate.
      * apply (branch_instantiations ext args loc branch_evs w2) in H;
          [|exact Hbranch].
        destruct H as [Hne _]. contradiction.
    + destruct Hbranch as [(_ & Hb & _)|[Hne _]]; [|contradiction].
      apply classification_branch_events in Hb.
      apply in_run_events. do 9 right. rewrite Hb. now left.
    + destruct Hbranch as [(_ & Hb & _)|[Hne _]]; [|contradiction].
      apply classification_branch_inv in Hb. destruct Hb as [Hl _].
      now exists w2.
Qed.

Lemma annotations_source_witness :
  main toy_ext (toy_args "detection" "none") fresh_world
  = Ok (fst toy_detection_run, snd toy_detection_run)
  /\ exists evs,
       trace (snd toy_detection_run) = trace fresh_world ++ evs
       /\ (task (toy_args "detection" "none") <> "classification" ->
           In (EvInstantiate OWLv2Annotator) evs
           /\ In (EvWriteJson
                    (path_join (save_dir (toy_args "detection" "none"))
                       "annotations.json")
                    (JObj (det_annotations
                             (image_paths (fst toy_detection_run))
                             (boxes_list (fst toy_detection_run))
                             (labels_list (fst toy_detection_run))
                             (class_names (toy_args "detection" "none")))))
                evs
           /\ (forall k boxes labels,
                 k < length (image_paths (fst toy_detection_run)) ->
                 nth_error (boxes_list (fst toy_detection_run)) k = Some boxes ->
                 nth_error (labels_list (fst toy_detection_run)) k
                 = Some labels ->
                 dict_get ("image_" ++ str_of_nat k ++ ".jpg")
                   (det_annotations
                      (image_paths (fst toy_detection_run))
                      (boxes_list (fst toy_detection_run))
                      (labels_list (fst toy_detection_run))
                      (class_names (toy_args "detection" "none")))
                 = Some (JObj [("boxes", JList (map json_of_box boxes));
                               ("labels", JList (map JInt labels))]))
           /\ exists brs,
                Forall2
                  (batch_annotated toy_ext (toy_args "detection" "none")
                     OWLv2Annotator (synonym_dict (fst toy_detection_run)))
                  (enumerate
                     (image_batches (image_paths (fst toy_detection_run))
                        (Z.to_nat
                           (batch_size_annotation
                              (toy_args "detection" "none"))))) brs
                /\ boxes_list (fst toy_detection_run)
                   = concat
                       (map (fun br =>
                               fst (fst (annotate_batch toy_ext OWLv2Annotator
                                           (device (toy_args "detection" "none"))
                                           (fst br)
                                           (class_names
                                              (toy_args "detection" "none"))
                                           (conf_threshold
                                              (toy_args "detection" "none"))
                                           (use_tta
                                              (toy_args "detection" "none"))
                                           (synonym_dict
                                              (fst toy_detection_run)))))
                            brs)
                /\ labels_list (fst toy_detection_run)
                   = concat (map (fun br => map fst (snd br)) brs)
                /\ (wf_annotator toy_ext ->
                    labels_list (fst toy_detection_run)
                    = concat
                        (map (fun br =>
                                snd (annotate_batch toy_ext OWLv2Annotator
                                       (device (toy_args "detection" "none"))
                                       (fst br)
                                       (class_names
                                          (toy_args "detection" "none"))
                                       (conf_threshold
                                          (toy_args "detection" "none"))
                                       (use_tta (toy_args "detection" "none"))
                                       (synonym_dict (fst toy_detection_run))))
                             brs)))
       /\ (task (toy_args "detection" "none") = "classification" ->
           ~ In (EvInstantiate OWLv2Annotator) evs
           /\ In (EvWriteJson
                    (path_join (save_dir (toy_args "detection" "none"))
                       "annotations.json")
                    (JObj (clf_annotations
                             (image_paths (fst toy_detection_run))
                             (labels_list (fst toy_detection_run))
                             (class_names (toy_args "detection" "none")))))
                evs
           /\ exists w2,
                classification_labels
                  (class_names (toy_args "detection" "none"))
                  (map fst (generated_prompts (fst toy_detection_run))) w2
                = Ok (labels_list (fst toy_detection_run), w2)).
Proof.
  assert (Hrun : main toy_ext (toy_args "detection" "none") fresh_world
                 = Ok (fst toy_detection_run, snd toy_detection_run))
    by (vm_compute; reflexivity).
  split; [exact Hrun|].
  exact (annotations_source toy_ext (toy_args "detection" "none")
           fresh_world (snd toy_detection_run) (fst toy_detection_run) Hrun).
Defined.

(** C2 as stated fails: a classification run writes [annotations.json]
    and returns without ever instantiating the annotator. *)
Lemma classification_run_uses_no_annotator :
  main toy_ext (toy_args "classification" "none") fresh_world
  = Ok toy_classification_run
  /\ In (EvWriteJson "out/annotations.json"
           (JObj [ ("image_0.jpg", JObj [("labels", JList [JInt 0; JInt 1])]);
                   ("image_1.jpg", JObj [("labels", JList [JInt 0])]);
                   ("class_names", JList [JStr "bear"; JStr "bird"]) ]))
        (trace (snd toy_classification_run))
  /\ ~ In (EvInstantiate OWLv2Annotator) (trace (snd toy_classification_run)).
Proof.
  split; [vm_compute; reflexivity|]. split.
  - simpl. auto 20.
  - intros H. simpl in H.
    repeat (destruct H as [H|H]; [discriminate|]). exact H.
Qed.

(** * Further properties of the pipeline *)

(** ** check_args: what it can raise *)

Lemma check_args_no_dir (args : Args) (w : World) :
  dir_exists w (save_dir args) = false ->
  makedirs_ok w (save_dir args) = false ->
  check_args args w
  = Raise (ValueError ("Cannot create directory " ++ save_dir args)).
Proof.
  intros E1 E2. unfold check_args. rewrite bind_path_exists, E1.
  unfold bind at 1. unfold when, negb, try_except_OSError, makedirs.
  now rewrite E2.
Qed.

(** X1. Whatever the arguments and the machine, [check_args] either
    returns, having at most created the save directory, or raises
    ValueError: the indexing of [num_objects_range] and the comparisons
    never raise IndexError or TypeError, and a failing [os.makedirs] is
    turned into a ValueError. *)
Theorem check_args_raises_only_ValueError (args : Args) (w : World) :
  check_args args w = Ok (tt, world_after_check args w)
  \/ exists msg, check_args args w = Raise (ValueError msg).
Proof.
  destruct (dir_exists w (save_dir args)) eqn:E1.
  - destruct (check_args_decide args w (or_introl E1)) as [[H _]|[H _]]; auto.
  - destruct (makedirs_ok w (save_dir args)) eqn:E2.
    + destruct (check_args_decide args w (or_intror E2)) as [[H _]|[H _]]; auto.
    + right. eexists. now apply check_args_no_dir.
Qed.

(** X2. When the save directory neither exists nor can be created,
    [check_args] raises ValueError whatever the other arguments are, and
    [main] raises the same error. *)
Theorem save_dir_not_creatable (ext : External) (args : Args) (w : World) :
  dir_exists w (save_dir args) = false ->
  makedirs_ok w (save_dir args) = false ->
  exists msg,
    check_args args w = Raise (ValueError msg)
    /\ main ext args w = Raise (ValueError msg).
Proof.
  intros E1 E2. eexists. split.
  - now apply check_args_no_dir.
  - unfold main. unfold bind at 1. now rewrite check_args_no_dir.
Qed.

Lemma save_dir_not_creatable_witness :
  dir_exists (mkWorld true (fun _ => false) (fun _ => false) [] [])
    (save_dir default_args) = false
  /\ makedirs_ok (mkWorld true (fun _ => false) (fun _ => false) [] [])
       (save_dir default_args) = false
  /\ exists msg,
       check_args default_args
         (mkWorld true (fun _ => false) (fun _ => false) [] [])
       = Raise (ValueError msg)
       /\ main toy_ext default_args
            (mkWorld true (fun _ => false) (fun _ => false) [] [])
          = Raise (ValueError msg).
Proof.
  split; [reflexivity|]. split; [reflexivity|].
  apply (save_dir_not_creatable toy_ext default_args
           (mkWorld true (fun _ => false) (fun _ => false) [] []));
    reflexivity.
Defined.

(** X3. [main] validates before it does anything else: an exception of
    [check_args] is the outcome of [main], and a run of [main] that
    returns had arguments that violate none of the constraints. *)
Theorem main_runs_only_valid_arguments (ext : External) (args : Args)
  (w : World) :
  (forall e, check_args args w = Raise e -> main ext args w = Raise e)
  /\ (forall loc w',
        main ext args w = Ok (loc, w') ->
        ~ constraint_violated args (cuda_is_available w)
        /\ check_args args w = Ok (tt, world_after_check args w)).
Proof.
  split.
  - intros e H. unfold main. unfold bind at 1. now rewrite H.
  - intros loc w' H. unfold main in H. apply bind_inv in H.
    destruct H as ([] & w0 & Hc & _).
    destruct (check_args_ok args w w0 tt Hc) as [-> Hn]. auto.
Qed.

(** ** parse_args: the defaults *)

(** X4. With no command-line arguments the defaults of [parse_args] are
    what [check_args] sees. Where the save directory exists or can be
    made, they pass exactly on a machine with CUDA; without CUDA the
    default [--device cuda] is rejected with the CUDA message. *)
Theorem default_arguments_need_cuda (w : World) :
  dir_exists w (save_dir default_args) = true
  \/ makedirs_ok w (save_dir default_args) = true ->
  (cuda_is_available w = true ->
   check_args default_args w = Ok (tt, world_after_check default_args w))
  /\ (cuda_is_available w = false ->
      check_args default_args w
      = Raise (ValueError "CUDA is not available. Please use --device cpu")).
Proof.
  intros Hdir. unfold check_args, world_after_check.
  rewrite bind_path_exists.
  destruct w as [cuda ie mk md tr]. cbn [cuda_is_available].
  destruct (dir_exists (mkWorld cuda ie mk md tr) (save_dir default_args))
    eqn:E.
  - split; intros ->; reflexivity.
  - destruct Hdir as [Hdir|Hdir]; [discriminate|].
    cbn [makedirs_ok] in Hdir.
    split; intros ->; unfold bind at 1;
      unfold when, negb, try_except_OSError, makedirs;
      cbn [makedirs_ok]; rewrite Hdir; reflexivity.
Qed.

Lemma default_arguments_need_cuda_witness :
  (dir_exists fresh_world (save_dir default_args) = true
   \/ makedirs_ok fresh_world (save_dir default_args) = true)
  /\ (cuda_is_available fresh_world = true ->
      check_args default_args fresh_world
      = Ok (tt, world_after_check default_args fresh_world))
  /\ (cuda_is_available fresh_world = false ->
      check_args default_args fresh_world
      = Raise (ValueError "CUDA is not available. Please use --device cpu")).
Proof.
  split; [right; reflexivity|].
  apply (default_arguments_need_cuda fresh_world). right. reflexivity.
Defined.

(** ** Batches and global indices *)

Lemma image_batches_nil {A : Type} (bs : nat) : image_batches (@nil A) bs = [].
Proof.
  unfold image_batches, range, range_len. simpl.
  destruct (Nat.eqb_spec bs 0); [reflexivity|].
  now rewrite Nat.div_small by lia.
Qed.

(** X5. The index [i * batch_size_annotation + j] that names a figure and
    picks its prompt is the position in [image_paths] of the [j]-th path of
    batch [i]. *)
Theorem image_batches_global_index {A : Type} (l : list A) (bs i j : nat)
  (batch : list A) :
  1 <= bs ->
  nth_error (image_batches l bs) i = Some batch ->
  j < length batch ->
  i * bs + j < length l
  /\ nth_error batch j = nth_error l (i * bs + j).
Proof.
  intros Hbs Hi Hj.
  assert (Hlt : i < range_len 0 (length l) bs).
  { rewrite <- image_batches_length. apply nth_error_Some. congruence. }
  rewrite image_batches_nth in Hi by assumption. injection Hi as <-.
  rewrite length_firstn, length_skipn in Hj.
  split; [lia|].
  rewrite nth_error_firstn, nth_error_skipn.
  destruct (Nat.ltb_spec j bs); [reflexivity|lia].
Qed.

Lemma image_batches_global_index_witness :
  1 <= 2
  /\ nth_error (image_batches [10; 11; 12; 13; 14] 2) 2 = Some [14]
  /\ 0 < length [14]
  /\ 2 * 2 + 0 < length [10; 11; 12; 13; 14]
  /\ nth_error [14] 0 = nth_error [10; 11; 12; 13; 14] (2 * 2 + 0).
Proof.
  assert (H1 : 1 <= 2) by lia.
  assert (H2 : nth_error (image_batches [10; 11; 12; 13; 14] 2) 2 = Some [14])
    by reflexivity.
  assert (H3 : 0 < length [14]) by (simpl; lia).
  split; [exact H1|]. split; [exact H2|]. split; [exact H3|].
  exact (image_batches_global_index [10; 11; 12; 13; 14] 2 2 0 [14] H1 H2 H3).
Defined.

(** ** The detection branch without images *)

(** X6. When no image was generated, the detection branch saves no
    figure: it instantiates the annotator, writes an
    [annotations.json] that holds only the class names, and returns three
    empty lists. *)
Theorem detection_without_images (ext : External) (args : Args)
  (gp : list prompt) (syn : option synonyms) (save_dir bbox_dir : string)
  (w : World) :
  image_annotator args = "owlv2" ->
  detection_branch ext args gp syn [] save_dir bbox_dir w
  = Ok (([], [], []),
        add_events
          [ EvInstantiate OWLv2Annotator;
            EvWriteJson (path_join save_dir "annotations.json")
              (JObj [("class_names",
                      JList (map json_of_pyval (class_names args)))]) ]
          w).
Proof.
  intros Hk. unfold detection_branch. rewrite Hk, image_batches_nil.
  unfold bind, lookup, lift_option, save_det_annotations_to_json, emit, ret.
  simpl. now rewrite add_events_app.
Qed.

Lemma detection_without_images_witness :
  image_annotator default_args = "owlv2"
  /\ detection_branch toy_ext default_args [] None [] "out" "out/b" fresh_world
     = Ok (([], [], []),
           add_events
             [ EvInstantiate OWLv2Annotator;
               EvWriteJson (path_join "out" "annotations.json")
                 (JObj [("class_names",
                         JList (map json_of_pyval (class_names default_args)))]) ]
             fresh_world).
Proof.
  split; [reflexivity|].
  apply (detection_without_images toy_ext default_args [] None "out" "out/b"
           fresh_world).
  reflexivity.
Defined.

(** ** The classification branch when an object is unknown *)

Lemma list_index_None (x : pyval) (l : list pyval) :
  list_index x l = None <-> ~ In x l.
Proof.
  split.
  - intros H Hin. destruct (list_index_In x l Hin) as [k Hk]. congruence.
  - intros H. destruct (list_index x l) as [k|] eqn:E; [|reflexivity].
    exfalso. apply H. destruct (list_index_first x l k E) as [Hk _].
    now apply nth_error_In with k.
Qed.

Lemma object_label_message (w : World) :
  object_label [PStr "dog"] [] (PStr "cat") w
  = Raise (ValueError "'cat' is not in list").
Proof. reflexivity. Qed.

Lemma object_labels_cons (names objs : list pyval) (obj : pyval)
  (acc : list Z) (w : World) :
  foldM (object_label names) (obj :: objs) acc w
  = match list_index obj names with
    | Some k => foldM (object_label names) objs (acc ++ [Z.of_nat k]) w
    | None => Raise (ValueError (repr obj ++ " is not in list"))
    end.
Proof.
  cbn [foldM]. unfold bind at 1. unfold object_label at 1.
  unfold bind, lift_option. now destruct (list_index obj names).
Qed.

Lemma object_labels_cases (names objs : list pyval) (acc : list Z)
  (w : World) :
  ((forall obj, In obj objs -> In obj names)
   /\ foldM (object_label names) objs acc w
      = Ok (acc ++ map (label_of names) objs, w))
  \/ (exists obj,
        In obj objs /\ ~ In obj names
        /\ foldM (object_label names) objs acc w
           = Raise (ValueError (repr obj ++ " is not in list"))).
Proof.
  revert acc. induction objs as [|obj objs IH]; intros acc.
  - left. split; [intros obj []|]. simpl. unfold ret. now rewrite app_nil_r.
  - rewrite object_labels_cons.
    destruct (list_index obj names) as [k|] eqn:E.
    + destruct (IH (acc ++ [Z.of_nat k])) as [[Hall Hok]|(o & Ho & Hn & Hr)].
      * left. split.
        -- intros o [->|Ho]; [|now apply Hall].
           destruct (list_index_first o names k E) as [Hk _].
           now apply nth_error_In with k.
        -- rewrite Hok. simpl. unfold label_of at 2. rewrite E.
           now rewrite <- app_assoc.
      * right. exists o. split; [now right|]. split; assumption.
    + right. exists obj. split; [now left|].
      split; [now apply list_index_None|reflexivity].
Qed.

Lemma classification_labels_cons (names objs : list pyval)
  (pos : list (list pyval)) (acc : list (list Z)) (w : World) :
  foldM (fun labels_list prompt_objs =>
           labels <- foldM (object_label names) prompt_objs [] ;;
           ret (labels_list ++ [np_unique labels]))
        (objs :: pos) acc w
  = match foldM (object_label names) objs [] w with
    | Ok (labels, w1) =>
        foldM (fun labels_list prompt_objs =>
                 labels <- foldM (object_label names) prompt_objs [] ;;
                 ret (labels_list ++ [np_unique labels]))
              pos (acc ++ [np_unique labels]) w1
    | Raise e => Raise e
    end.
Proof.
  cbn [foldM]. unfold bind at 1. unfold bind at 1.
  now destruct (foldM (object_label names) objs [] w) as [[labels w1]|e].
Qed.

Lemma classification_labels_cases (names : list pyval)
  (pos : list (list pyval)) (acc : list (list Z)) (w : World) :
  ((forall objs obj, In objs pos -> In obj objs -> In obj names)
   /\ exists ll,
        foldM (fun labels_list prompt_objs =>
                 labels <- foldM (object_label names) prompt_objs [] ;;
                 ret (labels_list ++ [np_unique labels]))
              pos acc w = Ok (ll, w))
  \/ (exists objs obj,
        In objs pos /\ In obj objs /\ ~ In obj names
        /\ foldM (fun labels_list prompt_objs =>
                    labels <- foldM (object_label names) prompt_objs [] ;;
                    ret (labels_list ++ [np_unique labels]))
                 pos acc w
           = Raise (ValueError (repr obj ++ " is not in list"))).
Proof.
  revert acc. induction pos as [|objs pos IH]; intros acc.
  - left. split; [intros objs obj []|]. exists acc. reflexivity.
  - rewrite classification_labels_cons.
    destruct (object_labels_cases names objs [] w)
      as [[Hall ->]|(o & Ho & Hn & ->)].
    + destruct (IH (acc ++ [np_unique ([] ++ map (label_of names) objs)]))
        as [[Hrest [ll Hok]]|(os & o & Hos & Ho & Hn & Hr)].
      * left. split; [|now exists ll].
        intros os o [<-|Hos] Ho; [now apply Hall|now apply (Hrest os)].
      * right. exists os, o. split; [now right|auto].
    + right. exists objs, o. split; [now left|auto].
Qed.

(** X7. The classification branch raises exactly when some object of some
    prompt is not among the class names, and what it raises is the
    ValueError of [list.index]; otherwise it returns. *)
Theorem classification_branch_unknown_object (class_names : list pyval)
  (prompt_objects : list (list pyval)) (image_paths : list string)
  (save_dir : string) (w : World) :
  ((exists objs obj,
      In objs prompt_objects /\ In obj objs /\ ~ In obj class_names) <->
   exists msg,
     classification_branch class_names prompt_objects image_paths save_dir w
     = Raise (ValueError msg))
  /\ ((forall objs obj,
         In objs prompt_objects -> In obj objs -> In obj class_names) <->
      exists labels_list w',
        classification_branch class_names prompt_objects image_paths
          save_dir w = Ok (labels_list, w')).
Proof.
  unfold classification_branch, classification_labels.
  destruct (classification_labels_cases class_names prompt_objects [] w)
    as [[Hall [ll Hok]]|(os & o & Hos & Ho & Hno & Hr)].
  - assert (Hrun : bind
             (foldM (fun labels_list prompt_objs =>
                       labels <- foldM (object_label class_names)
                                   prompt_objs [] ;;
                       ret (labels_list ++ [np_unique labels]))
                    prompt_objects [])
             (fun labels_list =>
                save_clf_annotations_to_json image_paths labels_list
                  class_names save_dir "annotations.json" ;;;
                ret labels_list) w
           = Ok (ll, add_events
                       [EvWriteJson (path_join save_dir "annotations.json")
                          (JObj (clf_annotations image_paths ll class_names))]
                       w)).
    { unfold bind at 1. rewrite Hok. reflexivity. }
    rewrite Hrun. split; split.
    + intros (objs & obj & Hos & Ho & Hn). exfalso. now apply Hn, (Hall objs).
    + intros [msg H]. discriminate.
    + intros _. eauto.
    + intros _. exact Hall.
  - assert (Hrun : bind
             (foldM (fun labels_list prompt_objs =>
                       labels <- foldM (object_label class_names)
                                   prompt_objs [] ;;
                       ret (labels_list ++ [np_unique labels]))
                    prompt_objects [])
             (fun labels_list =>
                save_clf_annotations_to_json image_paths labels_list
                  class_names save_dir "annotations.json" ;;;
                ret labels_list) w
           = Raise (ValueError (repr o ++ " is not in list"))).
    { unfold bind at 1. now rewrite Hr. }
    rewrite Hrun. split; split.
    + intros _. eauto.
    + intros _. exists os, o. auto.
    + intros Hall. exfalso. now apply Hno, (Hall os).
    + intros (ll & w' & H). discriminate.
Qed.

(** ** generation_args.json *)

Lemma json_of_pyval_inj (a b : pyval) :
  json_of_pyval a = json_of_pyval b -> a = b.
Proof. destruct a, b; simpl; intros H; congruence. Qed.

Lemma map_json_of_pyval_inj (a b : list pyval) :
  map json_of_pyval a = map json_of_pyval b -> a = b.
Proof.
  revert b. induction a as [|x a IH]; intros [|y b] H; try discriminate;
    [reflexivity|].
  simpl in H. injection H as Hx Hrest.
  f_equal; [now apply json_of_pyval_inj|now apply IH].
Qed.

(** X8. The object written to [generation_args.json] determines every
    argument of the run: two argument sets that are written alike are
    equal. *)
Theorem generation_args_determine_run (a b : Args) :
  json_of_args a = json_of_args b -> a = b.
Proof.
  destruct a, b. unfold json_of_args. cbn [save_dir task class_names
    prompts_number num_objects_range prompt_generator image_generator
    image_annotator synonym_generator conf_threshold use_tta use_image_tester
    image_tester_patience lm_quantization batch_size_prompt
    batch_size_annotation batch_size_image device seed].
  intros H. injection H as H.
  repeat match goal with
         | H : _ :: _ = _ :: _ |- _ => injection H as ? H
         | H : (_, _) = (_, _) |- _ => injection H as ? H
         end.
  repeat match goal with
         | H : map json_of_pyval _ = map json_of_pyval _ |- _ =>
             apply map_json_of_pyval_inj in H
         end.
  subst. reflexivity.
Qed.

Lemma generation_args_determine_run_witness :
  json_of_args default_args = json_of_args default_args
  /\ default_args = default_args.
Proof.
  split; [reflexivity|].
  apply (generation_args_determine_run default_args default_args).
  reflexivity.
Defined.

(** ** The figure of one image *)

Lemma draw_detections_cons (names : list pyval) (gp : list prompt) (k : nat)
  (d : box * float * Z) (dets : list (box * float * Z))
  (labels : list Z) (fig : figure) (w : World) :
  foldM (draw_detection names gp k) (d :: dets) (labels, fig) w
  = match getitem names (snd d) with
    | None => Raise IndexError
    | Some label_text =>
        match nth_error gp k with
        | None => Raise IndexError
        | Some p =>
            foldM (draw_detection names gp k) dets
              (labels ++ [snd d],
               mkFigure (fig_image fig)
                 (fig_patches fig ++ [new_rectangle (fst (fst d))])
                 (fig_texts fig
                  ++ [mkText (x1 (fst (fst d))) (y1 (fst (fst d)))
                        label_text (snd (fst d))])
                 (Some (snd p))) w
        end
    end.
Proof.
  destruct d as [[b score] label]. cbn [foldM fst snd].
  unfold bind at 1. unfold draw_detection at 1.
  unfold bind at 1. unfold index at 1. unfold lift_option.
  destruct (getitem names label) as [t|]; [|reflexivity].
  unfold ret at 1. unfold bind at 1. rewrite index_nat.
  now destruct (nth_error gp k).
Qed.

Lemma draw_detections_cases (names : list pyval) (gp : list prompt) (k : nat)
  (dets : list (box * float * Z)) (st : list Z * figure) (w : World) :
  (drawable names gp k dets
   /\ exists r, foldM (draw_detection names gp k) dets st w = Ok (r, w))
  \/ (~ drawable names gp k dets
      /\ foldM (draw_detection names gp k) dets st w = Raise IndexError).
Proof.
  revert st. induction dets as [|d dets IH]; intros [labels fig].
  - left. split; [now left|]. eexists. reflexivity.
  - rewrite draw_detections_cons.
    destruct (getitem names (snd d)) as [t|] eqn:Et.
    + destruct (nth_error gp k) as [p|] eqn:Ep.
      * match goal with
        | |- context [foldM _ dets ?st w] => destruct (IH st) as [[Hd Hok]|[Hn Hr]]
        end.
        -- left. split; [|exact Hok]. right. split; [congruence|].
           constructor; [congruence|].
           destruct Hd as [->|[_ Hall]]; [constructor|exact Hall].
        -- right. split; [|exact Hr].
           intros [Hnil|[_ Hall]]; [discriminate|].
           apply Hn. right. split; [congruence|]. now inversion Hall.
      * right. split; [|reflexivity].
        intros [Hnil|[Hp _]]; [discriminate|]. now apply Hp.
    + right. split; [|reflexivity].
      intros [Hnil|[_ Hall]]; [discriminate|].
      inversion Hall as [|? ? Hd _]. now apply Hd.
Qed.

Lemma draw_detections_texts (names : list pyval) (gp : list prompt) (k : nat)
  (dets : list (box * float * Z)) (labels : list Z) (fig : figure)
  (w w' : World) (r : list Z * figure) :
  foldM (draw_detection names gp k) dets (labels, fig) w = Ok (r, w') ->
  (exists texts,
     fig_texts (snd r) = fig_texts fig ++ texts
     /\ Forall2 (text_of_detection names) dets texts)
  /\ (dets = [] -> fig_title (snd r) = fig_title fig)
  /\ (dets <> [] ->
      exists p, nth_error gp k = Some p /\ fig_title (snd r) = Some (snd p)).
Proof.
  revert labels fig. induction dets as [|d dets IH]; intros labels fig H.
  - simpl in H. injection H as <- _. simpl. split; [|split].
    + exists []. split; [now rewrite app_nil_r|constructor].
    + reflexivity.
    + intros Hne. now contradiction Hne.
  - rewrite draw_detections_cons in H.
    destruct (getitem names (snd d)) as [t|] eqn:Et; [|discriminate].
    destruct (nth_error gp k) as [p|] eqn:Ep; [|discriminate].
    apply IH in H. cbn [fig_texts fig_title] in H.
    destruct H as ((texts & Htexts & Hall) & Hnil & Hcons).
    split; [|split].
    + eexists. split; [rewrite Htexts, <- app_assoc; reflexivity|].
      constructor; [|exact Hall]. repeat split; assumption.
    + discriminate.
    + intros _. exists p. split; [reflexivity|].
      destruct dets as [|d' dets].
      * now apply Hnil.
      * destruct Hcons as (p' & Hp' & Ht); [discriminate|]. congruence.
Qed.

(** X9. The figure saved for an image, when [annotate_image] returns: it
    is saved as [bbox_k.jpg], [k = i * batch_size_annotation + j], shows the
    image, and carries, for each detection that [zip] pairs up, in order,
    one rectangle spanning the box and one text at its corner with the
    class name of the label and the score. The rectangle is anchored at
    [(x1, y1)]; its width [x2 - x1] and height [y2 - y1] are computed in
    the dtype of the box array, so with [float32] boxes they are [float32]
    differences. The title is the text of prompt [k] if there is at least
    one detection; an image without detections gets no title. The labels
    appended are those of the detections. *)
Theorem annotate_image_figure (names : list pyval) (gp : list prompt)
  (bbox_dir : string) (bs i j : nat) (image : image)
  (bb : list (list box)) (sb : list (list float)) (lb : list (list Z))
  (ll ll' : list (list Z)) (w w' : World) :
  annotate_image names gp bbox_dir bs i bb sb lb ll (j, image) w
  = Ok (ll', w') ->
  exists bj sj lj fig,
    nth_error bb j = Some bj /\ nth_error sb j = Some sj
    /\ nth_error lb j = Some lj
    /\ w' = add_events
              [EvSavefig
                 (path_join bbox_dir
                    ("bbox_" ++ str_of_nat (i * bs + j) ++ ".jpg")) fig] w
    /\ ll' = ll ++ [map snd (zip3 bj sj lj)]
    /\ fig_image fig = image
    /\ fig_patches fig
       = map (fun d =>
                mkRectangle (x1 (fst (fst d))) (y1 (fst (fst d)))
                  (np_sub (box_dtype (fst (fst d)))
                     (x2 (fst (fst d))) (x1 (fst (fst d))))
                  (np_sub (box_dtype (fst (fst d)))
                     (y2 (fst (fst d))) (y1 (fst (fst d))))
                  2 "r" "none")
             (zip3 bj sj lj)
    /\ Forall2 (text_of_detection names) (zip3 bj sj lj) (fig_texts fig)
    /\ (zip3 bj sj lj = [] -> fig_title fig = None)
    /\ (zip3 bj sj lj <> [] ->
        exists p,
          nth_error gp (i * bs + j) = Some p /\ fig_title fig = Some (snd p)).
Proof.
  unfold annotate_image. intros H.
  apply bind_inv in H. destruct H as (bj & w1 & Hb & H).
  apply index_inv in Hb. destruct Hb as [Hb ->].
  apply bind_inv in H. destruct H as (sj & w1 & Hs & H).
  apply index_inv in Hs. destruct Hs as [Hs ->].
  apply bind_inv in H. destruct H as (lj & w1 & Hl & H).
  apply index_inv in Hl. destruct Hl as [Hl ->].
  apply bind_inv in H. destruct H as (r & w1 & Hdraw & H).
  pose proof (draw_detections_spec _ _ _ _ _ _ _ _ _ Hdraw)
    as (-> & Hlab & Himg & Hpatch & _).
  pose proof (draw_detections_texts _ _ _ _ _ _ _ _ _ Hdraw)
    as ((texts & Htexts & Hall) & Hnil & Hcons).
  rewrite emit_bind in H. injection H as <- <-.
  exists bj, sj, lj, (snd r).
  cbn [fig_texts fig_title fig_image fig_patches app] in *.
  split; [exact Hb|]. split; [exact Hs|]. split; [exact Hl|].
  split; [reflexivity|]. split; [now rewrite Hlab|].
  split; [exact Himg|]. split; [exact Hpatch|].
  split; [now rewrite Htexts|]. split; assumption.
Qed.

Lemma annotate_image_figure_witness :
  annotate_image [PStr "bear"; PStr "bird"]
    [([PStr "bird"], "a bird"); ([PStr "bear"], "a bear")]
    "out/b" 2 0
    [[mkBox Float32 0.10000000149011612 0.20000000298023224
        0.4000000059604645 0.6000000238418579]; []]
    [[0.5%float]; []] [[(-1)%Z]; []] []
    (0, Pixels 7) fresh_world
  = Ok ([[(-1)%Z]],
        add_events
          [EvSavefig "out/b/bbox_0.jpg"
             (mkFigure (Pixels 7)
                [mkRectangle 0.10000000149011612 0.20000000298023224
                   0.30000001192092896 0.40000003576278687 2 "r" "none"]
                [mkText 0.10000000149011612 0.20000000298023224
                   (PStr "bird") 0.5]
                (Some "a bird"))] fresh_world)
  /\ exists bj sj lj fig,
       nth_error
         [[mkBox Float32 0.10000000149011612 0.20000000298023224
             0.4000000059604645 0.6000000238418579]; []] 0 = Some bj
       /\ nth_error [[0.5%float]; []] 0 = Some sj
       /\ nth_error [[(-1)%Z]; []] 0 = Some lj
       /\ add_events
            [EvSavefig "out/b/bbox_0.jpg"
               (mkFigure (Pixels 7)
                  [mkRectangle 0.10000000149011612 0.20000000298023224
                     0.30000001192092896 0.40000003576278687 2 "r" "none"]
                  [mkText 0.10000000149011612 0.20000000298023224
                     (PStr "bird") 0.5]
                  (Some "a bird"))] fresh_world
          = add_events
              [EvSavefig
                 (path_join "out/b"
                    ("bbox_" ++ str_of_nat (0 * 2 + 0) ++ ".jpg")) fig]
              fresh_world
       /\ [[(-1)%Z]] = [] ++ [map snd (zip3 bj sj lj)]
       /\ fig_image fig = Pixels 7
       /\ fig_patches fig
          = map (fun d =>
                   mkRectangle (x1 (fst (fst d))) (y1 (fst (fst d)))
                     (np_sub (box_dtype (fst (fst d)))
                        (x2 (fst (fst d))) (x1 (fst (fst d))))
                     (np_sub (box_dtype (fst (fst d)))
                        (y2 (fst (fst d))) (y1 (fst (fst d))))
                     2 "r" "none")
                (zip3 bj sj lj)
       /\ Forall2 (text_of_detection [PStr "bear"; PStr "bird"])
            (zip3 bj sj lj) (fig_texts fig)
       /\ (zip3 bj sj lj = [] -> fig_title fig = None)
       /\ (zip3 bj sj lj <> [] ->
           exists p,
             nth_error [([PStr "bird"], "a bird"); ([PStr "bear"], "a bear")]
               (0 * 2 + 0) = Some p
             /\ fig_title fig = Some (snd p)).
Proof.
  assert (H : annotate_image [PStr "bear"; PStr "bird"]
    [([PStr "bird"], "a bird"); ([PStr "bear"], "a bear")]
    "out/b" 2 0
    [[mkBox Float32 0.10000000149011612 0.20000000298023224
        0.4000000059604645 0.6000000238418579]; []]
    [[0.5%float]; []] [[(-1)%Z]; []] []
    (0, Pixels 7) fresh_world
  = Ok ([[(-1)%Z]],
        add_events
          [EvSavefig "out/b/bbox_0.jpg"
             (mkFigure (Pixels 7)
                [mkRectangle 0.10000000149011612 0.20000000298023224
                   0.30000001192092896 0.40000003576278687 2 "r" "none"]
                [mkText 0.10000000149011612 0.20000000298023224
                   (PStr "bird") 0.5]
                (Some "a bird"))] fresh_world))
    by (vm_compute; reflexivity).
  split; [exact H|].
  exact (annotate_image_figure _ _ _ _ _ _ _ _ _ _ _ _ _ _ H).
Defined.

Lemma annotate_image_unfold (names : list pyval) (gp : list prompt)
  (bbox_dir : string) (bs i j : nat) (image : image)
  (bb : list (list box)) (sb : list (list float)) (lb : list (list Z))
  (ll : list (list Z)) (w : World) :
  annotate_image names gp bbox_dir bs i bb sb lb ll (j, image) w
  = match nth_error bb j, nth_error sb j, nth_error lb j with
    | Some bj, Some sj, Some lj =>
        match foldM (draw_detection names gp (i * bs + j)) (zip3 bj sj lj)
                ([], mkFigure image [] [] None) w with
        | Ok (r, w1) =>
            Ok (ll ++ [fst r],
                add_events
                  [EvSavefig
                     (path_join bbox_dir (bbox_file_name (i * bs + j)))
                     (snd r)] w1)
        | Raise e => Raise e
        end
    | _, _, _ => Raise IndexError
    end.
Proof.
  unfold annotate_image. unfold bind at 1. rewrite index_nat.
  destruct (nth_error bb j) as [bj|].
  2:{ now destruct (nth_error sb j), (nth_error lb j). }
  unfold bind at 1. rewrite index_nat.
  destruct (nth_error sb j) as [sj|].
  2:{ now destruct (nth_error lb j). }
  unfold bind at 1. rewrite index_nat.
  destruct (nth_error lb j) as [lj|]; [|reflexivity].
  unfold bind at 1.
  destruct (foldM _ _ _ w) as [[r w1]|e]; reflexivity.
Qed.

(** X10. [annotate_image] returns exactly when the annotator gave the
    image a row of boxes, of scores and of labels and the detections they
    pair up can be drawn: every label indexes a class name and, unless
    there is no detection, the prompt of the image's global index exists.
    In every other case it raises IndexError. *)
Theorem annotate_image_returns_iff (names : list pyval) (gp : list prompt)
  (bbox_dir : string) (bs i j : nat) (image : image)
  (bb : list (list box)) (sb : list (list float)) (lb : list (list Z))
  (ll : list (list Z)) (w : World) :
  ((exists ll' w',
      annotate_image names gp bbox_dir bs i bb sb lb ll (j, image) w
      = Ok (ll', w')) <->
   exists bj sj lj,
     nth_error bb j = Some bj /\ nth_error sb j = Some sj
     /\ nth_error lb j = Some lj
     /\ drawable names gp (i * bs + j) (zip3 bj sj lj))
  /\ ((exists ll' w',
         annotate_image names gp bbox_dir bs i bb sb lb ll (j, image) w
         = Ok (ll', w'))
      \/ annotate_image names gp bbox_dir bs i bb sb lb ll (j, image) w
         = Raise IndexError).
Proof.
  rewrite annotate_image_unfold.
  destruct (nth_error bb j) as [bj|].
  2:{ split; [|now right]. split.
      - intros (ll' & w' & H). discriminate.
      - intros (? & ? & ? & H & _). discriminate. }
  destruct (nth_error sb j) as [sj|].
  2:{ split; [|now right]. split.
      - intros (ll' & w' & H). discriminate.
      - intros (? & ? & ? & _ & H & _). discriminate. }
  destruct (nth_error lb j) as [lj|].
  2:{ split; [|now right]. split.
      - intros (ll' & w' & H). discriminate.
      - intros (? & ? & ? & _ & _ & H & _). discriminate. }
  destruct (draw_detections_cases names gp (i * bs + j) (zip3 bj sj lj)
              ([], mkFigure image [] [] None) w)
    as [[Hd [r ->]]|[Hn ->]].
  - split; [|left; eauto].
    split; [|eauto]. intros _. exists bj, sj, lj. auto.
  - split; [|now right]. split.
    + intros (ll' & w' & H). discriminate.
    + intros (bj' & sj' & lj' & Hb & Hs & Hl & Hd).
      injection Hb as <-. injection Hs as <-. injection Hl as <-.
      contradiction.
Qed.

(** ** One model at a time *)

Lemma wrapper_eqb_refl (c : wrapper) : wrapper_eqb c c = true.
Proof. unfold wrapper_eqb. apply Nat.eqb_refl. Qed.

Lemma loaded_after_app (cur : option wrapper) (a b : list event) :
  loaded_after cur (a ++ b)
  = match loaded_after cur a with
    | Some c => loaded_after c b
    | None => None
    end.
Proof.
  revert cur. induction a as [|e a IH]; intros cur; [reflexivity|].
  destruct e; simpl; auto.
  - destruct cur; auto.
  - destruct cur as [c'|]; auto. destruct (wrapper_eqb c' cls); auto.
Qed.

Lemma loaded_after_neutral (cur : option wrapper) (evs : list event) :
  Forall loads_nothing evs -> loaded_after cur evs = Some cur.
Proof.
  induction 1 as [|e evs He _ IH]; [reflexivity|].
  destruct e; try contradiction; exact IH.
Qed.

Lemma makedirs_load_nothing (evs : list event) :
  Forall is_makedirs evs -> Forall loads_nothing evs.
Proof.
  apply Forall_impl. intros e He. destruct e; try contradiction; exact I.
Qed.

Lemma image_saves_load_nothing (save_dir : string) (n : nat)
  (imgs : list image) :
  Forall loads_nothing (image_save_events save_dir n imgs).
Proof.
  apply Forall_forall. intros e He.
  destruct (in_image_save_events _ _ _ _ He) as (p & img & ->). exact I.
Qed.

Lemma batch_events_load_nothing (bbox_dir : string) (bs : nat)
  (ibrs : list ((nat * list string) * (list image * list (list Z * figure)))) :
  Forall loads_nothing (concat (map (batch_events bbox_dir bs) ibrs)).
Proof.
  apply Forall_forall. intros e He.
  destruct (in_batch_events _ _ _ _ He) as (p & fig & ->). exact I.
Qed.

(** X11. In a run that returns, at most one wrapper is loaded at any
    time: each of the prompt generator, the synonym generator and the image
    generator is released before the next wrapper is instantiated. The
    annotator, instantiated last in a detection run, is never released. *)
Theorem one_model_at_a_time (ext : External) (args : Args)
  (w w' : World) (loc : Locals) :
  main ext args w = Ok (loc, w') ->
  exists evs,
    trace w' = trace w ++ evs
    /\ loaded_after None evs
       = Some (if String.eqb (task args) "classification"
               then None else Some OWLv2Annotator).
Proof.
  intros Hmain.
  destruct (main_inv ext args w w' loc Hmain)
    as (pg & ig & dir_evs & syn_evs & branch_evs & w2 & Hn & Hpg & Hig & Hdirs
        & Htrace & Hgp & Hpaths & Hnum & Hsyn & Hbranch).
  exists (run_events ext args pg ig dir_evs syn_evs branch_evs).
  split; [exact Htrace|]. unfold run_events.
  rewrite loaded_after_app,
    (loaded_after_neutral None dir_evs (makedirs_load_nothing _ Hdirs)).
  rewrite loaded_after_app. cbn [loaded_after]. rewrite wrapper_eqb_refl.
  assert (Hs : loaded_after None syn_evs = Some None).
  { destruct Hsyn as [(_ & -> & _)|(_ & cls & _ & -> & _)]; [reflexivity|].
    cbn [loaded_after]. now rewrite wrapper_eqb_refl. }
  rewrite loaded_after_app, Hs.
  rewrite loaded_after_app. cbn [loaded_after].
  rewrite loaded_after_app,
    (loaded_after_neutral (Some ig) _ (image_saves_load_nothing _ _ _)).
  rewrite loaded_after_app. cbn [loaded_after]. rewrite wrapper_eqb_refl.
  destruct Hbranch as [(Ht & Hb & _)|[Ht Hb]].
  - apply classification_branch_events in Hb. rewrite Hb.
    destruct (String.eqb_spec (task args) "classification");
      [reflexivity|contradiction].
  - apply detection_branch_events in Hb.
    destruct Hb as (brs & _ & _ & _ & _ & ->).
    rewrite loaded_after_app. cbn [loaded_after].
    rewrite loaded_after_app,
      (loaded_after_neutral _ _ (batch_events_load_nothing _ _ _)).
    destruct (String.eqb_spec (task args) "classification");
      [contradiction|reflexivity].
Qed.

Lemma one_model_at_a_time_witness :
  main toy_ext (toy_args "detection" "none") fresh_world
  = Ok (fst toy_detection_run, snd toy_detection_run)
  /\ exists evs,
       trace (snd toy_detection_run) = trace fresh_world ++ evs
       /\ loaded_after None evs
          = Some (if String.eqb (task (toy_args "detection" "none"))
                       "classification"
                  then None else Some OWLv2Annotator).
Proof.
  assert (Hrun : main toy_ext (toy_args "detection" "none") fresh_world
                 = Ok (fst toy_detection_run, snd toy_detection_run))
    by (vm_compute; reflexivity).
  split; [exact Hrun|].
  exact (one_model_at_a_time toy_ext (toy_args "detection" "none")
           fresh_world (snd toy_detection_run) (fst toy_detection_run) Hrun).
Defined.

(** ** The directories of a run *)

Lemma world_after_check_exists (args : Args) (w : World) :
  dir_exists (world_after_check args w) (save_dir args) = true.
Proof.
  unfold world_after_check.
  destruct (dir_exists w (save_dir args)) eqn:E; [exact E|].
  unfold dir_exists, add_dir. cbn [initially_exists made existsb].
  now rewrite String.eqb_refl, orb_true_r.
Qed.

Lemma when_makedirs_world (p : string) (w w' : World) (u : unit) :
  when (negb (dir_exists w p)) (makedirs p) w = Ok (u, w') ->
  w' = if dir_exists w p then w else add_dir p w.
Proof.
  destruct (dir_exists w p); cbn [negb when].
  - intros H. now injection H as _ <-.
  - unfold makedirs. destruct (makedirs_ok w p); [|discriminate].
    intros H. now injection H as _ <-.
Qed.

Lemma made_add_events (evs : list event) (w : World) :
  made (add_events evs w) = made w.
Proof. reflexivity. Qed.

Lemma dir_exists_add_events (evs : list event) (w : World) (p : string) :
  dir_exists (add_events evs w) p = dir_exists w p.
Proof. reflexivity. Qed.

Lemma dir_exists_add_dir (q p : string) (w : World) :
  dir_exists (add_dir q w) p = String.eqb p q || dir_exists w p.
Proof.
  unfold dir_exists, add_dir. cbn [initially_exists made existsb].
  destruct (initially_exists w p), (String.eqb p q); reflexivity.
Qed.

Lemma main_world (ext : External) (args : Args) (w w' : World)
  (loc : Locals) :
  main ext args w = Ok (loc, w') ->
  exists evs, w' = add_events evs (world_after_dirs args w).
Proof.
  unfold main. intros H.
  apply bind_inv in H. destruct H as (u & w0 & Hcheck & H).
  apply check_args_ok in Hcheck. destruct Hcheck as [-> _].
  rewrite bind_path_exists, world_after_check_exists in H.
  cbn [negb when] in H. rewrite bind_ret in H.
  rewrite bind_path_exists in H.
  apply bind_inv in H. destruct H as (u2 & wd & Hd & H).
  apply when_makedirs_world in Hd. fold (world_after_dirs args w) in Hd.
  subst wd.
  rewrite emit_bind in H.
  apply bind_inv in H. destruct H as (pg & wx & Hpg & H).
  apply lookup_inv in Hpg. destruct Hpg as [_ ->].
  rewrite !emit_bind in H.
  apply bind_inv in H. destruct H as (syn & ws & Hsyn & H).
  assert (Hs : exists evs, ws = add_events evs (world_after_dirs args w)).
  { destruct (String.eqb (synonym_generator args) "none");
      cbn [negb] in Hsyn.
    - injection Hsyn as _ <-. eexists. rewrite !add_events_app. reflexivity.
    - apply bind_inv in Hsyn. destruct Hsyn as (cls & wx & Hcls & Hsyn).
      apply lookup_inv in Hcls. destruct Hcls as [_ ->].
      rewrite !emit_bind in Hsyn. injection Hsyn as _ <-.
      eexists. rewrite !add_events_app. reflexivity. }
  destruct Hs as (evs1 & ->).
  apply bind_inv in H. destruct H as (ig & wx & Hig & H).
  apply lookup_inv in Hig. destruct Hig as [_ ->].
  rewrite emit_bind in H.
  apply bind_inv in H. destruct H as (saved & wi & Hsave & H).
  unfold save_generated_images in Hsave. rewrite save_batches_spec in Hsave.
  injection Hsave as <- <-. rewrite emit_bind in H.
  destruct (String.eqb (task args) "classification").
  - apply bind_inv in H. destruct H as (ll & wf & Hbr & H).
    injection H as _ <-.
    apply classification_branch_inv in Hbr. destruct Hbr as [_ ->].
    eexists. rewrite !add_events_app. reflexivity.
  - apply bind_inv in H. destruct H as (st & wf & Hbr & H).
    injection H as _ <-.
    apply detection_branch_spec in Hbr.
    destruct Hbr as (brs & _ & _ & _ & ->).
    eexists. rewrite !add_events_app. reflexivity.
Qed.

(** X12. A run that returns has created exactly the missing ones among
    [save_dir] and [save_dir/bboxes_visualization], the former first, and
    both exist when it ends. Once [check_args] has returned, [save_dir]
    exists, so the creation of [save_dir] in [main] itself never runs. *)
Theorem main_directories (ext : External) (args : Args) (w w' : World)
  (loc : Locals) :
  main ext args w = Ok (loc, w') ->
  made w'
  = (if dir_exists (world_after_check args w)
          (path_join (save_dir args) "bboxes_visualization")
     then [] else [path_join (save_dir args) "bboxes_visualization"])
    ++ (if dir_exists w (save_dir args) then [] else [save_dir args])
    ++ made w
  /\ dir_exists (world_after_check args w) (save_dir args) = true
  /\ dir_exists w' (save_dir args) = true
  /\ dir_exists w' (path_join (save_dir args) "bboxes_visualization") = true.
Proof.
  intros H. destruct (main_world ext args w w' loc H) as (evs & ->).
  rewrite made_add_events, !dir_exists_add_events.
  unfold world_after_dirs.
  pose proof (world_after_check_exists args w) as Hex.
  destruct (dir_exists (world_after_check args w)
              (path_join (save_dir args) "bboxes_visualization")) eqn:Eb.
  - split; [|auto].
    unfold world_after_check.
    now destruct (dir_exists w (save_dir args)).
  - rewrite !dir_exists_add_dir, Hex, String.eqb_refl, orb_true_r.
    split; [|auto]. cbn [add_dir made app].
    unfold world_after_check.
    now destruct (dir_exists w (save_dir args)).
Qed.

Lemma main_directories_witness :
  main toy_ext (toy_args "detection" "none") fresh_world
  = Ok (fst toy_detection_run, snd toy_detection_run)
  /\ made (snd toy_detection_run)
     = (if dir_exists
             (world_after_check (toy_args "detection" "none") fresh_world)
             (path_join (save_dir (toy_args "detection" "none"))
                "bboxes_visualization")
        then []
        else [path_join (save_dir (toy_args "detection" "none"))
                "bboxes_visualization"])
       ++ (if dir_exists fresh_world (save_dir (toy_args "detection" "none"))
           then [] else [save_dir (toy_args "detection" "none")])
       ++ made fresh_world
  /\ dir_exists (world_after_check (toy_args "detection" "none") fresh_world)
       (save_dir (toy_args "detection" "none")) = true
  /\ dir_exists (snd toy_detection_run)
       (save_dir (toy_args "detection" "none")) = true
  /\ dir_exists (snd toy_detection_run)
       (path_join (save_dir (toy_args "detection" "none"))
          "bboxes_visualization") = true.
Proof.
  assert (Hrun : main toy_ext (toy_args "detection" "none") fresh_world
                 = Ok (fst toy_detection_run, snd toy_detection_run))
    by (vm_compute; reflexivity).
  split; [exact Hrun|].
  exact (main_directories toy_ext (toy_args "detection" "none")
           fresh_world (snd toy_detection_run) (fst toy_detection_run) Hrun).
Defined.

(** ** The result lists run parallel to the image paths *)

Lemma labels_figures_length
  (brs : list (list image * list (list Z * figure))) :
  length (concat (map (fun br => map fst (snd br)) brs))
  = length (run_figures brs).
Proof.
  unfold run_figures. induction brs as [|br brs IH]; [reflexivity|].
  simpl. now rewrite !length_app, !length_map, IH.
Qed.

Lemma scores_boxes_length (ext : External) (args : Args) (cls : wrapper)
  (syn : option synonyms)
  (brs : list (list image * list (list Z * figure))) :
  wf_annotator ext ->
  length (concat (map (fun br => snd (fst (batch_output ext args cls syn
                                             (fst br)))) brs))
  = length (concat (map (fun br => fst (fst (batch_output ext args cls syn
                                               (fst br)))) brs)).
Proof.
  intros Hwf. induction brs as [|br brs IH]; [reflexivity|].
  simpl. rewrite !length_app, IH. f_equal. unfold batch_output.
  destruct (Hwf cls (device args) (fst br) (class_names args)
              (conf_threshold args) (use_tta args) syn) as (_ & Hs & _).
  symmetry. now apply Forall2_length in Hs.
Qed.

Lemma classification_labels_length (names : list pyval)
  (pos : list (list pyval)) (acc ll : list (list Z)) (w w' : World) :
  foldM (fun labels_list prompt_objs =>
           labels <- foldM (object_label names) prompt_objs [] ;;
           ret (labels_list ++ [np_unique labels]))
        pos acc w = Ok (ll, w') ->
  length ll = length acc + length pos.
Proof.
  revert acc w. induction pos as [|objs pos IH]; intros acc w H.
  - simpl in H. injection H as <- _. simpl. lia.
  - rewrite classification_labels_cons in H.
    destruct (foldM (object_label names) objs [] w) as [[labels w1]|e];
      [|discriminate].
    apply IH in H. rewrite length_app in H. simpl in *. lia.
Qed.

(** X13. When a run returns, its result lists run parallel to what they
    annotate. After the detection branch there is one label array per image
    path and, with an annotator that keeps its contract, one box array and
    one score array per image path, so that [annotations.json] has an entry
    [image_k.jpg] for every generated image and no other entry besides
    ['class_names']. After the classification branch there is one label
    array per prompt, and no boxes or scores. *)
Theorem result_lists_parallel (ext : External) (args : Args)
  (w w' : World) (loc : Locals) :
  main ext args w = Ok (loc, w') ->
  (task args <> "classification" ->
   length (labels_list loc) = length (image_paths loc)
   /\ (wf_annotator ext ->
       length (boxes_list loc) = length (image_paths loc)
       /\ length (scores_list loc) = length (image_paths loc)
       /\ forall key,
            In key
               (dict_keys
                  (det_annotations (image_paths loc) (boxes_list loc)
                     (labels_list loc) (class_names args))) <->
            key = "class_names"
            \/ exists k,
                 k < length (image_paths loc)
                 /\ key = ("image_" ++ str_of_nat k ++ ".jpg")%string))
  /\ (task args = "classification" ->
      length (labels_list loc) = length (generated_prompts loc)
      /\ boxes_list loc = [] /\ scores_list loc = []).
Proof.
  intros Hmain.
  destruct (main_inv ext args w w' loc Hmain)
    as (pg & ig & dir_evs & syn_evs & branch_evs & w2 & Hn & Hpg & Hig & Hdirs
        & Htrace & Hgp & Hpaths & Hnum & Hsyn & Hbranch).
  split.
  - intros Ht. destruct Hbranch as [(Hc & _)|[_ Hb]]; [contradiction|].
    apply detection_branch_spec in Hb.
    destruct Hb as (brs & _ & Hbrs & Hst & _).
    injection Hst as Hbl Hsl Hll.
    assert (Hbs : 1 <= Z.to_nat (batch_size_annotation args)).
    { assert (~ (batch_size_annotation args < 1)%Z); [|lia].
      intros Hlt. apply Hn. unfold constraint_violated. do 10 right. now left. }
    destruct (batches_savefigs ext args OWLv2Annotator (synonym_dict loc)
                "" (Z.to_nat (batch_size_annotation args)) _ _ Hbrs)
      as [_ Hfigs].
    rewrite image_batch_indices, length_seq in Hfigs by assumption.
    assert (Hlen_l : length (labels_list loc) = length (image_paths loc)).
    { rewrite Hll at 1. now rewrite labels_figures_length. }
    split; [exact Hlen_l|]. intros Hwf.
    destruct (batches_rows ext args OWLv2Annotator (synonym_dict loc) _ _
                Hwf Hbrs) as [Hrows _].
    apply Forall2_length in Hrows.
    assert (Hlen_b : length (boxes_list loc) = length (image_paths loc)).
    { rewrite Hbl at 1. congruence. }
    split; [exact Hlen_b|]. split.
    { rewrite Hsl at 1. rewrite scores_boxes_length by assumption. congruence. }
    intros key. rewrite det_annotations_pairs.
    destruct (annotations_generic
                (det_entries (image_paths loc) (boxes_list loc)
                   (labels_list loc))
                (JList (map json_of_pyval (class_names args))))
      as (_ & _ & Hkeys & _).
    rewrite Hkeys. split; (intros [H|H]; [now left|right]).
    + destruct H as (k & v & Hk). apply det_entries_nth in Hk.
      destruct Hk as (p & b & l & Hp & _ & _ & -> & _).
      assert (Hlt : k < length (image_paths loc))
        by (apply nth_error_Some; congruence).
      exists k. split; [exact Hlt|].
      rewrite Hpaths in Hp. apply image_paths_nth_inv in Hp. subst p.
      apply basename_image_path.
    + destruct H as (k & Hk & ->).
      destruct (nth_error (boxes_list loc) k) as [b|] eqn:Eb;
        [|apply nth_error_None in Eb; lia].
      destruct (nth_error (labels_list loc) k) as [l|] eqn:El;
        [|apply nth_error_None in El; lia].
      exists k, (det_entry b l). apply det_entries_nth.
      exists (image_path_of (save_dir args) k), b, l.
      split; [|split; [exact Eb|split; [exact El|split; [|reflexivity]]]].
      * rewrite Hpaths. apply image_paths_nth.
        now rewrite Hpaths, length_map, length_seq in Hk.
      * symmetry. apply basename_image_path.
  - intros Ht. destruct Hbranch as [(_ & Hb & Hbl & Hsl)|[Hne _]];
      [|contradiction].
    split; [|auto].
    apply classification_branch_inv in Hb. destruct Hb as [Hl _].
    unfold classification_labels in Hl.
    apply classification_labels_length in Hl.
    now rewrite length_map in Hl.
Qed.

Lemma result_lists_parallel_witness :
  main toy_ext (toy_args "detection" "none") fresh_world
  = Ok (fst toy_detection_run, snd toy_detection_run)
  /\ (task (toy_args "detection" "none") <> "classification" ->
      length (labels_list (fst toy_detection_run))
      = length (image_paths (fst toy_detection_run))
      /\ (wf_annotator toy_ext ->
          length (boxes_list (fst toy_detection_run))
          = length (image_paths (fst toy_detection_run))
          /\ length (scores_list (fst toy_detection_run))
             = length (image_paths (fst toy_detection_run))
          /\ forall key,
               In key
                  (dict_keys
                     (det_annotations (image_paths (fst toy_detection_run))
                        (boxes_list (fst toy_detection_run))
                        (labels_list (fst toy_detection_run))
                        (class_names (toy_args "detection" "none")))) <->
               key = "class_names"
               \/ exists k,
                    k < length (image_paths (fst toy_detection_run))
                    /\ key = ("image_" ++ str_of_nat k ++ ".jpg")%string))
  /\ (task (toy_args "detection" "none") = "classification" ->
      length (labels_list (fst toy_detection_run))
      = length (generated_prompts (fst toy_detection_run))
      /\ boxes_list (fst toy_detection_run) = []
      /\ scores_list (fst toy_detection_run) = []).
Proof.
  assert (Hrun : main toy_ext (toy_args "detection" "none") fresh_world
                 = Ok (fst toy_detection_run, snd toy_detection_run))
    by (vm_compute; reflexivity).
  split; [exact Hrun|].
  exact (result_lists_parallel toy_ext (toy_args "detection" "none")
           fresh_world (snd toy_detection_run) (fst toy_detection_run) Hrun).
Defined.

(** ** Images are opened as they were saved *)

Lemma last_image_app (p : string) (a b : list event) (found : option image) :
  last_image p (a ++ b) found = last_image p b (last_image p a found).
Proof.
  revert found. induction a as [|e a IH]; intros found; [reflexivity|].
  simpl. destruct (written_path e) as [q|]; [|apply IH].
  destruct (String.eqb q p); apply IH.
Qed.

Lemma last_image_skip (p : string) (evs : list event) (found : option image) :
  (forall e, In e evs -> written_path e <> Some p) ->
  last_image p evs found = found.
Proof.
  revert found. induction evs as [|e evs IH]; intros found H; [reflexivity|].
  simpl. pose proof (H e (or_introl eq_refl)) as He.
  assert (Hrest : forall e', In e' evs -> written_path e' <> Some p)
    by (intros e' He'; apply H; now right).
  destruct (written_path e) as [q|]; [|now apply IH].
  destruct (String.eqb_spec q p) as [->|Hq]; [now contradiction He|].
  now apply IH.
Qed.

Lemma bbox_file_name_no_sep (k : nat) : contains_sep (bbox_file_name k) = false.
Proof.
  unfold bbox_file_name, str_of_nat.
  rewrite !contains_sep_append, contains_sep_uint. reflexivity.
Qed.

Lemma bbox_path_not_image_path (bbox_dir save_dir : string) (k n : nat) :
  path_join bbox_dir (bbox_file_name k) <> image_path_of save_dir n.
Proof.
  intros H. apply (f_equal basename) in H.
  rewrite basename_image_path in H.
  rewrite basename_path_join in H by apply bbox_file_name_no_sep.
  unfold bbox_file_name, image_file_name in H. simpl in H. discriminate.
Qed.

Lemma image_save_events_cons (save_dir : string) (s : nat) (img : image)
  (imgs : list image) :
  image_save_events save_dir s (img :: imgs)
  = EvImageSave (image_path_of save_dir s) img
    :: image_save_events save_dir (S s) imgs.
Proof. reflexivity. Qed.

Lemma last_image_saved (save_dir : string) (imgs : list image) (s n : nat)
  (img : image) (found : option image) :
  nth_error imgs n = Some img ->
  last_image (image_path_of save_dir (s + n))
    (image_save_events save_dir s imgs) found = Some img.
Proof.
  revert s n found. induction imgs as [|img0 imgs IH]; intros s n found Hn.
  - now destruct n.
  - rewrite image_save_events_cons. cbn [last_image written_path].
    destruct n as [|n]; simpl in Hn.
    + injection Hn as ->. rewrite Nat.add_0_r, String.eqb_refl.
      apply last_image_skip. intros e He Hw.
      apply in_map_iff in He. destruct He as ([m x] & <- & Hin).
      cbn [written_path fst snd] in Hw. injection Hw as Hw.
      apply image_path_of_inj in Hw. apply in_combine_l in Hin.
      apply in_seq in Hin. lia.
    + destruct (String.eqb_spec (image_path_of save_dir s)
                  (image_path_of save_dir (s + S n))) as [E|_].
      * apply image_path_of_inj in E. lia.
      * replace (s + S n) with (S s + n) by lia. now apply IH.
Qed.

Lemma last_image_stable (bbox_dir save_dir : string) (n : nat)
  (T sv : list event) (found : option image) :
  Forall (is_bbox_savefig bbox_dir) sv ->
  last_image (image_path_of save_dir n) (T ++ sv) found
  = last_image (image_path_of save_dir n) T found.
Proof.
  intros Hsv. rewrite last_image_app. apply last_image_skip.
  intros e He Hw. rewrite Forall_forall in Hsv.
  destruct (Hsv e He) as (k & fig & ->). cbn [written_path] in Hw.
  injection Hw as Hw. now apply bbox_path_not_image_path in Hw.
Qed.

Lemma batch_events_bbox (bbox_dir : string) (bs : nat)
  (ibr : (nat * list string) * (list image * list (list Z * figure))) :
  Forall (is_bbox_savefig bbox_dir) (batch_events bbox_dir bs ibr).
Proof.
  apply Forall_forall. intros e He. unfold batch_events in He.
  apply in_map_iff in He. destruct He as (jr & <- & _).
  unfold savefig_event, is_bbox_savefig. eauto.
Qed.

Lemma mapM_image_open_opened (batch : list string) (images : list image)
  (w w' : World) :
  mapM image_open batch w = Ok (images, w') ->
  Forall2 (fun p img => last_image p (trace w) None = Some img) batch images.
Proof.
  revert images w'. induction batch as [|p batch IH]; intros images w' H.
  - simpl in H. injection H as <- _. constructor.
  - cbn [mapM] in H. apply bind_inv in H.
    destruct H as (img & w1 & Hopen & H).
    unfold image_open in Hopen.
    destruct (last_image p (trace w) None) as [img'|] eqn:E; [|discriminate].
    injection Hopen as <- <-.
    apply bind_inv in H. destruct H as (imgs & w1 & Hrest & H).
    apply IH in Hrest. injection H as <- _. now constructor.
Qed.

Lemma main_inv_world (ext : External) (args : Args) (w w' : World) (loc : Locals) :
  main ext args w = Ok (loc, w') ->
  exists pg ig dir_evs syn_evs branch_evs w2,
    ~ constraint_violated args (cuda_is_available w)
    /\ dict_get (prompt_generator args) prompt_generators = Some pg
    /\ dict_get (image_generator args) image_generators = Some ig
    /\ Forall is_makedirs dir_evs
    /\ trace w' = trace w ++ run_events ext args pg ig dir_evs syn_evs branch_evs
    /\ generated_prompts loc = prompts_of ext args pg
    /\ image_paths loc
       = map (image_path_of (save_dir args))
             (seq 0 (length (images_of ext args pg ig)))
    /\ num_generated_images loc = length (images_of ext args pg ig)
    /\ ((synonym_generator args = "none" /\ syn_evs = []
         /\ synonym_dict loc = None)
        \/ (synonym_generator args <> "none"
            /\ exists cls,
                 dict_get (synonym_generator args) synonym_generators = Some cls
                 /\ syn_evs
                    = [ EvInstantiate cls; EvRelease cls;
                        EvSaveSynonyms
                          (path_join (save_dir args) "synonyms.json")
                          (generate_synonyms_for_list ext cls (device args)
                             (class_names args)) ]
                 /\ synonym_dict loc
                    = Some (generate_synonyms_for_list ext cls (device args)
                              (class_names args))))
    /\ ((task args = "classification"
         /\ classification_branch (class_names args)
              (map fst (generated_prompts loc)) (image_paths loc)
              (save_dir args) w2
            = Ok (labels_list loc, add_events branch_evs w2)
         /\ boxes_list loc = [] /\ scores_list loc = [])
        \/ (task args <> "classification"
            /\ detection_branch ext args (generated_prompts loc)
                 (synonym_dict loc) (image_paths loc) (save_dir args)
                 (path_join (save_dir args) "bboxes_visualization") w2
               = Ok ((boxes_list loc, scores_list loc, labels_list loc),
                     add_events branch_evs w2)))
    /\ trace w2 = trace w ++ run_events ext args pg ig dir_evs syn_evs [].
Proof.
  unfold main. intros H.
  (* check_args *)
  apply bind_inv in H. destruct H as (u & w0 & Hcheck & H).
  apply check_args_ok in Hcheck. destruct Hcheck as [-> Hn].
  destruct (world_after_check_trace args w) as (ev0 & Hev0 & Ht0).
  set (w0 := world_after_check args w) in *.
  (* directories *)
  rewrite bind_path_exists in H.
  apply bind_inv in H. destruct H as (u1 & w1 & Hd1 & H).
  apply when_makedirs_inv in Hd1. destruct Hd1 as (ev1 & Hev1 & Ht1).
  rewrite bind_path_exists in H.
  apply bind_inv in H. destruct H as (u2 & wd & Hd2 & H).
  apply when_makedirs_inv in Hd2. destruct Hd2 as (ev2 & Hev2 & Ht2).
  (* arguments and prompts *)
  rewrite emit_bind in H.
  apply bind_inv in H. destruct H as (pg & wx & Hpg & H).
  apply lookup_inv in Hpg. destruct Hpg as [Hpg ->].
  rewrite !emit_bind in H.
  (* synonyms *)
  apply bind_inv in H. destruct H as (syn & ws & Hsyn & H).
  (* images *)
  apply bind_inv in H. destruct H as (ig & wx & Hig & H).
  apply lookup_inv in Hig. destruct Hig as [Hig ->].
  rewrite emit_bind in H.
  apply bind_inv in H. destruct H as (saved & wi & Hsave & H).
  unfold save_generated_images in Hsave. rewrite save_batches_spec in Hsave.
  injection Hsave as <- <-. cbn [fst snd app] in H. rewrite emit_bind in H.
  fold (prompts_of ext args pg) in *. fold (images_of ext args pg ig) in *.
  assert (Hsyn' : exists syn_evs,
    ws = add_events syn_evs
           (add_events
              [EvRelease pg]
              (add_events
                 [EvSavePrompts (path_join (save_dir args) "prompts.json")
                    (prompts_of ext args pg)]
                 (add_events [EvInstantiate pg]
                    (add_events
                       [EvWriteJson
                          (path_join (save_dir args) "generation_args.json")
                          (json_of_args args)] wd))))
    /\ ((synonym_generator args = "none" /\ syn_evs = [] /\ syn = None)
        \/ (synonym_generator args <> "none"
            /\ exists cls,
                 dict_get (synonym_generator args) synonym_generators = Some cls
                 /\ syn_evs
                    = [ EvInstantiate cls; EvRelease cls;
                        EvSaveSynonyms
                          (path_join (save_dir args) "synonyms.json")
                          (generate_synonyms_for_list ext cls (device args)
                             (class_names args)) ]
                 /\ syn
                    = Some (generate_synonyms_for_list ext cls (device args)
                              (class_names args))))).
  { destruct (String.eqb_spec (synonym_generator args) "none") as [E|E];
      cbn [negb] in Hsyn.
    - injection Hsyn as <- <-. exists []. split; [now rewrite add_events_nil|].
      left. auto.
    - apply bind_inv in Hsyn. destruct Hsyn as (cls & wx & Hcls & Hsyn).
      apply lookup_inv in Hcls. destruct Hcls as [Hcls ->].
      rewrite !emit_bind in Hsyn. injection Hsyn as <- <-.
      eexists. split; [now rewrite !add_events_app|].
      right. split; [assumption|]. exists cls. auto. }
  destruct Hsyn' as (syn_evs & -> & Hsynfacts).
  assert (Htrace : forall branch_evs wf,
    wf = add_events branch_evs
           (add_events [EvRelease ig]
              (add_events
                 (image_save_events (save_dir args) 0 (images_of ext args pg ig))
                 (add_events [EvInstantiate ig]
                    (add_events syn_evs
                       (add_events [EvRelease pg]
                          (add_events
                             [EvSavePrompts
                                (path_join (save_dir args) "prompts.json")
                                (prompts_of ext args pg)]
                             (add_events [EvInstantiate pg]
                                (add_events
                                   [EvWriteJson
                                      (path_join (save_dir args)
                                         "generation_args.json")
                                      (json_of_args args)] wd)))))))) ->
    trace wf = trace w ++ run_events ext args pg ig (ev0 ++ ev1 ++ ev2)
                            syn_evs branch_evs).
  { intros branch_evs wf ->. unfold run_events. simpl.
    rewrite Ht2, Ht1, Ht0. rewrite <- !app_assoc. reflexivity. }
  assert (Hdirs : Forall is_makedirs (ev0 ++ ev1 ++ ev2)).
  { apply Forall_app. split; [assumption|]. apply Forall_app. auto. }
  destruct (String.eqb_spec (task args) "classification") as [Et|Et].
  - apply bind_inv in H. destruct H as (ll & wf & Hbr & H).
    injection H as <- <-.
    pose proof (classification_branch_inv _ _ _ _ _ _ _ Hbr) as [_ Hw].
    rewrite Hw in Hbr.
    eexists pg, ig, _, syn_evs, _, _. cbn [generated_prompts synonym_dict
      image_paths num_generated_images boxes_list scores_list labels_list].
    repeat (split; [first [eassumption | reflexivity | idtac]|]).
    + apply Htrace. exact Hw.
    + left. repeat split; try assumption. exact Hbr.
    + apply (Htrace []). symmetry. apply add_events_nil.
  - apply bind_inv in H. destruct H as (st & wf & Hbr & H).
    injection H as <- <-.
    pose proof (detection_branch_spec _ _ _ _ _ _ _ _ _ _ Hbr)
      as (brs & _ & _ & _ & Hw).
    rewrite Hw in Hbr.
    eexists pg, ig, _, syn_evs, _, _. cbn [generated_prompts synonym_dict
      image_paths num_generated_images boxes_list scores_list labels_list].
    repeat (split; [first [eassumption | reflexivity | idtac]|]).
    + apply Htrace. exact Hw.
    + right. split; [assumption|]. destruct st as [[bl sl] ll]. exact Hbr.
    + apply (Htrace []). symmetry. apply add_events_nil.
Qed.

Lemma Forall2_impl_In (A B : Type) (R1 R2 : A -> B -> Prop)
  (l1 : list A) (l2 : list B) :
  (forall a b, In a l1 -> R1 a b -> R2 a b) ->
  Forall2 R1 l1 l2 -> Forall2 R2 l1 l2.
Proof.
  intros H HF. induction HF as [|a b l1 l2 Hab _ IH]; constructor.
  - apply H; [now left|exact Hab].
  - apply IH. intros a' b' Hin. apply H. now right.
Qed.

Lemma annotate_image_batch_opened (ext : External) (args : Args)
  (cls : wrapper) (gp : list prompt) (syn : option synonyms)
  (bbox_dir : string) (st st' : det_state) (ib : nat * list string)
  (w w' : World) :
  annotate_image_batch ext args cls gp syn bbox_dir st ib w = Ok (st', w') ->
  exists br,
    batch_annotated ext args cls syn ib br
    /\ st' = (fst (fst st) ++ fst (fst (batch_output ext args cls syn (fst br))),
              snd (fst st) ++ snd (fst (batch_output ext args cls syn (fst br))),
              snd st ++ map fst (snd br))
    /\ w' = add_events
              (batch_events bbox_dir (Z.to_nat (batch_size_annotation args))
                 (ib, br)) w
    /\ Forall2 (fun p img => last_image p (trace w) None = Some img)
         (snd ib) (fst br).
Proof.
  destruct st as [[bl sl] ll], ib as [i batch].
  unfold annotate_image_batch. intros H.
  apply bind_inv in H. destruct H as (images & w1 & Hopen & H).
  pose proof (mapM_image_open_opened _ _ _ _ Hopen) as Hopened.
  apply mapM_image_open_inv in Hopen. destruct Hopen as [-> Hlen].
  apply bind_inv in H. destruct H as (ll1 & w1 & Hloop & H).
  apply annotate_images_spec in Hloop.
  destruct Hloop as (rs & Hrs & -> & ->).
  injection H as <- <-.
  exists (images, rs). split; [split; [exact Hlen|exact Hrs]|].
  split; [reflexivity|]. split; [reflexivity|exact Hopened].
Qed.

Lemma annotate_batches_opened (ext : External) (args : Args)
  (cls : wrapper) (gp : list prompt) (syn : option synonyms)
  (save_dir bbox_dir : string) (ibs : list (nat * list string))
  (st st' : det_state) (w w' : World) :
  (forall ib p, In ib ibs -> In p (snd ib) ->
                exists n, p = image_path_of save_dir n) ->
  foldM (annotate_image_batch ext args cls gp syn bbox_dir) ibs st w
  = Ok (st', w') ->
  exists brs,
    Forall2 (batch_annotated ext args cls syn) ibs brs
    /\ st' = (fst (fst st)
              ++ concat (map (fun br => fst (fst (batch_output ext args cls syn
                                                    (fst br)))) brs),
              snd (fst st)
              ++ concat (map (fun br => snd (fst (batch_output ext args cls syn
                                                    (fst br)))) brs),
              snd st ++ concat (map (fun br => map fst (snd br)) brs))
    /\ w' = add_events
              (concat (map (batch_events bbox_dir
                              (Z.to_nat (batch_size_annotation args)))
                           (combine ibs brs))) w
    /\ Forall2
         (fun ib br =>
            Forall2 (fun p img => last_image p (trace w) None = Some img)
              (snd ib) (fst br))
         ibs brs.
Proof.
  revert st w. induction ibs as [|ib ibs IH]; intros st w Hpaths H.
  - cbn [foldM] in H. unfold ret in H. injection H as <- <-. exists [].
    split; [constructor|]. simpl. rewrite !app_nil_r, add_events_nil.
    split; [now destruct st as [[? ?] ?]|]. split; [reflexivity|constructor].
  - cbn [foldM] in H. apply bind_inv in H.
    destruct H as (st1 & w1 & Hstep & Hrest).
    apply annotate_image_batch_opened in Hstep.
    destruct Hstep as (br & Hbr & -> & -> & Hopen).
    apply IH in Hrest; [|intros ib' p Hib Hp; apply (Hpaths ib' p); auto;
                          now right].
    destruct Hrest as (brs & Hbrs & -> & -> & Hopens).
    exists (br :: brs). split; [now constructor|].
    split; [simpl; now rewrite <- !app_assoc|].
    split; [simpl; now rewrite add_events_app|].
    constructor; [exact Hopen|].
    eapply Forall2_impl_In; [|exact Hopens].
    intros ib' br' Hib' Hf.
    eapply Forall2_impl_In; [|exact Hf].
    intros p img Hp Hlast. cbn beta in Hlast.
    destruct (Hpaths ib' p (or_intror Hib') Hp) as [n ->].
    cbn [trace add_events] in Hlast.
    rewrite (last_image_stable bbox_dir) in Hlast by apply batch_events_bbox.
    exact Hlast.
Qed.

Lemma image_batches_map {A B : Type} (f : A -> B) (l : list A) (bs : nat) :
  image_batches (map f l) bs = map (map f) (image_batches l bs).
Proof.
  rewrite !image_batches_unfold, length_map, map_map.
  apply map_ext. intros k. now rewrite skipn_map, firstn_map.
Qed.

Lemma map_Some_inj {A : Type} (a b : list A) :
  map Some a = map Some b -> a = b.
Proof.
  revert b. induction a as [|x a IH]; intros [|y b] H; try discriminate.
  - reflexivity.
  - simpl in H. injection H as -> H. f_equal. now apply IH.
Qed.

Lemma map_map_Some_inj {A : Type} (a b : list (list A)) :
  map (map Some) a = map (map Some) b -> a = b.
Proof.
  revert b. induction a as [|x a IH]; intros [|y b] H; try discriminate.
  - reflexivity.
  - simpl in H. injection H as Hx H. f_equal.
    + now apply map_Some_inj.
    + now apply IH.
Qed.

Lemma Forall2_map_Some {A B : Type} (f : A -> option B) (l : list A)
  (r : list B) :
  Forall2 (fun a b => f a = Some b) l r -> map f l = map Some r.
Proof.
  intros H. induction H as [|a b l r Hab _ IH]; [reflexivity|].
  simpl. now rewrite Hab, IH.
Qed.

Lemma map_snd_enumerate {A : Type} (l : list A) : map snd (enumerate l) = l.
Proof.
  unfold enumerate. generalize 0 as s.
  induction l as [|x l IH]; intros s; [reflexivity|].
  simpl. now rewrite IH.
Qed.

Lemma saved_images_open (save_dir : string) (imgs : list image)
  (pre post : list event) :
  (forall e, In e post -> written_path e = None) ->
  map (fun p => last_image p (pre ++ image_save_events save_dir 0 imgs ++ post)
                  None)
      (map (image_path_of save_dir) (seq 0 (length imgs)))
  = map Some imgs.
Proof.
  intros Hpost. apply nth_error_ext. intros n.
  rewrite map_map, !nth_error_map, nth_error_seq.
  destruct (Nat.ltb_spec n (length imgs)) as [Hn|Hn].
  - destruct (nth_error imgs n) as [img|] eqn:E;
      [|apply nth_error_None in E; lia].
    cbn [option_map]. f_equal. rewrite !last_image_app.
    rewrite (last_image_saved save_dir imgs 0 n img _ E).
    apply last_image_skip. intros e He. rewrite (Hpost e He). discriminate.
  - apply nth_error_None in Hn. now rewrite Hn.
Qed.

Lemma detection_branch_batches (ext : External) (args : Args)
  (gp : list prompt) (syn : option synonyms) (imgs : list image)
  (save_dir bbox_dir : string) (st : det_state) (w w' : World)
  (pre post : list event) :
  trace w = pre ++ image_save_events save_dir 0 imgs ++ post ->
  (forall e, In e post -> written_path e = None) ->
  detection_branch ext args gp syn
    (map (image_path_of save_dir) (seq 0 (length imgs))) save_dir bbox_dir w
  = Ok (st, w') ->
  exists brs,
    map fst brs = image_batches imgs (Z.to_nat (batch_size_annotation args))
    /\ Forall2 (batch_annotated ext args OWLv2Annotator syn)
         (enumerate
            (image_batches
               (map (image_path_of save_dir) (seq 0 (length imgs)))
               (Z.to_nat (batch_size_annotation args)))) brs
    /\ st = (concat (map (fun br => fst (fst (batch_output ext args
                                                OWLv2Annotator syn (fst br))))
                         brs),
             concat (map (fun br => snd (fst (batch_output ext args
                                                OWLv2Annotator syn (fst br))))
                         brs),
             concat (map (fun br => map fst (snd br)) brs))
    /\ w' = add_events
              ([EvInstantiate OWLv2Annotator]
               ++ concat (map (batch_events bbox_dir
                                 (Z.to_nat (batch_size_annotation args)))
                            (combine
                               (enumerate
                                  (image_batches
                                     (map (image_path_of save_dir)
                                          (seq 0 (length imgs)))
                                     (Z.to_nat (batch_size_annotation args))))
                               brs))
               ++ [EvWriteJson (path_join save_dir "annotations.json")
                     (JObj (det_annotations
                              (map (image_path_of save_dir)
                                   (seq 0 (length imgs)))
                              (fst (fst st)) (snd st) (class_names args)))]) w.
Proof.
  intros Htrace Hpost H. unfold detection_branch in H.
  apply bind_inv in H. destruct H as (cls & w1 & Hcls & H).
  apply lookup_annotators_inv in Hcls. destruct Hcls as (Hk & -> & ->).
  rewrite emit_bind in H.
  apply bind_inv in H. destruct H as (st1 & w1 & Hloop & H).
  apply (annotate_batches_opened ext args OWLv2Annotator gp syn save_dir)
    in Hloop.
  - destruct Hloop as (brs & Hann & Hst & -> & Hopen).
    unfold save_det_annotations_to_json in H. rewrite emit_bind in H.
    injection H as <- <-. exists brs. simpl in Hst.
    split; [|split; [exact Hann|split; [exact Hst|]]].
    + apply map_map_Some_inj. rewrite <- image_batches_map.
      rewrite <- (saved_images_open save_dir imgs pre
                    (post ++ [EvInstantiate OWLv2Annotator]))
        by (intros e He; apply in_app_or in He;
            destruct He as [He|[<-|[]]]; [now apply Hpost|reflexivity]).
      rewrite image_batches_map.
      rewrite <- (map_snd_enumerate
                    (image_batches
                       (map (image_path_of save_dir) (seq 0 (length imgs)))
                       (Z.to_nat (batch_size_annotation args)))) at 1.
      rewrite !map_map.
      cbn [trace add_events] in Hopen. rewrite Htrace in Hopen.
      rewrite <- !app_assoc in Hopen.
      clear - Hopen. induction Hopen as [|ib br ibs brs Hb _ IH];
        [reflexivity|].
      simpl. rewrite IH. f_equal. symmetry.
      now apply Forall2_map_Some.
    + now rewrite !add_events_app.
  - intros [i batch] p Hib Hp. unfold enumerate in Hib.
    apply in_combine_r in Hib. cbn [snd] in Hp.
    assert (Hin : In p (concat (image_batches
                          (map (image_path_of save_dir) (seq 0 (length imgs)))
                          (Z.to_nat (batch_size_annotation args)))))
      by (apply in_concat; eauto).
    rewrite image_batches_unfold, concat_chunks in Hin.
    assert (Hin' : In p (map (image_path_of save_dir) (seq 0 (length imgs)))).
    { rewrite <- (firstn_skipn
                    (range_len 0
                       (length (map (image_path_of save_dir)
                                    (seq 0 (length imgs))))
                       (Z.to_nat (batch_size_annotation args))
                     * Z.to_nat (batch_size_annotation args))).
      apply in_or_app. now left. }
    apply in_map_iff in Hin'. destruct Hin' as (n & <- & _). eauto.
Qed.

Lemma detection_branch_opened (ext : External) (args : Args)
  (gp : list prompt) (syn : option synonyms) (imgs : list image)
  (save_dir bbox_dir : string) (st : det_state) (w w' : World)
  (pre post : list event) :
  trace w = pre ++ image_save_events save_dir 0 imgs ++ post ->
  (forall e, In e post -> written_path e = None) ->
  detection_branch ext args gp syn
    (map (image_path_of save_dir) (seq 0 (length imgs))) save_dir bbox_dir w
  = Ok (st, w') ->
  fst (fst st)
  = concat (map (fun images =>
                   fst (fst (batch_output ext args OWLv2Annotator syn images)))
              (image_batches imgs (Z.to_nat (batch_size_annotation args))))
  /\ snd (fst st)
     = concat (map (fun images =>
                      snd (fst (batch_output ext args OWLv2Annotator syn
                                  images)))
                 (image_batches imgs (Z.to_nat (batch_size_annotation args)))).
Proof.
  intros Htrace Hpost H.
  destruct (detection_branch_batches _ _ _ _ _ _ _ _ _ _ _ _ Htrace Hpost H)
    as (brs & Hbrs & _ & -> & _).
  cbn [fst snd]. rewrite <- Hbrs, !map_map. split; reflexivity.
Qed.

Lemma concat_image_batches {A : Type} (l : list A) (bs : nat) :
  1 <= bs -> concat (image_batches l bs) = l.
Proof.
  intros Hbs. rewrite image_batches_unfold, concat_chunks.
  apply firstn_all2. now apply range_len_covers.
Qed.

Lemma map_snd_combine_eq {A B : Type} (a : list A) (b : list B) :
  length b = length a -> map snd (combine a b) = b.
Proof.
  revert b. induction a as [|x a IH]; intros [|y b] H; try discriminate;
    [reflexivity|].
  simpl. f_equal. apply IH. now injection H.
Qed.

Lemma batch_figures_images (ext : External) (args : Args) (cls : wrapper)
  (syn : option synonyms) (ib : nat * list string)
  (br : list image * list (list Z * figure)) :
  batch_annotated ext args cls syn ib br ->
  map (fun r => fig_image (snd r)) (snd br) = fst br.
Proof.
  intros [_ H].
  transitivity (map snd (enumerate (fst br))); [|apply map_snd_enumerate].
  induction H as [|ji r jis rs Hr _ IH]; [reflexivity|].
  destruct Hr as (bj & sj & lj & _ & _ & _ & _ & Himg & _).
  simpl. now rewrite Himg, IH.
Qed.

Lemma run_figures_images (ext : External) (args : Args) (cls : wrapper)
  (syn : option synonyms) (ibs : list (nat * list string))
  (brs : list (list image * list (list Z * figure))) :
  Forall2 (batch_annotated ext args cls syn) ibs brs ->
  map fig_image (run_figures brs) = concat (map fst brs).
Proof.
  unfold run_figures. induction 1 as [|ib br ibs brs Hb _ IH]; [reflexivity|].
  simpl. rewrite map_app, IH, map_map.
  now rewrite (batch_figures_images ext args cls syn ib br Hb).
Qed.

(** X14. In a run that returns with a task other than classification, every
    image the annotation loop opens is the image that was saved under that
    path, so the annotator is called on the generated images themselves, in
    generation order and in batches of [batch_size_annotation]:
    [boxes_list] and [scores_list] are the concatenated outputs of
    [annotate_batch] on these batches. *)
Theorem annotator_sees_generated_images (ext : External) (args : Args)
  (w w' : World) (loc : Locals) :
  main ext args w = Ok (loc, w') ->
  task args <> "classification" ->
  exists pg ig,
    dict_get (prompt_generator args) prompt_generators = Some pg
    /\ dict_get (image_generator args) image_generators = Some ig
    /\ boxes_list loc
       = concat
           (map (fun images =>
                   fst (fst (annotate_batch ext OWLv2Annotator (device args)
                               images (class_names args) (conf_threshold args)
                               (use_tta args) (synonym_dict loc))))
              (image_batches (images_of ext args pg ig)
                 (Z.to_nat (batch_size_annotation args))))
    /\ scores_list loc
       = concat
           (map (fun images =>
                   snd (fst (annotate_batch ext OWLv2Annotator (device args)
                               images (class_names args) (conf_threshold args)
                               (use_tta args) (synonym_dict loc))))
              (image_batches (images_of ext args pg ig)
                 (Z.to_nat (batch_size_annotation args)))).
Proof.
  intros Hmain Htask.
  destruct (main_inv_world ext args w w' loc Hmain)
    as (pg & ig & dir_evs & syn_evs & branch_evs & w2 & _ & Hpg & Hig & _
        & _ & _ & Hpaths & _ & _ & Hbranch & Hw2).
  destruct Hbranch as [[Ht _]|[_ Hbr]]; [contradiction|].
  exists pg, ig. split; [exact Hpg|]. split; [exact Hig|].
  rewrite Hpaths in Hbr.
  apply (detection_branch_opened ext args _ _ _ _ _ _ _ _
           (trace w ++ dir_evs
            ++ [ EvWriteJson (path_join (save_dir args) "generation_args.json")
                   (json_of_args args);
                 EvInstantiate pg;
                 EvSavePrompts (path_join (save_dir args) "prompts.json")
                   (prompts_of ext args pg);
                 EvRelease pg ]
            ++ syn_evs ++ [EvInstantiate ig])
           [EvRelease ig]) in Hbr.
  - exact Hbr.
  - rewrite Hw2. unfold run_events. rewrite app_nil_r, <- !app_assoc.
    reflexivity.
  - intros e [<-|[]]. reflexivity.
Qed.

Lemma annotator_sees_generated_images_witness :
  main toy_ext (toy_args "detection" "none") fresh_world
  = Ok (fst toy_detection_run, snd toy_detection_run)
  /\ exists pg ig,
       dict_get "simple" prompt_generators = Some pg
       /\ dict_get "sdxl-turbo" image_generators = Some ig
       /\ boxes_list (fst toy_detection_run)
          = concat
              (map (fun images =>
                      fst (fst (annotate_batch toy_ext OWLv2Annotator "cuda"
                                  images [PStr "bear"; PStr "bird"]
                                  0.15%float false
                                  (synonym_dict (fst toy_detection_run)))))
                 (image_batches
                    (images_of toy_ext (toy_args "detection" "none") pg ig) 2))
       /\ scores_list (fst toy_detection_run)
          = concat
              (map (fun images =>
                      snd (fst (annotate_batch toy_ext OWLv2Annotator "cuda"
                                  images [PStr "bear"; PStr "bird"]
                                  0.15%float false
                                  (synonym_dict (fst toy_detection_run)))))
                 (image_batches
                    (images_of toy_ext (toy_args "detection" "none") pg ig) 2)).
Proof.
  assert (Hrun : main toy_ext (toy_args "detection" "none") fresh_world
                 = Ok (fst toy_detection_run, snd toy_detection_run))
    by (vm_compute; reflexivity).
  split; [exact Hrun|].
  apply (annotator_sees_generated_images toy_ext (toy_args "detection" "none")
           fresh_world (snd toy_detection_run) (fst toy_detection_run) Hrun).
  discriminate.
Defined.

(** X15. In a run that returns with a task other than classification the
    figures saved by the plotting code show, in order, the generated images:
    the [k]-th figure saved is drawn over the [k]-th generated image. *)
Theorem figures_show_generated_images (ext : External) (args : Args)
  (w w' : World) (loc : Locals) :
  main ext args w = Ok (loc, w') ->
  task args <> "classification" ->
  exists pg ig evs,
    dict_get (prompt_generator args) prompt_generators = Some pg
    /\ dict_get (image_generator args) image_generators = Some ig
    /\ trace w' = trace w ++ evs
    /\ map (fun pf => fig_image (snd pf)) (savefigs evs)
       = images_of ext args pg ig.
Proof.
  intros Hmain Htask.
  destruct (main_inv_world ext args w w' loc Hmain)
    as (pg & ig & dir_evs & syn_evs & branch_evs & w2 & Hn & Hpg & Hig & Hdirs
        & Htrace & _ & Hpaths & _ & Hsyn & Hbranch & Hw2).
  destruct Hbranch as [[Ht _]|[_ Hbr]]; [contradiction|].
  assert (Hbs : 1 <= Z.to_nat (batch_size_annotation args)).
  { assert (~ (batch_size_annotation args < 1)%Z); [|lia].
    intros Hlt. apply Hn. unfold constraint_violated. do 10 right. now left. }
  exists pg, ig, (run_events ext args pg ig dir_evs syn_evs branch_evs).
  split; [exact Hpg|]. split; [exact Hig|]. split; [exact Htrace|].
  rewrite Hpaths in Hbr.
  apply (detection_branch_batches ext args _ _ _ _ _ _ _ _
           (trace w ++ dir_evs
            ++ [ EvWriteJson (path_join (save_dir args) "generation_args.json")
                   (json_of_args args);
                 EvInstantiate pg;
                 EvSavePrompts (path_join (save_dir args) "prompts.json")
                   (prompts_of ext args pg);
                 EvRelease pg ]
            ++ syn_evs ++ [EvInstantiate ig])
           [EvRelease ig]) in Hbr;
    [| rewrite Hw2; unfold run_events; rewrite app_nil_r, <- !app_assoc;
       reflexivity
     | intros e [<-|[]]; reflexivity ].
  destruct Hbr as (brs & Hfst & Hann & _ & Hw').
  apply add_events_inj in Hw'. subst branch_evs.
  rewrite run_events_savefigs; [|assumption|].
  - rewrite !savefigs_app. cbn [savefigs flat_map app]. rewrite app_nil_r.
    destruct (batches_savefigs ext args OWLv2Annotator (synonym_dict loc)
                (path_join (save_dir args) "bboxes_visualization")
                (Z.to_nat (batch_size_annotation args)) _ _ Hann)
      as [-> Hlen].
    rewrite <- map_map, map_snd_combine_eq
      by (now rewrite length_map).
    rewrite (run_figures_images _ _ _ _ _ _ Hann), Hfst.
    now apply concat_image_batches.
  - intros e He p fig ->.
    destruct Hsyn as [(_ & -> & _)|(_ & cls & _ & -> & _)];
      simpl in He; intuition discriminate.
Qed.

Lemma figures_show_generated_images_witness :
  main toy_ext (toy_args "detection" "none") fresh_world
  = Ok (fst toy_detection_run, snd toy_detection_run)
  /\ exists pg ig evs,
       dict_get "simple" prompt_generators = Some pg
       /\ dict_get "sdxl-turbo" image_generators = Some ig
       /\ trace (snd toy_detection_run) = trace fresh_world ++ evs
       /\ map (fun pf => fig_image (snd pf)) (savefigs evs)
          = images_of toy_ext (toy_args "detection" "none") pg ig.
Proof.
  assert (Hrun : main toy_ext (toy_args "detection" "none") fresh_world
                 = Ok (fst toy_detection_run, snd toy_detection_run))
    by (vm_compute; reflexivity).
  split; [exact Hrun|].
  apply (figures_show_generated_images toy_ext (toy_args "detection" "none")
           fresh_world (snd toy_detection_run) (fst toy_detection_run) Hrun).
  discriminate.
Defined.

(** ** When a run returns *)

Lemma bind_ok {A B : Type} (m : M A) (k : A -> M B) (w w1 : World) (a : A) :
  m w = Ok (a, w1) -> bind m k w = k a w1.
Proof. intros H. unfold bind. now rewrite H. Qed.

Lemma bind_raise {A B : Type} (m : M A) (k : A -> M B) (w : World) (e : exn) :
  m w = Raise e -> bind m k w = Raise e.
Proof. intros H. unfold bind. now rewrite H. Qed.

Lemma lookup_ok (d : list (string * wrapper)) (k : string) (cls : wrapper)
  (w : World) :
  dict_get k d = Some cls -> lookup d k w = Ok (cls, w).
Proof. intros H. unfold lookup, lift_option. now rewrite H. Qed.

Lemma choices_prompt_generator (args : Args) :
  choices_respected args ->
  exists pg, dict_get (prompt_generator args) prompt_generators = Some pg.
Proof.
  intros (_ & H & _). simpl in H.
  destruct H as [<-|[<-|[<-|[]]]]; eexists; reflexivity.
Qed.

Lemma choices_image_generator (args : Args) :
  choices_respected args ->
  exists ig, dict_get (image_generator args) image_generators = Some ig.
Proof.
  intros (_ & _ & H & _). simpl in H.
  destruct H as [<-|[<-|[<-|[]]]]; eexists; reflexivity.
Qed.

Lemma choices_synonym_generator (args : Args) :
  choices_respected args ->
  synonym_generator args = "none"
  \/ (synonym_generator args <> "none"
      /\ exists cls,
           dict_get (synonym_generator args) synonym_generators = Some cls).
Proof.
  intros (_ & _ & _ & _ & H & _). simpl in H.
  destruct H as [<-|[<-|[<-|[]]]];
    [now left|right; split; [discriminate|eexists; reflexivity]..].
Qed.

Lemma synonym_stage_ok (ext : External) (args : Args) (w : World) :
  (synonym_generator args = "none"
   \/ exists cls,
        dict_get (synonym_generator args) synonym_generators = Some cls) ->
  exists evs,
    (if negb (String.eqb (synonym_generator args) "none") then
       synonym_generator_class <-
         lookup synonym_generators (synonym_generator args) ;;
       emit (EvInstantiate synonym_generator_class) ;;;
       emit (EvRelease synonym_generator_class) ;;;
       emit (EvSaveSynonyms (path_join (save_dir args) "synonyms.json")
               (generate_synonyms_for_list ext synonym_generator_class
                  (device args) (class_names args))) ;;;
       ret (Some (generate_synonyms_for_list ext synonym_generator_class
                    (device args) (class_names args)))
     else ret None) w
    = Ok (synonyms_of ext args, add_events evs w).
Proof.
  intros Hsyn. unfold synonyms_of.
  destruct (String.eqb_spec (synonym_generator args) "none") as [E|E];
    cbn [negb].
  - exists []. now rewrite add_events_nil.
  - destruct Hsyn as [Hs|[cls Hcls]]; [contradiction|].
    rewrite (bind_ok _ _ _ _ _ (lookup_ok _ _ _ _ Hcls)), !emit_bind, Hcls.
    eexists. unfold ret. now rewrite !add_events_app.
Qed.

Lemma main_prefix (ext : External) (args : Args) (w : World)
  (pg ig : wrapper) :
  ~ constraint_violated args (cuda_is_available w) ->
  directories_available args w ->
  dict_get (prompt_generator args) prompt_generators = Some pg ->
  dict_get (image_generator args) image_generators = Some ig ->
  (synonym_generator args = "none"
   \/ exists cls,
        dict_get (synonym_generator args) synonym_generators = Some cls) ->
  exists w2 pre,
    trace w2
    = pre ++ image_save_events (save_dir args) 0 (images_of ext args pg ig)
      ++ [EvRelease ig]
    /\ main ext args w
       = (if String.eqb (task args) "classification" then
            labels_list <-
              classification_branch (class_names args)
                (map fst (prompts_of ext args pg))
                (map (image_path_of (save_dir args))
                     (seq 0 (length (images_of ext args pg ig))))
                (save_dir args) ;;
            ret (mkLocals (prompts_of ext args pg) (synonyms_of ext args)
                   (map (image_path_of (save_dir args))
                        (seq 0 (length (images_of ext args pg ig))))
                   (length (images_of ext args pg ig)) [] [] labels_list)
          else
            st <-
              detection_branch ext args (prompts_of ext args pg)
                (synonyms_of ext args)
                (map (image_path_of (save_dir args))
                     (seq 0 (length (images_of ext args pg ig))))
                (save_dir args)
                (path_join (save_dir args) "bboxes_visualization") ;;
            ret (mkLocals (prompts_of ext args pg) (synonyms_of ext args)
                   (map (image_path_of (save_dir args))
                        (seq 0 (length (images_of ext args pg ig))))
                   (length (images_of ext args pg ig))
                   (fst (fst st)) (snd (fst st)) (snd st))) w2.
Proof.
  intros Hn [Hd1 Hd2] Hpg Hig Hsyn.
  destruct (check_args_decide args w Hd1) as [[Hcheck _]|[_ Hv]];
    [|contradiction].
  unfold main. rewrite (bind_ok _ _ _ _ _ Hcheck).
  rewrite bind_path_exists, world_after_check_exists.
  cbn [negb when]. rewrite bind_ret, bind_path_exists.
  assert (Hbbox : exists wd,
    when (negb (dir_exists (world_after_check args w)
                  (path_join (save_dir args) "bboxes_visualization")))
         (makedirs (path_join (save_dir args) "bboxes_visualization"))
         (world_after_check args w) = Ok (tt, wd)).
  { destruct (dir_exists (world_after_check args w)
                (path_join (save_dir args) "bboxes_visualization")) eqn:E;
      cbn [negb when].
    - eexists. reflexivity.
    - destruct Hd2 as [Hd2|Hd2]; [discriminate|].
      unfold makedirs. rewrite Hd2. eexists. reflexivity. }
  destruct Hbbox as (wd & Hwd).
  rewrite (bind_ok _ _ _ _ _ Hwd).
  rewrite emit_bind. rewrite (bind_ok _ _ _ _ _ (lookup_ok _ _ _ _ Hpg)).
  rewrite !emit_bind.
  match goal with
  | |- context [bind _ _ ?W] =>
      destruct (synonym_stage_ok ext args W Hsyn) as [syn_evs Hs];
      rewrite (bind_ok _ _ _ _ _ Hs)
  end.
  rewrite (bind_ok _ _ _ _ _ (lookup_ok _ _ _ _ Hig)), emit_bind.
  unfold save_generated_images.
  erewrite bind_ok by apply save_batches_spec.
  cbn [fst snd app Nat.add]. rewrite emit_bind.
  fold (prompts_of ext args pg). fold (images_of ext args pg ig).
  eexists _, _. split; [|reflexivity].
  cbn [trace add_events]. symmetry. apply app_assoc.
Qed.

Lemma annotate_image_cases (names : list pyval) (gp : list prompt)
  (bbox_dir : string) (bs i j : nat) (image : image)
  (out : list (list box) * list (list float) * list (list Z))
  (ll : list (list Z)) (w : World) :
  (image_drawable names gp bs i out j
   /\ exists ll' fig,
        annotate_image names gp bbox_dir bs i (fst (fst out)) (snd (fst out))
          (snd out) ll (j, image) w
        = Ok (ll', add_events
                     [EvSavefig
                        (path_join bbox_dir (bbox_file_name (i * bs + j)))
                        fig] w))
  \/ (~ image_drawable names gp bs i out j
      /\ annotate_image names gp bbox_dir bs i (fst (fst out)) (snd (fst out))
           (snd out) ll (j, image) w
         = Raise IndexError).
Proof.
  rewrite annotate_image_unfold. unfold image_drawable.
  destruct (nth_error (fst (fst out)) j) as [bj|].
  2:{ right. split; [|reflexivity]. intros (? & ? & ? & H & _). discriminate. }
  destruct (nth_error (snd (fst out)) j) as [sj|].
  2:{ right. split; [|reflexivity].
      intros (? & ? & ? & _ & H & _). discriminate. }
  destruct (nth_error (snd out) j) as [lj|].
  2:{ right. split; [|reflexivity].
      intros (? & ? & ? & _ & _ & H & _). discriminate. }
  destruct (draw_detections_cases names gp (i * bs + j) (zip3 bj sj lj)
              ([], mkFigure image [] [] None) w)
    as [[Hd [r ->]]|[Hn ->]].
  - left. split; [exists bj, sj, lj; auto|]. eauto.
  - right. split; [|reflexivity].
    intros (bj' & sj' & lj' & Hb & Hs & Hl & Hd).
    injection Hb as <-. injection Hs as <-. injection Hl as <-.
    contradiction.
Qed.

Lemma annotate_images_cases (names : list pyval) (gp : list prompt)
  (bbox_dir : string) (bs i : nat)
  (out : list (list box) * list (list float) * list (list Z))
  (jis : list (nat * image)) (ll : list (list Z)) (w : World) :
  (Forall (fun ji => image_drawable names gp bs i out (fst ji)) jis
   /\ exists ll' evs,
        foldM (annotate_image names gp bbox_dir bs i (fst (fst out))
                 (snd (fst out)) (snd out)) jis ll w
        = Ok (ll', add_events evs w)
        /\ Forall (is_bbox_savefig bbox_dir) evs)
  \/ (~ Forall (fun ji => image_drawable names gp bs i out (fst ji)) jis
      /\ foldM (annotate_image names gp bbox_dir bs i (fst (fst out))
                  (snd (fst out)) (snd out)) jis ll w
         = Raise IndexError).
Proof.
  revert ll w. induction jis as [|[j image] jis IH]; intros ll w.
  - left. split; [constructor|]. exists ll, []. split; [|constructor].
    now rewrite add_events_nil.
  - cbn [foldM].
    destruct (annotate_image_cases names gp bbox_dir bs i j image out ll w)
      as [[Hd (ll1 & fig & Hok)]|[Hn Hr]].
    + rewrite (bind_ok _ _ _ _ _ Hok).
      destruct (IH ll1 (add_events
                          [EvSavefig
                             (path_join bbox_dir
                                (bbox_file_name (i * bs + j))) fig] w))
        as [[Hall (ll' & evs & Hrest & Hevs)]|[Hnall Hrest]].
      * left. split; [now constructor|].
        exists ll', (EvSavefig
                       (path_join bbox_dir (bbox_file_name (i * bs + j))) fig
                     :: evs).
        split.
        -- rewrite Hrest, add_events_app. reflexivity.
        -- constructor; [|exact Hevs]. unfold is_bbox_savefig. eauto.
      * right. split; [|exact Hrest].
        intros Hall. apply Hnall. now inversion Hall.
    + right. split; [|now apply bind_raise].
      intros Hall. apply Hn. now inversion Hall.
Qed.

Lemma Forall_enumerate {A : Type} (P : nat -> Prop) (l : list A) :
  Forall (fun ji => P (fst ji)) (enumerate l) <->
  forall j, j < length l -> P j.
Proof.
  unfold enumerate. rewrite Forall_forall. split.
  - intros H j Hj.
    destruct (nth_error l j) as [x|] eqn:E;
      [|apply nth_error_None in E; lia].
    apply (H (j, x)).
    apply (nth_error_In _ j). now apply (nth_error_combine_seq l 0 j x).
  - intros H [j x] Hin. apply in_combine_l in Hin. apply in_seq in Hin.
    apply H. cbn [fst]. lia.
Qed.

Lemma mapM_image_open_ok (batch : list string) (images : list image)
  (w : World) :
  map (fun p => last_image p (trace w) None) batch = map Some images ->
  mapM image_open batch w = Ok (images, w).
Proof.
  revert images. induction batch as [|p batch IH]; intros [|img images] H;
    try discriminate.
  - reflexivity.
  - simpl in H. injection H as Hp H. cbn [mapM].
    assert (Hopen : image_open p w = Ok (img, w))
      by (unfold image_open; now rewrite Hp).
    rewrite (bind_ok _ _ _ _ _ Hopen), (bind_ok _ _ _ _ _ (IH images H)).
    reflexivity.
Qed.

Lemma annotate_image_batch_cases (ext : External) (args : Args)
  (gp : list prompt) (syn : option synonyms) (bbox_dir : string)
  (st : det_state) (i : nat) (batch : list string) (images : list image)
  (w : World) :
  mapM image_open batch w = Ok (images, w) ->
  (batch_drawable ext args syn gp i images
   /\ exists st' evs,
        annotate_image_batch ext args OWLv2Annotator gp syn bbox_dir st
          (i, batch) w
        = Ok (st', add_events evs w)
        /\ Forall (is_bbox_savefig bbox_dir) evs)
  \/ (~ batch_drawable ext args syn gp i images
      /\ annotate_image_batch ext args OWLv2Annotator gp syn bbox_dir st
           (i, batch) w
         = Raise IndexError).
Proof.
  intros Hopen. destruct st as [[bl sl] ll]. unfold annotate_image_batch.
  rewrite (bind_ok _ _ _ _ _ Hopen). unfold batch_drawable.
  fold (batch_output ext args OWLv2Annotator syn images).
  destruct (annotate_images_cases (class_names args) gp bbox_dir
              (Z.to_nat (batch_size_annotation args)) i
              (batch_output ext args OWLv2Annotator syn images)
              (enumerate images) ll w)
    as [[Hall (ll' & evs & Hok & Hevs)]|[Hn Hr]].
  - left. split.
    + now apply (Forall_enumerate
                   (image_drawable (class_names args) gp
                      (Z.to_nat (batch_size_annotation args)) i
                      (batch_output ext args OWLv2Annotator syn images))).
    + rewrite (bind_ok _ _ _ _ _ Hok).
      eexists _, evs. split; [reflexivity|exact Hevs].
  - right. split; [|now apply bind_raise].
    intros Hall. apply Hn.
    now apply (Forall_enumerate
                 (image_drawable (class_names args) gp
                    (Z.to_nat (batch_size_annotation args)) i
                    (batch_output ext args OWLv2Annotator syn images))).
Qed.

Lemma saved_images_stable (save_dir bbox_dir : string) (ks : list nat)
  (evs : list event) (w : World) (X : list (option image)) :
  map (fun p => last_image p (trace w) None) (map (image_path_of save_dir) ks)
  = X ->
  Forall (is_bbox_savefig bbox_dir) evs ->
  map (fun p => last_image p (trace (add_events evs w)) None)
      (map (image_path_of save_dir) ks)
  = X.
Proof.
  intros <- Hevs. rewrite !map_map. apply map_ext. intros k.
  cbn [trace add_events]. now apply (last_image_stable bbox_dir).
Qed.

Lemma enumerate_image_batches {A : Type} (l : list A) (bs : nat) :
  enumerate (image_batches l bs)
  = map (fun k => (k, firstn bs (skipn (k * bs) l)))
        (seq 0 (range_len 0 (length l) bs)).
Proof.
  unfold enumerate.
  now rewrite image_batches_length, image_batches_unfold, combine_map_self.
Qed.

Lemma run_drawable_batches (ext : External) (args : Args)
  (syn : option synonyms) (gp : list prompt) (imgs : list image) :
  run_drawable ext args syn gp imgs <->
  Forall (fun k =>
            batch_drawable ext args syn gp k
              (firstn (Z.to_nat (batch_size_annotation args))
                 (skipn (k * Z.to_nat (batch_size_annotation args)) imgs)))
         (seq 0 (range_len 0 (length imgs)
                   (Z.to_nat (batch_size_annotation args)))).
Proof.
  unfold run_drawable. rewrite Forall_forall. split.
  - intros H k Hk. apply in_seq in Hk. apply H.
    apply image_batches_nth. lia.
  - intros H i images Hi.
    assert (Hlt : i < range_len 0 (length imgs)
                        (Z.to_nat (batch_size_annotation args))).
    { rewrite <- image_batches_length. apply nth_error_Some. congruence. }
    rewrite image_batches_nth in Hi by assumption. injection Hi as <-.
    apply H. apply in_seq. lia.
Qed.

Lemma annotate_batches_cases (ext : External) (args : Args)
  (gp : list prompt) (syn : option synonyms) (save_dir bbox_dir : string)
  (imgs : list image) (ks : list nat) (st : det_state) (w : World) :
  map (fun p => last_image p (trace w) None)
      (map (image_path_of save_dir) (seq 0 (length imgs)))
  = map Some imgs ->
  (Forall (fun k =>
             batch_drawable ext args syn gp k
               (firstn (Z.to_nat (batch_size_annotation args))
                  (skipn (k * Z.to_nat (batch_size_annotation args)) imgs)))
          ks
   /\ exists st' evs,
        foldM (annotate_image_batch ext args OWLv2Annotator gp syn bbox_dir)
          (map (fun k =>
                  (k, firstn (Z.to_nat (batch_size_annotation args))
                        (skipn (k * Z.to_nat (batch_size_annotation args))
                           (map (image_path_of save_dir)
                                (seq 0 (length imgs))))))
               ks) st w
        = Ok (st', add_events evs w)
        /\ Forall (is_bbox_savefig bbox_dir) evs)
  \/ (~ Forall (fun k =>
                  batch_drawable ext args syn gp k
                    (firstn (Z.to_nat (batch_size_annotation args))
                       (skipn (k * Z.to_nat (batch_size_annotation args))
                          imgs)))
               ks
      /\ foldM (annotate_image_batch ext args OWLv2Annotator gp syn bbox_dir)
           (map (fun k =>
                   (k, firstn (Z.to_nat (batch_size_annotation args))
                         (skipn (k * Z.to_nat (batch_size_annotation args))
                            (map (image_path_of save_dir)
                                 (seq 0 (length imgs))))))
                ks) st w
         = Raise IndexError).
Proof.
  revert st w. induction ks as [|k ks IH]; intros st w Hinv.
  - left. split; [constructor|]. exists st, []. split; [|constructor].
    now rewrite add_events_nil.
  - cbn [map foldM].
    assert (Hopen :
      mapM image_open
        (firstn (Z.to_nat (batch_size_annotation args))
           (skipn (k * Z.to_nat (batch_size_annotation args))
              (map (image_path_of save_dir) (seq 0 (length imgs))))) w
      = Ok (firstn (Z.to_nat (batch_size_annotation args))
              (skipn (k * Z.to_nat (batch_size_annotation args)) imgs), w)).
    { apply mapM_image_open_ok.
      now rewrite <- firstn_map, <- skipn_map, Hinv, skipn_map, firstn_map. }
    destruct (annotate_image_batch_cases ext args gp syn bbox_dir st k _ _ w
                Hopen)
      as [[Hd (st1 & evs1 & Hok & Hevs1)]|[Hn Hr]].
    + rewrite (bind_ok _ _ _ _ _ Hok).
      destruct (IH st1 (add_events evs1 w)
                  (saved_images_stable save_dir bbox_dir _ evs1 w _ Hinv
                     Hevs1))
        as [[Hall (st' & evs & Hrest & Hevs)]|[Hnall Hrest]].
      * left. split; [now constructor|].
        exists st', (evs1 ++ evs). split.
        -- now rewrite Hrest, add_events_app.
        -- now apply Forall_app.
      * right. split; [|exact Hrest].
        intros Hall. apply Hnall. now inversion Hall.
    + right. split; [|now apply bind_raise].
      intros Hall. apply Hn. now inversion Hall.
Qed.

Lemma detection_branch_cases (ext : External) (args : Args)
  (gp : list prompt) (syn : option synonyms) (save_dir bbox_dir : string)
  (imgs : list image) (w : World) :
  map (fun p => last_image p (trace w) None)
      (map (image_path_of save_dir) (seq 0 (length imgs)))
  = map Some imgs ->
  image_annotator args = "owlv2" ->
  (run_drawable ext args syn gp imgs
   /\ exists st w',
        detection_branch ext args gp syn
          (map (image_path_of save_dir) (seq 0 (length imgs)))
          save_dir bbox_dir w
        = Ok (st, w'))
  \/ (~ run_drawable ext args syn gp imgs
      /\ detection_branch ext args gp syn
           (map (image_path_of save_dir) (seq 0 (length imgs)))
           save_dir bbox_dir w
         = Raise IndexError).
Proof.
  intros Hinv Hk. unfold detection_branch. rewrite Hk.
  rewrite (bind_ok _ _ _ _ _ (lookup_ok annotators "owlv2" OWLv2Annotator w
                                eq_refl)).
  rewrite emit_bind, enumerate_image_batches, length_map, length_seq.
  rewrite run_drawable_batches.
  assert (Hinv' :
    map (fun p => last_image p
                    (trace (add_events [EvInstantiate OWLv2Annotator] w)) None)
        (map (image_path_of save_dir) (seq 0 (length imgs)))
    = map Some imgs).
  { rewrite <- Hinv. apply map_ext. intros p. cbn [trace add_events].
    now rewrite last_image_app. }
  destruct (annotate_batches_cases ext args gp syn save_dir bbox_dir imgs
              (seq 0 (range_len 0 (length imgs)
                        (Z.to_nat (batch_size_annotation args))))
              ([], [], []) _ Hinv')
    as [[Hall (st' & evs & Hok & _)]|[Hn Hr]].
  - left. split; [exact Hall|]. rewrite (bind_ok _ _ _ _ _ Hok).
    unfold save_det_annotations_to_json. rewrite emit_bind.
    eexists _, _. reflexivity.
  - right. split; [exact Hn|]. now apply bind_raise.
Qed.

Lemma saved_images_opened (save_dir : string) (imgs : list image)
  (pre : list event) (ig : wrapper) (w : World) :
  trace w = pre ++ image_save_events save_dir 0 imgs ++ [EvRelease ig] ->
  map (fun p => last_image p (trace w) None)
      (map (image_path_of save_dir) (seq 0 (length imgs)))
  = map Some imgs.
Proof.
  intros ->. apply saved_images_open. intros e [<-|[]]. reflexivity.
Qed.

Lemma classification_run_cases (ext : External) (args : Args) (w : World)
  (pg ig : wrapper) :
  ~ constraint_violated args (cuda_is_available w) ->
  directories_available args w ->
  dict_get (prompt_generator args) prompt_generators = Some pg ->
  dict_get (image_generator args) image_generators = Some ig ->
  (synonym_generator args = "none"
   \/ exists cls,
        dict_get (synonym_generator args) synonym_generators = Some cls) ->
  task args = "classification" ->
  ((forall objs obj,
      In objs (map fst (prompts_of ext args pg)) -> In obj objs ->
      In obj (class_names args))
   /\ exists loc w', main ext args w = Ok (loc, w'))
  \/ (exists objs obj,
        In objs (map fst (prompts_of ext args pg)) /\ In obj objs
        /\ ~ In obj (class_names args)
        /\ main ext args w
           = Raise (ValueError (repr obj ++ " is not in list"))).
Proof.
  intros Hn Hd Hpg Hig Hsyn Htask.
  destruct (main_prefix ext args w pg ig Hn Hd Hpg Hig Hsyn)
    as (w2 & pre & _ & ->).
  rewrite Htask. cbn [String.eqb Ascii.eqb Bool.eqb].
  destruct (classification_labels_cases (class_names args)
              (map fst (prompts_of ext args pg)) [] w2)
    as [[Hall [ll Hok]]|(os & o & Hos & Ho & Hno & Hr)].
  - left. split; [exact Hall|].
    assert (Hbr : exists w',
      classification_branch (class_names args)
        (map fst (prompts_of ext args pg))
        (map (image_path_of (save_dir args))
             (seq 0 (length (images_of ext args pg ig))))
        (save_dir args) w2 = Ok (ll, w')).
    { unfold classification_branch, classification_labels.
      rewrite (bind_ok _ _ _ _ _ Hok).
      unfold save_clf_annotations_to_json. rewrite emit_bind.
      eexists. reflexivity. }
    destruct Hbr as [w' Hbr]. rewrite (bind_ok _ _ _ _ _ Hbr).
    eexists _, _. reflexivity.
  - right. exists os, o. split; [exact Hos|]. split; [exact Ho|].
    split; [exact Hno|].
    apply bind_raise. unfold classification_branch, classification_labels.
    now apply bind_raise.
Qed.

Lemma detection_run_cases (ext : External) (args : Args) (w : World)
  (pg ig : wrapper) :
  ~ constraint_violated args (cuda_is_available w) ->
  directories_available args w ->
  dict_get (prompt_generator args) prompt_generators = Some pg ->
  dict_get (image_generator args) image_generators = Some ig ->
  (synonym_generator args = "none"
   \/ exists cls,
        dict_get (synonym_generator args) synonym_generators = Some cls) ->
  task args <> "classification" ->
  image_annotator args = "owlv2" ->
  (run_drawable ext args (synonyms_of ext args) (prompts_of ext args pg)
     (images_of ext args pg ig)
   /\ exists loc w', main ext args w = Ok (loc, w'))
  \/ (~ run_drawable ext args (synonyms_of ext args) (prompts_of ext args pg)
        (images_of ext args pg ig)
      /\ main ext args w = Raise IndexError).
Proof.
  intros Hn Hd Hpg Hig Hsyn Htask Hann.
  destruct (main_prefix ext args w pg ig Hn Hd Hpg Hig Hsyn)
    as (w2 & pre & Htrace & ->).
  destruct (String.eqb_spec (task args) "classification") as [E|_];
    [contradiction|].
  destruct (detection_branch_cases ext args (prompts_of ext args pg)
              (synonyms_of ext args) (save_dir args)
              (path_join (save_dir args) "bboxes_visualization")
              (images_of ext args pg ig) w2
              (saved_images_opened _ _ _ _ _ Htrace) Hann)
    as [[Hall (st & w' & Hok)]|[Hnot Hr]].
  - left. split; [exact Hall|]. rewrite (bind_ok _ _ _ _ _ Hok).
    eexists _, _. reflexivity.
  - right. split; [exact Hnot|]. now apply bind_raise.
Qed.

Lemma main_bbox_dir_fails (ext : External) (args : Args) (w : World) :
  check_args args w = Ok (tt, world_after_check args w) ->
  dir_exists (world_after_check args w)
    (path_join (save_dir args) "bboxes_visualization") = false ->
  makedirs_ok (world_after_check args w)
    (path_join (save_dir args) "bboxes_visualization") = false ->
  main ext args w
  = Raise (OSError (path_join (save_dir args) "bboxes_visualization")).
Proof.
  intros Hcheck E1 E2. unfold main. rewrite (bind_ok _ _ _ _ _ Hcheck).
  rewrite bind_path_exists, world_after_check_exists.
  cbn [negb when]. rewrite bind_ret, bind_path_exists, E1.
  cbn [negb when]. apply bind_raise. unfold makedirs. now rewrite E2.
Qed.

Lemma toy_args_valid (task synonym_generator : string) :
  ~ constraint_violated (toy_args task synonym_generator)
      (cuda_is_available fresh_world).
Proof.
  destruct (check_args_decide (toy_args task synonym_generator) fresh_world
              (or_intror eq_refl)) as [[_ H]|[[msg H] _]]; [exact H|].
  vm_compute in H. discriminate.
Qed.

Lemma toy_choices_respected (synonym_generator : string) :
  In synonym_generator ["none"; "llm"; "wordnet"] ->
  choices_respected (toy_args "detection" synonym_generator)
  /\ choices_respected (toy_args "classification" synonym_generator).
Proof.
  intros H. unfold choices_respected. cbn. tauto.
Qed.

Lemma toy_directories_available (task synonym_generator : string) :
  directories_available (toy_args task synonym_generator) fresh_world.
Proof. split; right; reflexivity. Qed.

(** X16. A classification run with arguments that argparse lets through
    and [check_args] accepts, on a machine where the directories are there
    or can be made, returns exactly when every object of every generated
    prompt is among the class names; otherwise it raises a ValueError, that
    of [list.index]. *)
Theorem classification_run_returns (ext : External) (args : Args)
  (w : World) :
  choices_respected args ->
  ~ constraint_violated args (cuda_is_available w) ->
  directories_available args w ->
  task args = "classification" ->
  exists pg,
    dict_get (prompt_generator args) prompt_generators = Some pg
    /\ ((exists loc w', main ext args w = Ok (loc, w')) <->
        (forall objs obj,
           In objs (map fst (prompts_of ext args pg)) -> In obj objs ->
           In obj (class_names args)))
    /\ ((exists loc w', main ext args w = Ok (loc, w'))
        \/ exists msg, main ext args w = Raise (ValueError msg)).
Proof.
  intros Hc Hn Hd Htask.
  destruct (choices_prompt_generator args Hc) as [pg Hpg].
  destruct (choices_image_generator args Hc) as [ig Hig].
  assert (Hsyn : synonym_generator args = "none"
                 \/ exists cls,
                      dict_get (synonym_generator args) synonym_generators
                      = Some cls)
    by (destruct (choices_synonym_generator args Hc) as [E|[_ E]]; auto).
  exists pg. split; [exact Hpg|].
  destruct (classification_run_cases ext args w pg ig Hn Hd Hpg Hig Hsyn
              Htask)
    as [[Hall Hok]|(objs & obj & Ho & Hi & Hnot & Hr)].
  - split; [|now left]. split; [intros _; exact Hall|intros _; exact Hok].
  - split; [|right; eexists; exact Hr]. split.
    + intros (loc & w' & Hok). rewrite Hr in Hok. discriminate.
    + intros Hall. exfalso. apply Hnot. now apply (Hall objs).
Qed.

Lemma classification_run_returns_witness :
  choices_respected (toy_args "classification" "none")
  /\ task (toy_args "classification" "none") = "classification"
  /\ exists pg,
       dict_get "simple" prompt_generators = Some pg
       /\ ((exists loc w',
              main toy_ext (toy_args "classification" "none") fresh_world
              = Ok (loc, w')) <->
           (forall objs obj,
              In objs (map fst (prompts_of toy_ext
                                  (toy_args "classification" "none") pg)) ->
              In obj objs -> In obj [PStr "bear"; PStr "bird"]))
       /\ ((exists loc w',
              main toy_ext (toy_args "classification" "none") fresh_world
              = Ok (loc, w'))
           \/ exists msg,
                main toy_ext (toy_args "classification" "none") fresh_world
                = Raise (ValueError msg)).
Proof.
  split; [apply (toy_choices_respected "none"); simpl; auto|].
  split; [reflexivity|].
  apply (classification_run_returns toy_ext
           (toy_args "classification" "none") fresh_world).
  - apply (toy_choices_respected "none"). simpl. auto.
  - apply toy_args_valid.
  - apply toy_directories_available.
  - reflexivity.
Defined.

(** X17. A run with a task other than classification, with arguments that
    argparse lets through and [check_args] accepts, on a machine where the
    directories are there or can be made, returns exactly when every
    generated image can be plotted from the annotator's output for its
    batch: the output has a row of boxes, of scores and of labels for the
    image, every label that [zip] keeps indexes a class name and, unless
    the image has no detection, the prompt of the image's global index
    exists. Otherwise the run raises IndexError. *)
Theorem detection_run_returns (ext : External) (args : Args) (w : World) :
  choices_respected args ->
  ~ constraint_violated args (cuda_is_available w) ->
  directories_available args w ->
  task args <> "classification" ->
  exists pg ig,
    dict_get (prompt_generator args) prompt_generators = Some pg
    /\ dict_get (image_generator args) image_generators = Some ig
    /\ ((exists loc w', main ext args w = Ok (loc, w')) <->
        run_drawable ext args (synonyms_of ext args) (prompts_of ext args pg)
          (images_of ext args pg ig))
    /\ ((exists loc w', main ext args w = Ok (loc, w'))
        \/ main ext args w = Raise IndexError).
Proof.
  intros Hc Hn Hd Htask.
  destruct (choices_prompt_generator args Hc) as [pg Hpg].
  destruct (choices_image_generator args Hc) as [ig Hig].
  assert (Hsyn : synonym_generator args = "none"
                 \/ exists cls,
                      dict_get (synonym_generator args) synonym_generators
                      = Some cls)
    by (destruct (choices_synonym_generator args Hc) as [E|[_ E]]; auto).
  assert (Hann : image_annotator args = "owlv2").
  { destruct Hc as (_ & _ & _ & [H|[]] & _). now symmetry. }
  exists pg, ig. split; [exact Hpg|]. split; [exact Hig|].
  destruct (detection_run_cases ext args w pg ig Hn Hd Hpg Hig Hsyn Htask
              Hann)
    as [[Hall Hok]|[Hnot Hr]].
  - split; [|now left]. split; [intros _; exact Hall|intros _; exact Hok].
  - split; [|now right]. split.
    + intros (loc & w' & Hok). rewrite Hr in Hok. discriminate.
    + intros Hall. contradiction.
Qed.

Lemma detection_run_returns_witness :
  choices_respected (toy_args "detection" "none")
  /\ task (toy_args "detection" "none") <> "classification"
  /\ exists pg ig,
       dict_get "simple" prompt_generators = Some pg
       /\ dict_get "sdxl-turbo" image_generators = Some ig
       /\ ((exists loc w',
              main toy_ext (toy_args "detection" "none") fresh_world
              = Ok (loc, w')) <->
           run_drawable toy_ext (toy_args "detection" "none")
             (synonyms_of toy_ext (toy_args "detection" "none"))
             (prompts_of toy_ext (toy_args "detection" "none") pg)
             (images_of toy_ext (toy_args "detection" "none") pg ig))
       /\ ((exists loc w',
              main toy_ext (toy_args "detection" "none") fresh_world
              = Ok (loc, w'))
           \/ main toy_ext (toy_args "detection" "none") fresh_world
              = Raise IndexError).
Proof.
  split; [apply (toy_choices_respected "none"); simpl; auto|].
  split; [discriminate|].
  apply (detection_run_returns toy_ext (toy_args "detection" "none")
           fresh_world).
  - apply (toy_choices_respected "none"). simpl. auto.
  - apply toy_args_valid.
  - apply toy_directories_available.
  - discriminate.
Defined.

(** X18. With arguments that argparse lets through, [main] returns or
    raises one of three exceptions: a ValueError (of [check_args], or of
    [list.index] in the classification branch), the OSError of creating the
    visualization directory, or an IndexError of the plotting code. It never
    raises KeyError, TypeError or FileNotFoundError: the class tables cover
    the choices, and every image that is opened has been saved. *)
Theorem main_raises_only (ext : External) (args : Args) (w : World) :
  choices_respected args ->
  (exists loc w', main ext args w = Ok (loc, w'))
  \/ (exists msg, main ext args w = Raise (ValueError msg))
  \/ main ext args w
     = Raise (OSError (path_join (save_dir args) "bboxes_visualization"))
  \/ main ext args w = Raise IndexError.
Proof.
  intros Hc.
  assert (Hcheck :
    (check_args args w = Ok (tt, world_after_check args w)
     /\ ~ constraint_violated args (cuda_is_available w)
     /\ (dir_exists w (save_dir args) = true
         \/ makedirs_ok w (save_dir args) = true))
    \/ exists msg, check_args args w = Raise (ValueError msg)).
  { destruct (dir_exists w (save_dir args)) eqn:E1.
    - destruct (check_args_decide args w (or_introl E1)) as [[H Hn]|[H _]];
        auto.
    - destruct (makedirs_ok w (save_dir args)) eqn:E2.
      + destruct (check_args_decide args w (or_intror E2)) as [[H Hn]|[H _]];
          auto.
      + right. eexists. now apply check_args_no_dir. }
  destruct Hcheck as [(Hok & Hn & Hd1)|[msg Hr]].
  2:{ right. left. exists msg. unfold main. now apply bind_raise. }
  destruct (dir_exists (world_after_check args w)
              (path_join (save_dir args) "bboxes_visualization")) eqn:E1.
  2:destruct (makedirs_ok (world_after_check args w)
                (path_join (save_dir args) "bboxes_visualization")) eqn:E2.
  3:{ right. right. left. now apply main_bbox_dir_fails. }
  all: assert (Hd : directories_available args w)
         by (split; [exact Hd1|rewrite ?E1, ?E2; auto]).
  all: destruct (choices_prompt_generator args Hc) as [pg Hpg].
  all: destruct (choices_image_generator args Hc) as [ig Hig].
  all: assert (Hsyn : synonym_generator args = "none"
                      \/ exists cls,
                           dict_get (synonym_generator args)
                             synonym_generators = Some cls)
         by (destruct (choices_synonym_generator args Hc) as [E|[_ E]]; auto).
  all: assert (Hann : image_annotator args = "owlv2")
         by (destruct Hc as (_ & _ & _ & [H|[]] & _); now symmetry).
  all: destruct (String.eqb_spec (task args) "classification")
         as [Htask|Htask].
  all: try (destruct (classification_run_cases ext args w pg ig Hn Hd Hpg Hig
                        Hsyn Htask) as [[_ H]|(os & o & _ & _ & _ & H)];
            [now left|right; left; eexists; exact H]).
  all: destruct (detection_run_cases ext args w pg ig Hn Hd Hpg Hig Hsyn
                   Htask Hann) as [[_ H]|[_ H]];
    [now left|now right; right; right].
Qed.

Lemma main_raises_only_witness :
  choices_respected (toy_args "detection" "wordnet")
  /\ ((exists loc w',
         main toy_ext (toy_args "detection" "wordnet") fresh_world
         = Ok (loc, w'))
      \/ (exists msg,
            main toy_ext (toy_args "detection" "wordnet") fresh_world
            = Raise (ValueError msg))
      \/ main toy_ext (toy_args "detection" "wordnet") fresh_world
         = Raise (OSError (path_join "out" "bboxes_visualization"))
      \/ main toy_ext (toy_args "detection" "wordnet") fresh_world
         = Raise IndexError).
Proof.
  split; [apply (toy_choices_respected "wordnet"); simpl; auto|].
  apply (main_raises_only toy_ext (toy_args "detection" "wordnet")
           fresh_world).
  apply (toy_choices_respected "wordnet"). simpl. auto.
Defined.

(** ** The quantization check *)

Lemma check_dir_bind (args : Args) (k : M unit) (w : World) :
  (when (negb (dir_exists w (save_dir args)))
     (try_except_OSError (makedirs (save_dir args))
        (fun _ => raise (ValueError ("Cannot create directory "
                                     ++ save_dir args)))) ;;; k) w
  = if dir_exists w (save_dir args) then k w
    else if makedirs_ok w (save_dir args) then k (add_dir (save_dir args) w)
         else Raise (ValueError ("Cannot create directory " ++ save_dir args)).
Proof.
  destruct (dir_exists w (save_dir args)); [reflexivity|].
  unfold bind, when, try_except_OSError, makedirs; simpl.
  now destruct (makedirs_ok w (save_dir args)).
Qed.

Lemma quantization_check_reached (args : Args) (w : World) :
  check_args args w
  = Raise (ValueError
             "LM Quantization is only available for CUDA devices and Mistral LM") ->
  (device args = "cuda" -> cuda_is_available w = true)
  /\ lm_quantization args <> "none"
  /\ (device args = "cpu" \/ cuda_is_available w = false
      \/ prompt_generator args <> "lm").
Proof.
  intros H. unfold check_args in H. rewrite bind_path_exists in H.
  rewrite check_dir_bind in H.
  assert (H' : exists w0,
    w0 = (if dir_exists w (save_dir args) then w
          else add_dir (save_dir args) w)
    /\ (when (is_nil (class_names args)
              || existsb (fun name => negb (isinstance_str name))
                   (class_names args))
          (raise (ValueError "--class_names must be a non-empty list of strings")) ;;;
        when (prompts_number args <=? 0)%Z
          (raise (ValueError "--prompts_number must be a positive integer")) ;;;
        bad_range <-
          (if negb (length (num_objects_range args) =? 2)%nat then ret true
           else if negb (forallb isinstance_int (num_objects_range args))
                then ret true
                else lo <- index (num_objects_range args) 0 ;;
                     hi <- index (num_objects_range args) 1 ;;
                     lift_result (py_gt lo hi)) ;;
        when bad_range
          (raise (ValueError "--num_objects_range must be two integers where the first is less than or equal to the second")) ;;;
        hi <- index (num_objects_range args) 1 ;;
        too_many <- lift_result
                      (py_gt hi (PInt (Z.of_nat (length (class_names args))))) ;;
        when too_many
          (raise (ValueError "--num_objects_range[1] must be less than or equal to the number of class names")) ;;;
        when (negb (conf_in_range (conf_threshold args)))
          (raise (ValueError "--conf_threshold must be between 0 and 1")) ;;;
        when (image_tester_patience args <? 0)%Z
          (raise (ValueError "--image_tester_patience must be a non-negative integer")) ;;;
        when (String.eqb (device args) "cuda")
          (cuda <- torch_cuda_is_available ;;
           when (negb cuda)
             (raise (ValueError "CUDA is not available. Please use --device cpu"))) ;;;
        cuda <- torch_cuda_is_available ;;
        when (negb (String.eqb (lm_quantization args) "none")
              && (String.eqb (device args) "cpu"
                  || negb cuda
                  || negb (String.eqb (prompt_generator args) "lm")))
          (raise (ValueError "LM Quantization is only available for CUDA devices and Mistral LM")) ;;;
        when (batch_size_prompt args <? 1)%Z
          (raise (ValueError "--batch_size_prompt must be a positive integer")) ;;;
        when (batch_size_annotation args <? 1)%Z
          (raise (ValueError "--batch_size_annotation must be a positive integer")) ;;;
        when (batch_size_image args <? 1)%Z
          (raise (ValueError "--batch_size_image must be a positive integer")) ;;;
        when (seed args <? 0)%Z
          (raise (ValueError "--seed must be a non-negative integer"))) w0
       = Raise (ValueError
                  "LM Quantization is only available for CUDA devices and Mistral LM")).
  { destruct (dir_exists w (save_dir args)); [eauto|].
    destruct (makedirs_ok w (save_dir args)); [eauto|].
    simpl in H. discriminate. }
  clear H. destruct H' as (w0 & Hw0 & H).
  assert (Hc : cuda_is_available w0 = cuda_is_available w)
    by (subst w0; now destruct (dir_exists w (save_dir args))).
  rewrite <- Hc. clear Hw0 Hc.
  (* class_names *)
  rewrite when_raise_bind in H.
  destruct (is_nil (class_names args) || _); [discriminate|].
  (* prompts_number *)
  rewrite when_raise_bind in H.
  destruct (prompts_number args <=? 0)%Z; [discriminate|].
  (* num_objects_range *)
  destruct (num_objects_range args) as [|lo [|hi [|extra r]]];
    try (cbn in H; discriminate).
  destruct lo as [s|lo]; [cbn in H; discriminate|].
  destruct hi as [s|hi]; [cbn in H; discriminate|].
  rewrite range_check_two, bind_ret, when_raise_bind in H.
  destruct (lo >? hi)%Z; [discriminate|].
  rewrite index_one, bind_ret, gt_int_int, bind_ret, when_raise_bind in H.
  destruct (hi >? _)%Z; [discriminate|].
  (* conf_threshold, image_tester_patience *)
  rewrite when_raise_bind in H.
  destruct (negb (conf_in_range (conf_threshold args))); [discriminate|].
  rewrite when_raise_bind in H.
  destruct (image_tester_patience args <? 0)%Z; [discriminate|].
  (* device *)
  rewrite when_cuda_bind in H.
  destruct (String.eqb_spec (device args) "cuda") as [E7|E7];
    destruct (cuda_is_available w0) eqn:Ecuda; cbn [andb negb] in H;
    try discriminate.
  all: rewrite bind_cuda, Ecuda, when_raise_bind in H.
  all: destruct (String.eqb_spec (lm_quantization args) "none") as [E8|E8];
    destruct (String.eqb_spec (device args) "cpu") as [E8a|E8a];
    destruct (String.eqb_spec (prompt_generator args) "lm") as [E8b|E8b];
    cbn [negb andb orb] in H.
  all: try (split; [congruence|split; [assumption|now auto]]).
  all: exfalso.
  all: rewrite when_raise_bind in H;
    destruct (batch_size_prompt args <? 1)%Z; [discriminate|].
  all: rewrite when_raise_bind in H;
    destruct (batch_size_annotation args <? 1)%Z; [discriminate|].
  all: rewrite when_raise_bind in H;
    destruct (batch_size_image args <? 1)%Z; [discriminate|].
  all: rewrite when_raise_last in H;
    destruct (seed args <? 0)%Z; discriminate.
Qed.

(** X19. The quantization check never fails for want of CUDA alone. With a
    device that argparse lets through, when [check_args] raises the
    quantization message then quantization was asked for and either the
    device is the CPU or the prompt generator is not the Mistral one: on
    [--device cuda] the earlier device check has already established that
    CUDA is available, so the test [not torch.cuda.is_available()] of the
    quantization check decides nothing. *)
Theorem quantization_check_cuda_redundant (args : Args) (w : World) :
  In (device args) ["cuda"; "cpu"] ->
  check_args args w
  = Raise (ValueError
             "LM Quantization is only available for CUDA devices and Mistral LM") ->
  lm_quantization args <> "none"
  /\ (device args = "cpu" \/ prompt_generator args <> "lm").
Proof.
  intros Hdev H.
  destruct (quantization_check_reached args w H) as (Hcuda & Hq & Hwhy).
  split; [exact Hq|].
  destruct Hwhy as [Hcpu|[Hno|Hpg]]; [now left| |now right].
  destruct Hdev as [Hd|[Hd|[]]]; [|now left].
  rewrite (Hcuda (eq_sym Hd)) in Hno. discriminate.
Qed.

Lemma quantization_check_cuda_redundant_witness :
  In (device quantized_cpu_args) ["cuda"; "cpu"]
  /\ check_args quantized_cpu_args fresh_world
     = Raise (ValueError
                "LM Quantization is only available for CUDA devices and Mistral LM")
  /\ lm_quantization quantized_cpu_args <> "none"
  /\ (device quantized_cpu_args = "cpu"
      \/ prompt_generator quantized_cpu_args <> "lm").
Proof.
  assert (Hdev : In (device quantized_cpu_args) ["cuda"; "cpu"])
    by (right; left; reflexivity).
  assert (Hraise : check_args quantized_cpu_args fresh_world
                   = Raise (ValueError
                              "LM Quantization is only available for CUDA devices and Mistral LM"))
    by (vm_compute; reflexivity).
  split; [exact Hdev|]. split; [exact Hraise|].
  exact (quantization_check_cuda_redundant quantized_cpu_args fresh_world
           Hdev Hraise).
Defined.
